(** * Financial-Model-Eval: the normalisation and validation pipeline

    A shallow embedding of [src/services/parser.js] (normaliser, classifier,
    cleaner) and of [utils/validation.js] (schema validator and quality
    warnings; its text follows the chart component in
    [src/config/components/DataVisualization.js]), with the properties the
    specification states about them.  [JSON.parse], Ajv and ajv-formats are
    not part of the repository: they are described after their standards and
    documentation, as far as the sources use them.

    Conventions of the embedding.
    - A JavaScript string is a [string] whose characters are UTF-16 code
      units below 256 (the Latin-1 range); [trim] and [toLowerCase] are the
      built-ins restricted to that range.
    - A JavaScript number is an exact rational ([Fin q]) or [NaN].  Binary64
      rounding, the infinities and the sign of zero are not represented: the
      embedding agrees with the engine on numbers that are exactly
      representable.
    - An object is the list of its own enumerable properties in the order
      [Object.entries] lists them; prototypes are [Object.prototype],
      [Array.prototype] and so on, as for every value built by [JSON.parse]
      or by csv-parse.
    - A call either returns ([Ok]), throws ([Throw]) or needs a coercion the
      embedding does not describe ([Unmodelled]). *)

From Stdlib Require Import List String Ascii Bool Arith ZArith QArith Lia.
From Stdlib Require Import DecimalString.
From Stdlib Require Import Permutation.
From Stdlib Require Qcanon.
Import ListNotations.

Close Scope Q_scope.
Local Open Scope string_scope.
Local Open Scope nat_scope.
Local Open Scope list_scope.

Set Warnings "-register-all".

(* ================================================================== *)
(** * JavaScript values and the built-ins the sources use             *)
(* ================================================================== *)

Module Js.

Inductive number : Type :=
| Fin (q : Q)
| NaN.

Inductive value : Type :=
| VUndefined
| VNull
| VBool (b : bool)
| VNum (n : number)
| VStr (s : string)
| VArr (items : list value)
| VObj (entries : list (string * value)).

Definition object := list (string * value).

(** A number literal of the sources: [int z] is the integer [z]. *)
Definition int (z : Z) : value := VNum (Fin (inject_Z z)).

Inductive js_error : Type :=
| Error (message : string)
| TypeError (message : string)
| SyntaxError (message : string).

Definition message (e : js_error) : string :=
  match e with
  | Error m => m
  | TypeError m => m
  | SyntaxError m => m
  end.

Inductive outcome (A : Type) : Type :=
| Ok (a : A)
| Throw (e : js_error)
| Unmodelled.

Arguments Ok {A} a.
Arguments Throw {A} e.
Arguments Unmodelled {A}.

Definition bind {A B : Type} (m : outcome A) (k : A -> outcome B) : outcome B :=
  match m with
  | Ok a => k a
  | Throw e => Throw e
  | Unmodelled => Unmodelled
  end.

(** [try { m } catch (error) { h error }] *)
Definition try_catch {A : Type} (m : outcome A) (h : js_error -> outcome A) : outcome A :=
  match m with
  | Throw e => h e
  | other => other
  end.

(** [xs.forEach(x => { acc = f acc x })], stopping at the first throw. *)
Fixpoint forEach {A S : Type} (f : S -> A -> outcome S) (xs : list A) (acc : S) : outcome S :=
  match xs with
  | [] => Ok acc
  | x :: rest => bind (f acc x) (forEach f rest)
  end.

(** ** Strings *)

Definition code (c : ascii) : nat := nat_of_ascii c.

(** WhiteSpace and LineTerminator code units below 256: TAB, LF, VT, FF, CR,
    SP and NBSP. *)
Definition isWhiteSpace (c : ascii) : bool :=
  let n := code c in
  ((9 <=? n) && (n <=? 13)) || (n =? 32) || (n =? 160).

Definition isDigit (c : ascii) : bool :=
  let n := code c in (48 <=? n) && (n <=? 57).

Fixpoint trimStart (s : string) : string :=
  match s with
  | String c rest => if isWhiteSpace c then trimStart rest else s
  | EmptyString => EmptyString
  end.

(** [trimEnd] drops the whitespace suffix: a character is kept when it is
    not whitespace or when something is kept after it. *)
Fixpoint trimEnd (s : string) : string :=
  match s with
  | EmptyString => EmptyString
  | String c rest =>
      match trimEnd rest with
      | EmptyString => if isWhiteSpace c then EmptyString else String c EmptyString
      | kept => String c kept
      end
  end.

Definition trim (s : string) : string := trimEnd (trimStart s).

(** Lower case mapping of the Latin-1 range: A-Z, and the capital letters
    U+00C0..U+00DE except the multiplication sign U+00D7. *)
Definition lowerChar (c : ascii) : ascii :=
  let n := code c in
  if ((65 <=? n) && (n <=? 90))
     || ((192 <=? n) && (n <=? 222) && negb (n =? 215))
  then ascii_of_nat (n + 32)
  else c.

Fixpoint toLowerCase (s : string) : string :=
  match s with
  | EmptyString => EmptyString
  | String c rest => String (lowerChar c) (toLowerCase rest)
  end.

Fixpoint startsWith (p s : string) : bool :=
  match p, s with
  | EmptyString, _ => true
  | String a p', String b s' => Ascii.eqb a b && startsWith p' s'
  | String _ _, EmptyString => false
  end.

(** [s.includes(p)] *)
Fixpoint includes (s p : string) : bool :=
  startsWith p s ||
  match s with
  | EmptyString => false
  | String _ rest => includes rest p
  end.

(** Decimal rendering of a non-negative integer, as [String(n)] gives it. *)
Definition natToString (n : nat) : string :=
  NilEmpty.string_of_uint (Nat.to_uint n).

(** ** Numbers *)

Definition num_eqb (a b : number) : bool :=
  match a, b with
  | Fin x, Fin y => Qeq_bool x y
  | _, _ => false
  end.

Definition num_ltb (a b : number) : bool :=
  match a, b with
  | Fin x, Fin y => negb (Qle_bool y x)
  | _, _ => false
  end.

Definition num_add (a b : number) : number :=
  match a, b with
  | Fin x, Fin y => Fin (Qred (x + y)%Q)
  | _, _ => NaN
  end.

(** ** Conversions and operators *)

(** ToBoolean *)
Definition truthy (v : value) : bool :=
  match v with
  | VUndefined | VNull => false
  | VBool b => b
  | VNum (Fin q) => negb (Qeq_bool q 0%Q)
  | VNum NaN => false
  | VStr s => negb (String.eqb s EmptyString)
  | VArr _ | VObj _ => true
  end.

(** [a || b] *)
Definition or_else (a b : value) : value := if truthy a then a else b.

Definition isNullish (v : value) : bool :=
  match v with
  | VUndefined | VNull => true
  | _ => false
  end.

Fixpoint lookup (k : string) (o : object) : option value :=
  match o with
  | [] => None
  | (k', v) :: rest => if String.eqb k k' then Some v else lookup k rest
  end.

Definition typeName (v : value) : string :=
  match v with
  | VUndefined => "undefined"
  | _ => "null"
  end.

(** [v.k] for a property name [k] that no built-in prototype defines except
    [length] (the sources read [type], [invoices], [expenses], [payments],
    [balances], [source], [date], [amount] and [length]).  Reading a
    property of [null] or [undefined] throws, with V8's message. *)
Definition get (v : value) (k : string) : outcome value :=
  match v with
  | VUndefined | VNull =>
      Throw (TypeError ("Cannot read properties of " ++ typeName v
                        ++ " (reading '" ++ k ++ "')")%string)
  | VObj o =>
      match lookup k o with
      | Some x => Ok x
      | None => Ok VUndefined
      end
  | VArr l =>
      if String.eqb k "length" then Ok (int (Z.of_nat (List.length l)))
      else Ok VUndefined
  | VStr s =>
      if String.eqb k "length" then Ok (int (Z.of_nat (String.length s)))
      else Ok VUndefined
  | VBool _ | VNum _ => Ok VUndefined
  end.

(** [v?.k] *)
Definition get_opt (v : value) (k : string) : value :=
  match v with
  | VUndefined | VNull => VUndefined
  | _ => match get v k with
         | Ok x => x
         | _ => VUndefined
         end
  end.

(** ** Conversion to a primitive, and [a + b]

    The values are data (parsed JSON, the rows of a CSV file): none of them
    is a function.  [OrdinaryToPrimitive] asks an object for its [valueOf]
    and its [toString].  Where the object has no own property of these
    names it finds those of [Object.prototype]: [valueOf] gives the object
    back, which is no primitive, and [toString] gives "[object Object]".
    An own property [valueOf] cannot be called and is passed over; an own
    property [toString] cannot be called either and hides the inherited
    one, so that no method is left and the conversion throws.  An array is
    joined ([Array.prototype.toString]), which converts its items in turn. *)
Definition noPrimitive : js_error :=
  TypeError "Cannot convert object to primitive value".

(** Whether the conversion of [v] to a string finds a method for every
    object it meets.  Each conversion that fails fails with [noPrimitive]
    and none has an effect, so this alone decides whether it throws. *)
Fixpoint printable (v : value) : bool :=
  match v with
  | VArr items => forallb printable items
  | VObj o => match lookup "toString" o with
              | Some _ => false
              | None => true
              end
  | _ => true
  end.

Definition ZToString (z : Z) : string :=
  NilEmpty.string_of_int (Z.to_int z).

(** Number::toString of [NaN] and of the integers up to
    [Number.MAX_SAFE_INTEGER] in size, which binary64 holds exactly.  The
    digits of any other number depend on its rounding, which the embedding
    leaves out. *)
Definition numberToString (n : number) : outcome string :=
  match n with
  | NaN => Ok "NaN"
  | Fin q =>
      let r := Qred q in
      if Pos.eqb (Qden r) 1 && (Z.abs (Qnum r) <=? 9007199254740991)%Z
      then Ok (ZToString (Qnum r))
      else Unmodelled
  end.

(** [items.join(",")], of items converted to strings. *)
Fixpoint join (items : list (outcome string)) : outcome string :=
  match items with
  | [] => Ok EmptyString
  | [item] => item
  | item :: rest =>
      bind item (fun s => bind (join rest) (fun t => Ok (s ++ "," ++ t)%string))
  end.

(** The string a printable value converts to; in the join of an array
    [undefined] and [null] give the empty string. *)
Fixpoint render (v : value) : outcome string :=
  match v with
  | VUndefined => Ok "undefined"
  | VNull => Ok "null"
  | VBool b => Ok (if b then "true" else "false")
  | VNum n => numberToString n
  | VStr s => Ok s
  | VArr items =>
      join (map (fun x => match x with
                          | VUndefined | VNull => Ok EmptyString
                          | _ => render x
                          end) items)
  | VObj _ => Ok "[object Object]"
  end.

(** ToString *)
Definition toString (v : value) : outcome string :=
  if printable v then render v else Throw noPrimitive.

(** ToPrimitive, without a preferred type. *)
Definition toPrimitive (v : value) : outcome value :=
  match v with
  | VArr _ | VObj _ => bind (toString v) (fun s => Ok (VStr s))
  | _ => Ok v
  end.

(** ToNumber of a primitive that is no string. *)
Definition toNumber (v : value) : number :=
  match v with
  | VNum n => n
  | VBool true => Fin 1
  | VBool false | VNull => Fin 0
  | _ => NaN
  end.

(** [a + b]: both operands are converted to primitives; with a string among
    them the two are concatenated, and otherwise added as numbers. *)
Definition add (a b : value) : outcome value :=
  if negb (printable a && printable b) then Throw noPrimitive
  else
    bind (toPrimitive a) (fun lprim =>
    bind (toPrimitive b) (fun rprim =>
    match lprim, rprim with
    | VStr _, _ | _, VStr _ =>
        bind (toString lprim) (fun lstr =>
        bind (toString rprim) (fun rstr => Ok (VStr (lstr ++ rstr)%string)))
    | _, _ => Ok (VNum (num_add (toNumber lprim) (toNumber rprim)))
    end)).

(** [a === b] against a primitive. *)
Definition strict_eq_num (a : value) (n : number) : bool :=
  match a with
  | VNum x => num_eqb x n
  | _ => false
  end.

(** Indices [0 .. n-1] as property names. *)
Definition indexKeys (n : nat) : list string := map natToString (seq 0 n).

(** [Object.keys(v)] for a value that is not [null] or [undefined]. *)
Definition keys (v : value) : list string :=
  match v with
  | VObj o => map fst o
  | VArr l => indexKeys (List.length l)
  | VStr s => indexKeys (String.length s)
  | _ => []
  end.

(** [Object.entries(v)] likewise. *)
Definition entries (v : value) : object :=
  match v with
  | VObj o => o
  | VArr l => combine (indexKeys (List.length l)) l
  | VStr s => combine (indexKeys (String.length s))
                      (map (fun c => VStr (String c EmptyString)) (list_ascii_of_string s))
  | _ => []
  end.

(** ** Property order and assignment *)

Definition NToString (n : N) : string :=
  NilEmpty.string_of_uint (N.to_uint n).

(** An array index is the canonical decimal name of an integer below
    [2^32 - 1]; such keys are listed first, in ascending order. *)
Definition arrayIndex (k : string) : option N :=
  match NilEmpty.uint_of_string k with
  | Some u =>
      let n := N.of_uint u in
      if String.eqb (NToString n) k && (n <=? 4294967294)%N then Some n else None
  | None => None
  end.

Fixpoint hasKey (k : string) (o : object) : bool :=
  match o with
  | [] => false
  | (k', _) :: rest => String.eqb k k' || hasKey k rest
  end.

Fixpoint update (k : string) (v : value) (o : object) : object :=
  match o with
  | [] => []
  | (k', v') :: rest =>
      if String.eqb k k' then (k', v) :: rest else (k', v') :: update k v rest
  end.

Fixpoint insertIndex (n : N) (k : string) (v : value) (o : object) : object :=
  match o with
  | [] => [(k, v)]
  | (k', v') :: rest =>
      match arrayIndex k' with
      | Some m => if (m <? n)%N then (k', v') :: insertIndex n k v rest
                  else (k, v) :: o
      | None => (k, v) :: o
      end
  end.

(** Creating or overwriting the own data property [k] of [o]. *)
Definition defineProperty (o : object) (k : string) (v : value) : object :=
  if hasKey k o then update k v o
  else match arrayIndex k with
       | Some n => insertIndex n k v o
       | None => o ++ [(k, v)]
       end.

(** [o[k] = v] on an object whose prototype is [Object.prototype]: the
    inherited [__proto__] accessor takes the assignment and no own property
    appears (the change of prototype it may cause is not represented). *)
Definition assign (o : object) (k : string) (v : value) : object :=
  if String.eqb k "__proto__" then o else defineProperty o k v.

(** ** parseFloat *)

Fixpoint takeDigits (s : string) : list ascii * string :=
  match s with
  | String c rest =>
      if isDigit c then let (ds, tl) := takeDigits rest in (c :: ds, tl)
      else ([], s)
  | EmptyString => ([], EmptyString)
  end.

Definition digitsValue (ds : list ascii) : Z :=
  fold_left (fun acc c => (acc * 10 + (Z.of_nat (code c) - 48))%Z) ds 0%Z.

(** [m * 10^e] *)
Definition scale10 (m e : Z) : Q :=
  Qred (if (0 <=? e)%Z then inject_Z (m * 10 ^ e)
        else Qmake m (Z.to_pos (10 ^ (- e)))).

Definition takeSign (s : string) : bool * string :=
  match s with
  | String "-" rest => (true, rest)
  | String "+" rest => (false, rest)
  | _ => (false, s)
  end.

(** The exponent part, when one can be read: [e] or [E], an optional sign
    and at least one digit. *)
Definition takeExponent (s : string) : Z :=
  match s with
  | String c rest =>
      if Ascii.eqb c "e" || Ascii.eqb c "E" then
        let (neg, rest') := takeSign rest in
        match fst (takeDigits rest') with
        | [] => 0%Z
        | ds => if neg then (- digitsValue ds)%Z else digitsValue ds
        end
      else 0%Z
  | EmptyString => 0%Z
  end.

(** [parseFloat(s)]: leading whitespace is skipped and the longest prefix
    that is a decimal literal is read; [NaN] when there is none.  (The
    literal [Infinity] is outside the number model.) *)
Definition parseFloat (s : string) : number :=
  let (neg, s1) := takeSign (trimStart s) in
  let (ip, s2) := takeDigits s1 in
  let (fp, s3) :=
    match s2 with
    | String "." rest => takeDigits rest
    | _ => ([], s2)
    end in
  match ip ++ fp with
  | [] => NaN
  | ds =>
      let m := digitsValue ds in
      let e := (takeExponent s3 - Z.of_nat (List.length fp))%Z in
      Fin (scale10 (if neg then (- m)%Z else m) e)
  end.

End Js.

(* ================================================================== *)
(** * Regular expressions                                             *)
(* ================================================================== *)

Module Regex.

Inductive cclass : Type :=
| CChar (c : ascii)        (* a literal character *)
| CDigit.                  (* \d *)

Definition inClass (k : cclass) (c : ascii) : bool :=
  match k with
  | CChar a => Ascii.eqb a c
  | CDigit => Js.isDigit c
  end.

Inductive re : Type :=
| Void
| Eps
| Sym (k : cclass)
| Alt (a b : re)
| Cat (a b : re)
| Star (a : re).

(** [a?] and [a+] *)
Definition Opt (a : re) : re := Alt a Eps.
Definition Plus (a : re) : re := Cat a (Star a).

Fixpoint nullable (r : re) : bool :=
  match r with
  | Void => false
  | Eps => true
  | Sym _ => false
  | Alt a b => nullable a || nullable b
  | Cat a b => nullable a && nullable b
  | Star _ => true
  end.

Fixpoint deriv (c : ascii) (r : re) : re :=
  match r with
  | Void => Void
  | Eps => Void
  | Sym k => if inClass k c then Eps else Void
  | Alt a b => Alt (deriv c a) (deriv c b)
  | Cat a b =>
      if nullable a then Alt (Cat (deriv c a) b) (deriv c b)
      else Cat (deriv c a) b
  | Star a => Cat (deriv c a) (Star a)
  end.

(** [/^r$/.test(s)]: the whole of [s] is matched (no [m] flag, so [$] is the
    end of the input; no [g] or [y] flag, so the test keeps no state). *)
Fixpoint test (r : re) (s : string) : bool :=
  match s with
  | EmptyString => nullable r
  | String c rest => test (deriv c r) rest
  end.

End Regex.

(* ================================================================== *)
(** * JSON.parse                                                      *)
(* ================================================================== *)

(** The JSON grammar of ECMA-404 as [JSON.parse] reads it (no reviver).  The
    text of the [SyntaxError] is the engine's and is not reproduced.  An
    escape [\uXXXX] above [00FF] denotes a code unit outside the string
    model: [Unmodelled]. *)
Module Json.
Import Js.

Definition syntaxError {A : Type} : outcome A :=
  Throw (SyntaxError "Unexpected token or end of JSON input").

Definition isJsonSpace (c : ascii) : bool :=
  let n := code c in (n =? 32) || (n =? 9) || (n =? 10) || (n =? 13).

Fixpoint skipSpace (s : string) : string :=
  match s with
  | String c rest => if isJsonSpace c then skipSpace rest else s
  | EmptyString => EmptyString
  end.

Definition hexValue (c : ascii) : option nat :=
  let n := code c in
  if (48 <=? n) && (n <=? 57) then Some (n - 48)
  else if (65 <=? n) && (n <=? 70) then Some (n - 55)
  else if (97 <=? n) && (n <=? 102) then Some (n - 87)
  else None.

Definition hex4 (s : string) : option (nat * string) :=
  match s with
  | String a (String b (String c (String d rest))) =>
      match hexValue a, hexValue b, hexValue c, hexValue d with
      | Some x, Some y, Some z, Some w =>
          Some (((x * 16 + y) * 16 + z) * 16 + w, rest)
      | _, _, _, _ => None
      end
  | _ => None
  end.

Definition escapeChar (c : ascii) : option ascii :=
  let n := code c in
  if n =? 34 then Some c                     (* quotation mark *)
  else if n =? 92 then Some c                (* reverse solidus *)
  else if n =? 47 then Some c                (* solidus *)
  else if n =? 98 then Some (ascii_of_nat 8)
  else if n =? 102 then Some (ascii_of_nat 12)
  else if n =? 110 then Some (ascii_of_nat 10)
  else if n =? 114 then Some (ascii_of_nat 13)
  else if n =? 116 then Some (ascii_of_nat 9)
  else None.

(** The characters of a string literal after its opening quotation mark.
    [fuel] bounds the number of characters read. *)
Fixpoint stringBody (fuel : nat) (s : string) : outcome (string * string) :=
  match fuel with
  | O => syntaxError
  | S fuel' =>
      match s with
      | EmptyString => syntaxError
      | String c rest =>
          if code c =? 34 then Ok (EmptyString, rest)
          else if code c =? 92 then
            match rest with
            | EmptyString => syntaxError
            | String e rest' =>
                if code e =? 117 then
                  match hex4 rest' with
                  | Some (n, rest'') =>
                      if n <? 256 then
                        bind (stringBody fuel' rest'')
                             (fun r => Ok (String (ascii_of_nat n) (fst r), snd r))
                      else Unmodelled
                  | None => syntaxError
                  end
                else
                  match escapeChar e with
                  | Some x =>
                      bind (stringBody fuel' rest')
                           (fun r => Ok (String x (fst r), snd r))
                  | None => syntaxError
                  end
            end
          else if code c <? 32 then syntaxError
          else bind (stringBody fuel' rest)
                    (fun r => Ok (String c (fst r), snd r))
      end
  end.

Definition wellFormedInt (ds : list ascii) : bool :=
  match ds with
  | [] => false
  | [_] => true
  | d :: _ => negb (code d =? 48)
  end.

(** A number literal: an optional minus, an integer part without leading
    zero, an optional fraction and an optional exponent. *)
Definition numberLiteral (s : string) : outcome (value * string) :=
  let (neg, s1) :=
    match s with
    | String "-" rest => (true, rest)
    | _ => (false, s)
    end in
  let (ip, s2) := takeDigits s1 in
  if negb (wellFormedInt ip) then syntaxError
  else
    let frac :=
      match s2 with
      | String "." rest =>
          let (fp, s3) := takeDigits rest in
          match fp with
          | [] => None
          | _ => Some (fp, s3)
          end
      | _ => Some ([], s2)
      end in
    match frac with
    | None => syntaxError
    | Some (fp, s3) =>
        let expo :=
          match s3 with
          | String c rest =>
              if Ascii.eqb c "e" || Ascii.eqb c "E" then
                let (eneg, rest') :=
                  match rest with
                  | String "-" r => (true, r)
                  | String "+" r => (false, r)
                  | _ => (false, rest)
                  end in
                let (ed, s4) := takeDigits rest' in
                match ed with
                | [] => None
                | _ => Some ((if eneg then - digitsValue ed else digitsValue ed)%Z, s4)
                end
              else Some (0%Z, s3)
          | EmptyString => Some (0%Z, s3)
          end in
        match expo with
        | None => syntaxError
        | Some (e, s4) =>
            let m := digitsValue (ip ++ fp) in
            Ok (VNum (Fin (scale10 (if neg then (- m)%Z else m)
                                   (e - Z.of_nat (List.length fp)))),
                s4)
        end
    end.

Definition keyword (word : string) (v : value) (s : string) : outcome (value * string) :=
  if startsWith word s then Ok (v, substring (String.length word) (String.length s) s)
  else syntaxError.

Fixpoint parseValue (fuel : nat) (s : string) : outcome (value * string) :=
  match fuel with
  | O => syntaxError
  | S fuel' =>
      match skipSpace s with
      | EmptyString => syntaxError
      | String c rest =>
          let n := code c in
          if n =? 123 then                              (* left brace *)
            match skipSpace rest with
            | String d rest' =>
                if code d =? 125 then Ok (VObj [], rest')
                else parseMembers fuel' (String d rest') []
            | EmptyString => syntaxError
            end
          else if n =? 91 then                          (* left bracket *)
            match skipSpace rest with
            | String d rest' =>
                if code d =? 93 then Ok (VArr [], rest')
                else parseElements fuel' (String d rest') []
            | EmptyString => syntaxError
            end
          else if n =? 34 then
            bind (stringBody (String.length rest) rest)
                 (fun r => Ok (VStr (fst r), snd r))
          else if n =? 116 then keyword "true" (VBool true) (String c rest)
          else if n =? 102 then keyword "false" (VBool false) (String c rest)
          else if n =? 110 then keyword "null" VNull (String c rest)
          else numberLiteral (String c rest)
      end
  end

with parseElements (fuel : nat) (s : string) (acc : list value)
  : outcome (value * string) :=
  match fuel with
  | O => syntaxError
  | S fuel' =>
      bind (parseValue fuel' s)
           (fun r =>
              let acc' := acc ++ [fst r] in
              match skipSpace (snd r) with
              | String d rest =>
                  if code d =? 44 then parseElements fuel' rest acc'
                  else if code d =? 93 then Ok (VArr acc', rest)
                  else syntaxError
              | EmptyString => syntaxError
              end)
  end

with parseMembers (fuel : nat) (s : string) (acc : object)
  : outcome (value * string) :=
  match fuel with
  | O => syntaxError
  | S fuel' =>
      match skipSpace s with
      | String q rest =>
          if code q =? 34 then
            bind (stringBody (String.length rest) rest)
                 (fun k =>
                    match skipSpace (snd k) with
                    | String colon rest' =>
                        if code colon =? 58 then
                          bind (parseValue fuel' rest')
                               (fun r =>
                                  let acc' := defineProperty acc (fst k) (fst r) in
                                  match skipSpace (snd r) with
                                  | String d rest'' =>
                                      if code d =? 44 then parseMembers fuel' rest'' acc'
                                      else if code d =? 125 then Ok (VObj acc', rest'')
                                      else syntaxError
                                  | EmptyString => syntaxError
                                  end)
                        else syntaxError
                    | EmptyString => syntaxError
                    end)
          else syntaxError
      | EmptyString => syntaxError
      end
  end.

(** [JSON.parse(text)] *)
Definition parse (text : string) : outcome value :=
  bind (parseValue (2 * String.length text + 2) text)
       (fun r =>
          match skipSpace (snd r) with
          | EmptyString => Ok (fst r)
          | String _ _ => syntaxError
          end).

End Json.

(* ================================================================== *)
(** * services/parser.js                                              *)
(* ================================================================== *)

Module Parser.
Import Js.

Notation "x <- m ;; k" := (bind m (fun x => k))
  (at level 61, m at next level, right associativity).

(** ** detectRecordType *)

Definition mentions (words : list string) (k : string) : bool :=
  existsb (includes k) words.

Definition detectRecordType (record : value) : outcome string :=
  t <- get record "type" ;;
  explicit <-
    (if truthy t then
       match t with
       | VStr s =>
           let type := toLowerCase s in
           if String.eqb type "invoice" || String.eqb type "bill" then
             Ok (Some "invoices")
           else if String.eqb type "payment" || String.eqb type "transaction" then
             Ok (Some "payments")
           else if String.eqb type "expense" then
             Ok (Some "expenses")
           else if String.eqb type "balance" then
             Ok (Some "balances")
           else Ok None
       | _ => Throw (TypeError "record.type.toLowerCase is not a function")
       end
     else Ok None) ;;
  match explicit with
  | Some category => Ok category
  | None =>
      let keys := map toLowerCase (keys record) in
      if existsb (mentions ["invoice"; "bill"; "revenue"]) keys then
        Ok "invoices"
      else if existsb (mentions ["payment"; "transaction"]) keys then
        Ok "payments"
      else if existsb (mentions ["balance"; "account"]) keys then
        Ok "balances"
      else
        Ok "expenses"
  end.

(** ** categorizeFlatData *)

Definition emptyCategories : object :=
  [("invoices", VArr []); ("expenses", VArr []);
   ("payments", VArr []); ("balances", VArr [])].

(** [categorized[k].push(record)] *)
Definition push (categorized : object) (k : string) (record : value) : object :=
  match lookup k categorized with
  | Some (VArr l) => update k (VArr (l ++ [record])) categorized
  | _ => categorized
  end.

Definition categorizeStep (categorized : object) (record : value) : outcome object :=
  type <- detectRecordType record ;;
  match lookup type categorized with
  | Some bucket =>
      if truthy bucket then Ok (push categorized type record)
      else Ok (push categorized "expenses" record)
  | None => Ok (push categorized "expenses" record)
  end.

Definition categorizeFlatData (flatData : list value) : outcome value :=
  categorized <- forEach categorizeStep flatData emptyCategories ;;
  Ok (VObj categorized).

(** ** getTotalRecordCount *)

(** [(data.k?.length || 0)] *)
Definition lengthOrZero (data : value) (k : string) : outcome value :=
  field <- get data k ;;
  Ok (or_else (get_opt field "length") (int 0)).

Definition getTotalRecordCount (data : value) : outcome value :=
  a <- lengthOrZero data "invoices" ;;
  b <- lengthOrZero data "expenses" ;;
  ab <- add a b ;;
  c <- lengthOrZero data "payments" ;;
  abc <- add ab c ;;
  d <- lengthOrZero data "balances" ;;
  add abc d.

(** ** normalizeFinancialData *)

(** The calls of the logger are left out; the lengths they read are those
    of values that are not [null], which cannot throw. *)
Section Normalizer.

(** [JSON.parse], which throws a [SyntaxError] on malformed text. *)
Variable JSON_parse : string -> outcome value.
(** [new Date().toISOString()] at the time of the call. *)
Variable now : string.

Definition normalizeFinancialData (input : value) : outcome value :=
  try_catch
    (data <-
       match input with
       | VStr text =>
           try_catch (JSON_parse text)
                     (fun _ => Throw (Error "Invalid JSON format"))
       | _ => Ok input
       end ;;
     data <-
       match data with
       | VArr flatData => categorizeFlatData flatData
       | _ => Ok data
       end ;;
     invoices <- get data "invoices" ;;
     expenses <- get data "expenses" ;;
     payments <- get data "payments" ;;
     balances <- get data "balances" ;;
     source <- get data "source" ;;
     recordCount <- getTotalRecordCount data ;;
     Ok (VObj
           [("invoices", or_else invoices (VArr []));
            ("expenses", or_else expenses (VArr []));
            ("payments", or_else payments (VArr []));
            ("balances", or_else balances (VArr []));
            ("metadata",
             VObj [("source", or_else source (VStr "manual_input"));
                   ("timestamp", VStr now);
                   ("recordCount", recordCount)])]))
    (fun error =>
       Throw (Error ("Data normalization failed: " ++ message error)%string)).

End Normalizer.

(** ** cleanRecord *)

(** The regular expression literal [/^-?\d+\.?\d*$/]. *)
Definition numericPattern : Regex.re :=
  Regex.Cat (Regex.Opt (Regex.Sym (Regex.CChar "-")))
    (Regex.Cat (Regex.Plus (Regex.Sym Regex.CDigit))
       (Regex.Cat (Regex.Opt (Regex.Sym (Regex.CChar ".")))
          (Regex.Star (Regex.Sym Regex.CDigit)))).

(** The body of the [forEach] callback: what becomes of one value, [None]
    when the callback returns early. *)
Definition cleanValue (value : value) : option Js.value :=
  if isNullish value then None
  else
    match value with
    | VStr s =>
        let s := trim s in
        if String.eqb s EmptyString then None
        else if Regex.test numericPattern s then Some (VNum (parseFloat s))
        else Some (VStr s)
    | _ => Some value
    end.

Definition cleanEntry (cleaned : object) (entry : string * value) : object :=
  let (key, value) := entry in
  match cleanValue value with
  | None => cleaned
  | Some value => assign cleaned key value
  end.

Definition cleanRecord (record : value) : outcome value :=
  if isNullish record then
    Throw (TypeError "Cannot convert undefined or null to object")
  else
    Ok (VObj (fold_left cleanEntry (entries record) [])).

(** ** cleanFinancialData *)

(** [record && typeof record === 'object'] *)
Definition isObjectLike (record : value) : bool :=
  match record with
  | VObj _ | VArr _ => true
  | _ => false
  end.

Fixpoint mapM {A B : Type} (f : A -> outcome B) (xs : list A) : outcome (list B) :=
  match xs with
  | [] => Ok []
  | x :: rest => y <- f x ;; ys <- mapM f rest ;; Ok (y :: ys)
  end.

Definition cleanCategory (cleaned : object) (category : string) : outcome object :=
  match lookup category cleaned with
  | Some current =>
      if truthy current then
        match current with
        | VArr records =>
            records' <- mapM cleanRecord (filter isObjectLike records) ;;
            Ok (defineProperty cleaned category (VArr records'))
        | _ => Throw (TypeError "cleaned[category].filter is not a function")
        end
      else Ok cleaned
  | None => Ok cleaned
  end.

(** [{ ...data }] copies the own properties; each category that is present
    and truthy is then filtered and cleaned. *)
Definition cleanFinancialData (data : value) : outcome value :=
  let cleaned := fold_left (fun o kv => defineProperty o (fst kv) (snd kv))
                           (entries data) [] in
  cleaned <- forEach cleanCategory
               ["invoices"; "expenses"; "payments"; "balances"] cleaned ;;
  Ok (VObj cleaned).

End Parser.

(* ================================================================== *)
(** * Ajv: the JSON Schema validator                                  *)
(* ================================================================== *)

(** The part of Ajv 8 that [utils/validation.js] relies on: the keywords
    [type], [enum], [minimum], [format], [items], [required] and
    [properties], evaluated with [allErrors: true].  [default] and
    [additionalProperties: true] produce no check. *)
Module Ajv.
Import Js.

Inductive jsonType : Type :=
| TNull | TBoolean | TNumber | TInteger | TString | TArray | TObject.

Inductive keyword (schema : Type) : Type :=
| KType (t : jsonType)                         (* type: 't' *)
| KTypes (ts : list jsonType)                  (* type: ['t', ...] *)
| KEnum (allowed : list value)
| KMinimum (limit : Q)
| KFormat (name : string)
| KDefault (v : value)
| KItems (items : schema)
| KRequired (names : list string)
| KProperties (properties : list (string * schema))
| KAdditionalProperties (allowed : bool).

Arguments KType {schema} t.
Arguments KTypes {schema} ts.
Arguments KEnum {schema} allowed.
Arguments KMinimum {schema} limit.
Arguments KFormat {schema} name.
Arguments KDefault {schema} v.
Arguments KItems {schema} items.
Arguments KRequired {schema} names.
Arguments KProperties {schema} properties.
Arguments KAdditionalProperties {schema} allowed.

Inductive schema : Type :=
| Schema (keywords : list (keyword schema)).

Record errorObject : Type := {
  instancePath : string;
  schemaPath : string;
  keyword_ : string;
  params : value;
  message : string;
  data : value
}.

Definition typeName (t : jsonType) : string :=
  match t with
  | TNull => "null"
  | TBoolean => "boolean"
  | TNumber => "number"
  | TInteger => "integer"
  | TString => "string"
  | TArray => "array"
  | TObject => "object"
  end.

Definition isInteger (q : Q) : bool :=
  (Z.pos (Qden (Qred q)) =? 1)%Z.

Definition hasType (t : jsonType) (data : value) : bool :=
  match t, data with
  | TNull, VNull => true
  | TBoolean, VBool _ => true
  | TNumber, VNum (Fin _) => true
  | TInteger, VNum (Fin q) => isInteger q
  | TString, VStr _ => true
  | TArray, VArr _ => true
  | TObject, VObj _ => true
  | _, _ => false
  end.

(** The type keyword of a schema, as the list of the types it names. *)
Definition schemaTypes (ks : list (keyword schema)) : option (list jsonType * value) :=
  let pick k :=
    match k with
    | KType t => Some ([t], VStr (typeName t))
    | KTypes ts => Some (ts, VArr (map (fun t => VStr (typeName t)) ts))
    | _ => None
    end in
  fold_right (fun k found => match pick k with Some r => Some r | None => found end)
             None ks.

(** The rule group of a keyword: the data type it applies to. *)
Definition inGroup (g : jsonType) (k : keyword schema) : bool :=
  match g, k with
  | TNumber, KMinimum _ => true
  | TNumber, KFormat _ => true
  | TString, KFormat _ => true
  | TArray, KItems _ => true
  | TObject, KRequired _ => true
  | TObject, KProperties _ => true
  | TObject, KAdditionalProperties _ => true
  | _, _ => false
  end.

Definition jsonType_eqb (a b : jsonType) : bool :=
  String.eqb (typeName a) (typeName b).

(** The type error is reported by the rule group of the type when the
    schema names a single type and has keywords of that group, and ahead of
    all keywords otherwise. *)
Definition deferredType (ks : list (keyword schema)) : option jsonType :=
  match schemaTypes ks with
  | Some ([t], _) => if existsb (inGroup t) ks then Some t else None
  | _ => None
  end.

Fixpoint joinWith (sep : string) (parts : list string) : string :=
  match parts with
  | [] => EmptyString
  | [x] => x
  | x :: rest => (x ++ sep ++ joinWith sep rest)%string
  end.

(** Deep equality (fast-deep-equal), used by [enum]. *)
Fixpoint equal (a b : value) : bool :=
  match a, b with
  | VUndefined, VUndefined => true
  | VNull, VNull => true
  | VBool x, VBool y => Bool.eqb x y
  | VNum NaN, VNum NaN => true
  | VNum x, VNum y => num_eqb x y
  | VStr x, VStr y => String.eqb x y
  | VArr xs, VArr ys =>
      (fix each (xs ys : list value) : bool :=
         match xs, ys with
         | [], [] => true
         | x :: xs', y :: ys' => equal x y && each xs' ys'
         | _, _ => false
         end) xs ys
  | VObj xo, VObj yo =>
      (List.length xo =? List.length yo) &&
      (fix each (xo : object) : bool :=
         match xo with
         | [] => true
         | (k, x) :: xo' =>
             match lookup k yo with
             | Some y => equal x y
             | None => false
             end && each xo'
         end) xo
  | _, _ => false
  end.

Definition quote : string := String (ascii_of_nat 34) EmptyString.

Section Compile.

(** The formats registered with the instance. *)
Variable formats : string -> option (string -> bool).
(** The [verbose] option of the instance: only with it do error objects
    carry the validated [data] (and the schema). *)
Variable verbose : bool.

Definition attach (data : value) : value :=
  if verbose then data else VUndefined.

Definition typeError (ipath spath : string) (ks : list (keyword schema)) (data : value)
  : list errorObject :=
  match schemaTypes ks with
  | Some (ts, shown) =>
      if existsb (fun t => hasType t data) ts then []
      else [{| instancePath := ipath;
               schemaPath := (spath ++ "/type")%string;
               keyword_ := "type";
               params := VObj [("type", shown)];
               message := ("must be " ++ joinWith "," (map typeName ts))%string;
               data := attach data |}]
  | None => []
  end.


Definition checkEnum (ipath spath : string) (k : keyword schema) (data : value)
  : list errorObject :=
  match k with
  | KEnum allowed =>
      if existsb (equal data) allowed then []
      else [{| instancePath := ipath;
               schemaPath := (spath ++ "/enum")%string;
               keyword_ := "enum";
               params := VObj [("allowedValues", VArr allowed)];
               message := "must be equal to one of the allowed values";
               data := attach data |}]
  | _ => []
  end.

(** The limit as the message shows it (an integer limit). *)
Definition showLimit (q : Q) : string :=
  match Qnum (Qred q) with
  | Z.neg p => ("-" ++ NToString (N.pos p))%string
  | z => NToString (Z.to_N z)
  end.

Definition checkNumber (ipath spath : string) (k : keyword schema) (q : Q)
  : list errorObject :=
  match k with
  | KMinimum limit =>
      if Qle_bool limit q then []
      else [{| instancePath := ipath;
               schemaPath := (spath ++ "/minimum")%string;
               keyword_ := "minimum";
               params := VObj [("comparison", VStr ">=");
                               ("limit", VNum (Fin limit))];
               message := ("must be >= " ++ showLimit limit)%string;
               data := attach (VNum (Fin q)) |}]
  | _ => []
  end.

Definition checkString (ipath spath : string) (k : keyword schema) (s : string)
  : list errorObject :=
  match k with
  | KFormat name =>
      match formats name with
      | Some accepts =>
          if accepts s then []
          else [{| instancePath := ipath;
                   schemaPath := (spath ++ "/format")%string;
                   keyword_ := "format";
                   params := VObj [("format", VStr name)];
                   message := ("must match format " ++ quote ++ name ++ quote)%string;
                   data := attach (VStr s) |}]
      | None => []
      end
  | _ => []
  end.

(** [data[name] === undefined] *)
Definition missing (o : object) (name : string) : bool :=
  match lookup name o with
  | None | Some VUndefined => true
  | Some _ => false
  end.

Definition checkRequired (ipath spath : string) (k : keyword schema) (o : object)
  : list errorObject :=
  match k with
  | KRequired names =>
      map (fun name =>
             {| instancePath := ipath;
                schemaPath := (spath ++ "/required")%string;
                keyword_ := "required";
                params := VObj [("missingProperty", VStr name)];
                message := ("must have required property '" ++ name ++ "'")%string;
                data := attach (VObj o) |})
          (filter (missing o) names)
  | _ => []
  end.

(** The errors of [data] against a schema, in the order the compiled
    validator reports them: the type (unless deferred), the keywords for
    every type, then the number, string, array and object groups. *)
Fixpoint validate (s : schema) (ipath spath : string) (data : value) {struct s}
  : list errorObject :=
  match s with
  | Schema ks =>
      let deferred := deferredType ks in
      let typeErrorOf (g : jsonType) :=
        match deferred with
        | Some t => if jsonType_eqb t g then typeError ipath spath ks data else []
        | None => []
        end in
      (match deferred with
       | Some _ => []
       | None => typeError ipath spath ks data
       end)
      ++ flat_map (fun k => checkEnum ipath spath k data) ks
      ++ (match data with
          | VNum (Fin q) => flat_map (fun k => checkNumber ipath spath k q) ks
          | _ => typeErrorOf TNumber
          end)
      ++ (match data with
          | VStr str => flat_map (fun k => checkString ipath spath k str) ks
          | _ => typeErrorOf TString
          end)
      ++ (match data with
          | VArr elements =>
              flat_map
                (fun k =>
                   match k with
                   | KItems sub =>
                       flat_map
                         (fun ix =>
                            validate sub
                              (ipath ++ "/" ++ natToString (fst ix))%string
                              (spath ++ "/items")%string
                              (snd ix))
                         (combine (seq 0 (List.length elements)) elements)
                   | _ => []
                   end) ks
          | _ => typeErrorOf TArray
          end)
      ++ (match data with
          | VObj o =>
              flat_map (fun k => checkRequired ipath spath k o) ks
              ++ flat_map
                   (fun k =>
                      match k with
                      | KProperties properties =>
                          flat_map
                            (fun p =>
                               match lookup (fst p) o with
                               | None | Some VUndefined => []
                               | Some x =>
                                   validate (snd p)
                                     (ipath ++ "/" ++ fst p)%string
                                     (spath ++ "/properties/" ++ fst p)%string
                                     x
                               end)
                            properties
                      | _ => []
                      end) ks
          | _ => typeErrorOf TObject
          end)
  end.

(** [ajv.compile(schema)]: the validation function, giving the list its
    [errors] property holds after the call (empty when the data is valid). *)
Definition compile (s : schema) (data : value) : list errorObject :=
  validate s EmptyString "#" data.

End Compile.

End Ajv.

(* ================================================================== *)
(** * ajv-formats                                                     *)
(* ================================================================== *)

(** The two formats the schema names, in the default (full) mode of
    ajv-formats 2. *)
Module AjvFormats.
Import Js Regex.

Definition digit : re := Sym CDigit.
Definition lit (c : ascii) : re := Sym (CChar c).
Definition digits2 : re := Cat digit digit.

(** [/^(\d\d\d\d)-(\d\d)-(\d\d)$/] *)
Definition DATE : re :=
  Cat digits2 (Cat digits2 (Cat (lit "-") (Cat digits2 (Cat (lit "-") digits2)))).

(** [+str.substring(from, from + len)] for a run of digits. *)
Definition field (str : string) (from len : nat) : nat :=
  Z.to_nat (digitsValue (list_ascii_of_string (substring from len str))).

Definition isLeapYear (year : nat) : bool :=
  (year mod 4 =? 0) && (negb (year mod 100 =? 0) || (year mod 400 =? 0)).

Definition DAYS : list nat := [0; 31; 28; 31; 30; 31; 30; 31; 31; 30; 31; 30; 31].

Definition date (str : string) : bool :=
  if test DATE str then
    let year := field str 0 4 in
    let month := field str 5 2 in
    let day := field str 8 2 in
    (1 <=? month) && (month <=? 12) && (1 <=? day) &&
    (day <=? (if (month =? 2) && isLeapYear year then 29 else nth month DAYS 0))
  else false.

(** [z|[+-]\d\d(?::?\d\d)?] with the [i] flag *)
Definition ZONE : re :=
  Alt (Alt (lit "z") (lit "Z"))
      (Cat (Alt (lit "+") (lit "-"))
           (Cat digits2 (Opt (Cat (Opt (lit ":")) digits2)))).

(** [/^(\d\d):(\d\d):(\d\d)(\.\d+)?(zone)?$/i]; [zoned] makes the last
    group mandatory, which is what [!!matches[5]] asks for. *)
Definition TIME (zoned : bool) : re :=
  Cat digits2 (Cat (lit ":") (Cat digits2 (Cat (lit ":") (Cat digits2
    (Cat (Opt (Cat (lit ".") (Plus digit)))
         (if zoned then ZONE else Opt ZONE)))))).

Definition time (str : string) (withTimeZone : bool) : bool :=
  if test (TIME false) str then
    let hour := field str 0 2 in
    let minute := field str 3 2 in
    let second := field str 6 2 in
    (((hour <=? 23) && (minute <=? 59) && (second <=? 59))
     || ((hour =? 23) && (minute =? 59) && (second =? 60)))
    && (negb withTimeZone || test (TIME true) str)
  else false.

(** [str.split(/t|\s/i)] *)
Fixpoint splitDateTime (str : string) : list string :=
  match str with
  | EmptyString => [EmptyString]
  | String c rest =>
      if Ascii.eqb c "t" || Ascii.eqb c "T" || isWhiteSpace c then
        EmptyString :: splitDateTime rest
      else
        match splitDateTime rest with
        | piece :: pieces => String c piece :: pieces
        | [] => [String c EmptyString]
        end
  end.

Definition date_time (str : string) : bool :=
  match splitDateTime str with
  | [d; t] => date d && time t true
  | _ => false
  end.

(** What [addFormats(ajv)] registers, as far as the schema uses it. *)
Definition formats (name : string) : option (string -> bool) :=
  if String.eqb name "date" then Some date
  else if String.eqb name "date-time" then Some date_time
  else None.

End AjvFormats.

(* ================================================================== *)
(** * utils/validation.js                                             *)
(* ================================================================== *)

Module Validation.
Import Js Ajv.

Notation "x <- m ;; k" := (bind m (fun x => k))
  (at level 61, m at next level, right associativity).

Definition stringOrNumber : schema := Schema [KTypes [TString; TNumber]].
Definition aString : schema := Schema [KType TString].
Definition aNumber : schema := Schema [KType TNumber].
Definition aDate : schema := Schema [KType TString; KFormat "date"].

Definition financialDataSchema : schema :=
  Schema
    [KType TObject;
     KProperties
       [("invoices",
         Schema
           [KType TArray;
            KItems
              (Schema
                 [KType TObject;
                  KProperties
                    [("id", stringOrNumber);
                     ("amount", Schema [KType TNumber; KMinimum 0%Q]);
                     ("date", aDate);
                     ("description", aString);
                     ("customer", aString);
                     ("status",
                      Schema [KType TString;
                              KEnum [VStr "pending"; VStr "paid";
                                     VStr "overdue"; VStr "cancelled"]])];
                  KRequired ["amount"; "date"]])]);
        ("expenses",
         Schema
           [KType TArray;
            KItems
              (Schema
                 [KType TObject;
                  KProperties
                    [("id", stringOrNumber);
                     ("amount", Schema [KType TNumber; KMinimum 0%Q]);
                     ("date", aDate);
                     ("description", aString);
                     ("category", aString);
                     ("vendor", aString)];
                  KRequired ["amount"; "date"]])]);
        ("payments",
         Schema
           [KType TArray;
            KItems
              (Schema
                 [KType TObject;
                  KProperties
                    [("id", stringOrNumber);
                     ("amount", aNumber);
                     ("date", aDate);
                     ("description", aString);
                     ("type",
                      Schema [KType TString;
                              KEnum [VStr "inbound"; VStr "outbound"]]);
                     ("method", aString)];
                  KRequired ["amount"; "date"; "type"]])]);
        ("balances",
         Schema
           [KType TArray;
            KItems
              (Schema
                 [KType TObject;
                  KProperties
                    [("account", aString);
                     ("balance", aNumber);
                     ("date", aDate);
                     ("currency", Schema [KType TString; KDefault (VStr "USD")])];
                  KRequired ["account"; "balance"; "date"]])]);
        ("metadata",
         Schema
           [KType TObject;
            KProperties
              [("source", aString);
               ("timestamp", Schema [KType TString; KFormat "date-time"]);
               ("recordCount", Schema [KType TNumber; KMinimum 0%Q])]])];
     KRequired ["invoices"; "expenses"];
     KAdditionalProperties true].

(** [ajv.compile(financialDataSchema)], where [ajv] is
    [new Ajv({ allErrors: true })] after [addFormats(ajv)]: the [verbose]
    option is left at its default, false. *)
Definition validateFinancialData : value -> list errorObject :=
  compile AjvFormats.formats false financialDataSchema.

Record fieldError : Type := {
  field : string;
  message : string;
  value : Js.value;
  constraint : Js.value
}.

Record validationResult : Type := {
  isValid : bool;
  errors : list fieldError;
  warnings : list string
}.

Definition formatValidationError (error : errorObject) : fieldError :=
  {| field := if String.eqb error.(instancePath) EmptyString
              then error.(schemaPath) else error.(instancePath);
     message := error.(Ajv.message);
     value := error.(data);
     constraint := error.(params) |}.

(** [...v] inside an array literal. *)
Definition spread (v : Js.value) : outcome (list Js.value) :=
  match v with
  | VArr l => Ok l
  | VStr s => Ok (map (fun c => VStr (String c EmptyString)) (list_ascii_of_string s))
  | _ => Throw (TypeError "Spread syntax requires ...iterable[Symbol.iterator] to be a function")
  end.

Fixpoint filterM {A : Type} (f : A -> outcome bool) (xs : list A) : outcome (list A) :=
  match xs with
  | [] => Ok []
  | x :: rest =>
      keep <- f x ;;
      kept <- filterM f rest ;;
      Ok (if keep then x :: kept else kept)
  end.

(** [record.amount && (record.amount < 0 || record.amount > 1000000)] as a
    condition.  Comparing a truthy value that is not a number converts it,
    which the embedding leaves out. *)
Definition suspiciousAmount (record : Js.value) : outcome bool :=
  amount <- get record "amount" ;;
  if truthy amount then
    match amount with
    | VNum n => Ok (num_ltb n (Fin 0%Q) || num_ltb (Fin (inject_Z 1000000)) n)
    | _ => Unmodelled
    end
  else Ok false.

Definition missingDate (record : Js.value) : outcome bool :=
  date <- get record "date" ;;
  Ok (negb (truthy date)).

Definition checkDataQuality (data : Js.value) : outcome (list string) :=
  invoices <- get data "invoices" ;;
  let warnings1 :=
    if strict_eq_num (get_opt invoices "length") (Fin 0%Q)
    then ["No invoice data provided - cash flow projections may be inaccurate"]
    else [] in
  expenses <- get data "expenses" ;;
  let warnings2 :=
    if strict_eq_num (get_opt expenses "length") (Fin 0%Q)
    then warnings1 ++ ["No expense data provided - cost analysis will be limited"]
    else warnings1 in
  a <- spread (or_else invoices (VArr [])) ;;
  b <- spread (or_else expenses (VArr [])) ;;
  payments <- get data "payments" ;;
  c <- spread (or_else payments (VArr [])) ;;
  let allRecords := a ++ b ++ c in
  recordsWithoutDates <- filterM missingDate allRecords ;;
  let warnings3 :=
    if 0 <? List.length recordsWithoutDates
    then warnings2 ++
         [(natToString (List.length recordsWithoutDates)
           ++ " records missing dates - timeline analysis may be affected")%string]
    else warnings2 in
  suspiciousAmounts <- filterM suspiciousAmount allRecords ;;
  Ok (if 0 <? List.length suspiciousAmounts
      then warnings3 ++
           [(natToString (List.length suspiciousAmounts)
             ++ " records with unusual amounts detected")%string]
      else warnings3).

Definition validateData (data : Js.value) : outcome validationResult :=
  let found := validateFinancialData data in
  let isValid := match found with [] => true | _ => false end in
  warnings <- (if isValid then checkDataQuality data else Ok []) ;;
  Ok {| isValid := isValid;
        errors := if isValid then [] else map formatValidationError found;
        warnings := warnings |}.

End Validation.


(* ================================================================== *)
(** * The specification's own descriptions                            *)
(* ================================================================== *)

Module Spec.
Import Js.

(** ** Section 4.1: the Record Classifier *)

Inductive Category : Type := invoice | expense | payment | balance.

(** The name of the sequence a category is kept in. *)
Definition sequenceOf (c : Category) : string :=
  match c with
  | invoice => "invoices"
  | expense => "expenses"
  | payment => "payments"
  | balance => "balances"
  end.

(** Step 1: the explicit tag, lower-cased and looked up. *)
Definition tagCategory (tag : string) : option Category :=
  let tag := toLowerCase tag in
  if String.eqb tag "invoice" then Some invoice
  else if String.eqb tag "bill" then Some invoice
  else if String.eqb tag "payment" then Some payment
  else if String.eqb tag "transaction" then Some payment
  else if String.eqb tag "expense" then Some expense
  else if String.eqb tag "balance" then Some balance
  else None.

(** Step 2: a rule is a category with its keywords; a rule applies when
    some field name contains, ignoring case, one of the keywords. *)
Definition rules : list (Category * list string) :=
  [(invoice, ["invoice"; "bill"; "revenue"]);
   (payment, ["payment"; "transaction"]);
   (balance, ["balance"; "account"])].

Definition nameContains (name keyword : string) : bool :=
  includes (toLowerCase name) keyword.

Definition applies (names : list string) (rule : Category * list string) : bool :=
  existsb (fun name => existsb (nameContains name) (snd rule)) names.

(** Steps 1 to 3, first match winning. *)
Definition classify (record : object) : Category :=
  let byTag :=
    match lookup "type" record with
    | Some (VStr tag) => tagCategory tag
    | _ => None
    end in
  match byTag with
  | Some c => c
  | None =>
      match find (applies (map fst record)) rules with
      | Some rule => fst rule
      | None => expense
      end
  end.

(** ** Section 4.2, rule (c): the strict numeric pattern *)

Definition allDigits (ds : list ascii) : Prop := Forall (fun c => isDigit c = true) ds.

(** The number a decimal literal denotes. *)
Definition decimalValue (minus : bool) (digits fraction : list ascii) : Q :=
  let m := digitsValue (digits ++ fraction) in
  let scale := Z.to_pos (10 ^ Z.of_nat (List.length fraction)) in
  Qred (Qmake (if minus then (- m)%Z else m) scale).

(** [numeral s q]: [s] is an optional leading minus, digits, and an
    optional single decimal point with trailing digits (digits follow a
    point, and only a point), nothing else; and [q] is the number it
    denotes. *)
Inductive numeral (s : string) (q : Q) : Prop :=
| Numeral (minus : bool) (digits : list ascii) (point : bool) (trailing : list ascii) :
    digits <> [] ->
    allDigits digits ->
    allDigits trailing ->
    (point = false -> trailing = []) ->
    (point = true -> trailing <> []) ->
    list_ascii_of_string s =
      (if minus then ["-"%char] else [])
      ++ digits ++ (if point then ["."%char] else []) ++ trailing ->
    q = decimalValue minus digits trailing ->
    numeral s q.

Definition strictNumeric (s : string) : Prop := exists q, numeral s q.

End Spec.

(** ** The language of a regular expression *)

Module RegexSpec.
Import Regex.

Inductive matches : re -> string -> Prop :=
| MEps : matches Eps EmptyString
| MSym k c : inClass k c = true -> matches (Sym k) (String c EmptyString)
| MAltL a b s : matches a s -> matches (Alt a b) s
| MAltR a b s : matches b s -> matches (Alt a b) s
| MCat a b s t : matches a s -> matches b t -> matches (Cat a b) (s ++ t)%string
| MStarNil a : matches (Star a) EmptyString
| MStarApp a s t : matches a s -> matches (Star a) t -> matches (Star a) (s ++ t)%string.

End RegexSpec.

(** ** Notions used to state and prove the properties *)

Module Notions.
Import Js.

Definition str (l : list ascii) : string := string_of_list_ascii l.

(** [numeric s q]: [s] has the shape that the pattern of [cleanRecord]
    accepts, an optional leading minus, digits, an optional single decimal
    point and digits again, of which there may be none, also after a point;
    and [q] is the number it denotes. *)
Inductive numeric (s : string) (q : Q) : Prop :=
| Numeric (minus : bool) (digits : list ascii) (point : bool) (trailing : list ascii) :
    digits <> [] ->
    Spec.allDigits digits ->
    Spec.allDigits trailing ->
    (point = false -> trailing = []) ->
    list_ascii_of_string s =
      (if minus then ["-"%char] else [])
      ++ digits ++ (if point then ["."%char] else []) ++ trailing ->
    q = Spec.decimalValue minus digits trailing ->
    numeric s q.

Definition looksNumeric (s : string) : Prop := exists q, numeric s q.

(** An outcome that is no throw. *)
Definition noThrow {A : Type} (m : outcome A) : Prop :=
  match m with
  | Throw _ => False
  | _ => True
  end.

(** The order of own property keys: array indices ascending, then the
    other names (in order of creation, so all distinct). *)
Definition precedes (a b : string) : Prop :=
  match arrayIndex a, arrayIndex b with
  | Some m, Some n => (m < n)%N
  | Some _, None => True
  | None, Some _ => False
  | None, None => a <> b
  end.

Fixpoint orderedKeys (ks : list string) : Prop :=
  match ks with
  | [] => True
  | k :: rest => Forall (precedes k) rest /\ orderedKeys rest
  end.

Definition ordered (o : object) : Prop := orderedKeys (map fst o).

(** An entry that [cleanRecord] would copy as it is. *)
Definition settled (entry : string * value) : Prop :=
  fst entry <> "__proto__" /\ Parser.cleanValue (snd entry) = Some (snd entry).

(** The explicit tag of a record is absent, falsy or a string. *)
Definition tagIsText (o : object) : Prop :=
  match lookup "type" o with
  | Some (VStr _) | None => True
  | Some v => truthy v = false
  end.

(** The value [normalizeFinancialData] works on: the input itself, or what
    [JSON.parse] makes of it when it is text. *)
Definition reads (JSON_parse : string -> outcome value) (input data : value) : Prop :=
  match input with
  | VStr text => JSON_parse text = Ok data
  | _ => data = input
  end.

(** The first statement of [normalizeFinancialData]. *)
Definition readInput (JSON_parse : string -> outcome value) (input : value)
  : outcome value :=
  match input with
  | VStr text =>
      try_catch (JSON_parse text) (fun _ => Throw (Error "Invalid JSON format"))
  | _ => Ok input
  end.

(** [record] is classified into the sequence named [k]. *)
Definition classifiedAs (k : string) (record : value) : bool :=
  match Parser.detectRecordType record with
  | Ok k' => String.eqb k' k
  | _ => false
  end.

(** What [normalizeFinancialData] returns under the name [k] of a category:
    for a flat sequence, its records classified as [k]; otherwise the entry
    of the data as it is given, or an empty sequence when it is absent or
    falsy. *)
Definition categoryOf (data : value) (k : string) : value :=
  match data with
  | VArr flatData => VArr (filter (classifiedAs k) flatData)
  | _ => or_else (get_opt data k) (VArr [])
  end.

(** [normalized.metadata.recordCount] *)
Definition recordCountOf (normalized : value) : outcome value :=
  bind (get normalized "metadata") (fun metadata => get metadata "recordCount").

(** The structure returned for data without any record. *)
Definition emptyStructure (now : string) : value :=
  VObj [("invoices", VArr []); ("expenses", VArr []);
        ("payments", VArr []); ("balances", VArr []);
        ("metadata",
         VObj [("source", VStr "manual_input");
               ("timestamp", VStr now);
               ("recordCount", int 0)])].

(** A record with a numeric [amount], and a sequence of such records. *)
Definition pricedRecord (record : value) : Prop :=
  exists e q, record = VObj e /\ lookup "amount" e = Some (VNum (Fin q)).

Definition pricedRecords (v : value) : Prop :=
  exists records, v = VArr records /\ Forall pricedRecord records.

Definition optionalRecords (entry : option value) : Prop :=
  match entry with
  | None | Some VUndefined => True
  | Some v => pricedRecords v
  end.

(** A schema of objects that requires a numeric [amount]. *)
Definition pricing (s : Ajv.schema) : Prop :=
  exists ks names properties ks' shown shown',
    s = Ajv.Schema ks
    /\ Ajv.schemaTypes ks = Some ([Ajv.TObject], shown)
    /\ In (Ajv.KRequired names) ks /\ In "amount" names
    /\ In (Ajv.KProperties properties) ks
    /\ In ("amount", Ajv.Schema ks') properties
    /\ Ajv.schemaTypes ks' = Some ([Ajv.TNumber], shown').

(** A schema of arrays whose items require a numeric [amount]. *)
Definition pricingList (s : Ajv.schema) : Prop :=
  exists ks shown sub,
    s = Ajv.Schema ks
    /\ Ajv.schemaTypes ks = Some ([Ajv.TArray], shown)
    /\ In (Ajv.KItems sub) ks /\ pricing sub.

(** The warning about an empty invoices sequence. *)
Definition cashFlowWarning : string :=
  "No invoice data provided - cash flow projections may be inaccurate".

(** [data[k]] is [undefined]: the key is absent. *)
Definition lacks (data : value) (k : string) : Prop :=
  get_opt data k = VUndefined.

(** The object without its property [k]. *)
Definition without (k : string) (o : object) : object :=
  filter (fun entry => negb (String.eqb (fst entry) k)) o.

(** The top-level property names the schema knows. *)
Definition schemaNames : list string :=
  ["invoices"; "expenses"; "payments"; "balances"; "metadata"].


(** The object [categorizeFlatData] fills. *)
Definition buckets (i e p b : list value) : object :=
  [("invoices", VArr i); ("expenses", VArr e);
   ("payments", VArr p); ("balances", VArr b)].


End Notions.

(* ================================================================== *)
(** * utils/validation.js: validateFileUpload                         *)
(* ================================================================== *)

Module Upload.
Import Js.

Notation "x <- m ;; k" := (bind m (fun x => k))
  (at level 61, m at next level, right associativity).

(** [a > limit] against a number literal.  [undefined] converts to [NaN],
    [null] to 0 and a boolean to 0 or 1; the conversion of a string or an
    object is left out. *)
Definition exceeds (a : value) (limit : Q) : outcome bool :=
  match a with
  | VNum n => Ok (num_ltb (Fin limit) n)
  | VUndefined => Ok false
  | VNull => Ok (num_ltb (Fin limit) (Fin 0%Q))
  | VBool b => Ok (num_ltb (Fin limit) (Fin (if b then 1%Q else 0%Q)))
  | VStr _ | VArr _ | VObj _ => Unmodelled
  end.

(** [names.includes(v)] for an array of strings. *)
Definition includesValue (names : list string) (v : value) : bool :=
  match v with
  | VStr s => existsb (String.eqb s) names
  | _ => false
  end.

Record uploadResult : Type := {
  isValid : bool;
  errors : list string
}.

Definition allowedTypes : list string :=
  ["text/csv"; "application/json"; "text/plain"].

Definition validateFileUpload (file : value) : outcome uploadResult :=
  if negb (truthy file) then
    Ok {| isValid := false; errors := ["No file provided"] |}
  else
    size <- get file "size" ;;
    tooLarge <- exceeds size (inject_Z (10 * 1024 * 1024)) ;;
    let errors1 :=
      if tooLarge then ["File size exceeds 10MB limit"] else [] in
    mimetype <- get file "mimetype" ;;
    let errors2 :=
      if negb (includesValue allowedTypes mimetype)
      then errors1 ++ [("Invalid file type. Allowed types: "
                        ++ Ajv.joinWith ", " allowedTypes)%string]
      else errors1 in
    Ok {| isValid := (List.length errors2 =? 0); errors := errors2 |}.

End Upload.

(* ================================================================== *)
(** * index.js: the filter of uploaded files                          *)
(* ================================================================== *)

Module Server.
Import Js.

Notation "x <- m ;; k" := (bind m (fun x => k))
  (at level 61, m at next level, right associativity).

Definition allowedTypes : list string :=
  ["text/csv"; "application/json"; "text/plain"].

(** The [fileFilter] option given to multer: [cb(null, true)] is [Ok true]
    and [cb(error)] is [Throw error]. *)
Definition fileFilter (file : value) : outcome bool :=
  mimetype <- get file "mimetype" ;;
  if Upload.includesValue allowedTypes mimetype then Ok true
  else Throw (Error "Invalid file type. Only CSV and JSON files are allowed.").

End Server.

(* ================================================================== *)
(** * services/parser.js: parseCSV                                    *)
(* ================================================================== *)

Module Csv.
Import Js.

Notation "x <- m ;; k" := (bind m (fun x => k))
  (at level 61, m at next level, right associativity).

Section Reader.

(** [parse] of csv-parse/sync with the options of the source: the array of
    records, or the error it throws.  (A field that [cast_date] turns into
    a [Date] object has no counterpart among the values; what the option
    leaves of a record is stated by [Terms.castRecord].) *)
Variable parse : value -> outcome (list value).

Definition parseCSV (csvData : value) : outcome value :=
  try_catch
    (records <- parse csvData ;; Ok (VArr records))
    (fun error => Throw (Error ("Invalid CSV format: " ++ message error)%string)).

End Reader.

End Csv.

(* ================================================================== *)
(** * controllers/analysisController.js                               *)
(* ================================================================== *)

Module Controller.
Import Js.

Notation "x <- m ;; k" := (bind m (fun x => k))
  (at level 61, m at next level, right associativity).

(** What the handler sends: [res.status(status).json(body)]. *)
Record response : Type := {
  status : nat;
  body : value
}.

(** The object literal [formatValidationError] returns. *)
Definition errorValue (e : Validation.fieldError) : value :=
  VObj [("field", VStr e.(Validation.field));
        ("message", VStr e.(Validation.message));
        ("value", e.(Validation.value));
        ("constraint", e.(Validation.constraint))].

(** [v === 'text'] *)
Definition strictEquals (v : value) (text : string) : bool :=
  match v with
  | VStr s => String.eqb s text
  | _ => false
  end.

(** [s.endsWith(suffix)] *)
Definition endsWith (s suffix : string) : bool :=
  let n := String.length s in
  let m := String.length suffix in
  (m <=? n) && String.eqb (substring (n - m) m s) suffix.

Section Handlers.

Variable JSON_parse : string -> outcome value.
(** [parse] of csv-parse/sync, as in [Csv]. *)
Variable csv_parse : value -> outcome (list value).
(** [await analyzeFinancialData(parsedData)] of services/llmClient.js: the
    value the promise resolves to, or the error it rejects with. *)
Variable analyze : value -> outcome value.
(** [new Date().toISOString()] when the data is normalised and when the
    response is sent. *)
Variable now : string.
Variable later : string.
(** [req.file.buffer.toString('utf8')] *)
Variable bufferText : value -> outcome string.

Definition normalize : value -> outcome value :=
  Parser.normalizeFinancialData JSON_parse now.

Definition respond (status : nat) (body : object) : outcome response :=
  Ok {| status := status; body := VObj body |}.

(** The inner [try] block of [analyzeFinancialData]: the data parsed
    according to the format. *)
Definition parseRequest (data format : value) : outcome value :=
  if strictEquals format "csv" then
    csvArray <- Csv.parseCSV csv_parse data ;;
    normalize csvArray
  else normalize data.

(** The calls of the logger are left out. *)
Definition analyzeFinancialData (reqBody : value) : outcome response :=
  try_catch
    (if isNullish reqBody then
       Throw (TypeError ("Cannot destructure property 'data' of 'req.body' as it is "
                         ++ typeName reqBody ++ ".")%string)
     else
       let data := get_opt reqBody "data" in
       let format :=
         match get_opt reqBody "format" with
         | VUndefined => VStr "json"
         | given => given
         end in
       if negb (truthy data) then
         respond 400
           [("error", VStr "Missing required field: data");
            ("message", VStr "Please provide financial data in the request body")]
       else
         match parseRequest data format with
         | Throw parseError =>
             respond 400
               [("error", VStr "Data parsing failed");
                ("message", VStr (message parseError))]
         | Unmodelled => Unmodelled
         | Ok parsedData =>
             validation <- Validation.validateData parsedData ;;
             if negb validation.(Validation.isValid) then
               respond 400
                 [("error", VStr "Data validation failed");
                  ("details",
                   VArr (map errorValue validation.(Validation.errors)))]
             else
               analysis <- analyze parsedData ;;
               respond 200
                 [("success", VBool true);
                  ("data", parsedData);
                  ("analysis", analysis);
                  ("timestamp", VStr later)]
         end)
    (fun error =>
       respond 500
         [("error", VStr "Analysis failed");
          ("message", VStr (message error))]).

(** [req.file.mimetype === 'text/csv' || req.file.originalname.endsWith('.csv')] *)
Definition isCsvFile (file : value) : outcome bool :=
  mimetype <- get file "mimetype" ;;
  if strictEquals mimetype "text/csv" then Ok true
  else
    originalname <- get file "originalname" ;;
    match originalname with
    | VStr name => Ok (endsWith name ".csv")
    | VUndefined | VNull =>
        Throw (TypeError ("Cannot read properties of " ++ typeName originalname
                          ++ " (reading 'endsWith')")%string)
    | _ => Throw (TypeError "req.file.originalname.endsWith is not a function")
    end.

(** The inner [try] block of [analyzeFile]. *)
Definition parseFile (file : value) (fileContent : string) : outcome value :=
  csv <- isCsvFile file ;;
  if csv then
    csvArray <- Csv.parseCSV csv_parse (VStr fileContent) ;;
    normalize csvArray
  else
    parsed <- JSON_parse fileContent ;;
    normalize parsed.

(** [file] is [req.file], which multer sets. *)
Definition analyzeFile (file : value) : outcome response :=
  try_catch
    (if negb (truthy file) then
       respond 400
         [("error", VStr "No file uploaded");
          ("message", VStr "Please upload a CSV or JSON file")]
     else
       fileContent <- bufferText file ;;
       match parseFile file fileContent with
       | Throw parseError =>
           respond 400
             [("error", VStr "File parsing failed");
              ("message", VStr (message parseError))]
       | Unmodelled => Unmodelled
       | Ok parsedData =>
           validation <- Validation.validateData parsedData ;;
           if negb validation.(Validation.isValid) then
             respond 400
               [("error", VStr "Data validation failed");
                ("details",
                 VArr (map errorValue validation.(Validation.errors)))]
           else
             analysis <- analyze parsedData ;;
             originalname <- get file "originalname" ;;
             respond 200
               [("success", VBool true);
                ("filename", originalname);
                ("data", parsedData);
                ("analysis", analysis);
                ("timestamp", VStr later)]
       end)
    (fun error =>
       respond 500
         [("error", VStr "File analysis failed");
          ("message", VStr (message error))]).

End Handlers.

End Controller.

(* ================================================================== *)
(** * services/llmClient.js: analyzeFinancialData                     *)
(* ================================================================== *)

Module Llm.
Import Js.

Notation "x <- m ;; k" := (bind m (fun x => k))
  (at level 61, m at next level, right associativity).

(** [v[i]] for an index [i]. *)
Definition element (v : value) (i : nat) : outcome value :=
  match v with
  | VUndefined | VNull =>
      Throw (TypeError ("Cannot read properties of " ++ typeName v
                        ++ " (reading '" ++ natToString i ++ "')")%string)
  | VArr l => Ok (nth i l VUndefined)
  | VStr s =>
      match String.get i s with
      | Some c => Ok (VStr (String c EmptyString))
      | None => Ok VUndefined
      end
  | VObj o =>
      match lookup (natToString i) o with
      | Some x => Ok x
      | None => Ok VUndefined
      end
  | VBool _ | VNum _ => Ok VUndefined
  end.

Section Client.

Variable JSON_parse : string -> outcome value.
(** [await openai.chat.completions.create(...)] for the prompt that is
    built from the data: the response, or the error of the request. *)
Variable complete : value -> outcome value.

(** [JSON.parse(content)] converts its argument to a string; the
    conversion of a number or of an object is left out. *)
Definition parseContent (content : value) : outcome value :=
  match content with
  | VStr text => JSON_parse text
  | VNull => JSON_parse "null"
  | VUndefined => JSON_parse "undefined"
  | VBool b => JSON_parse (if b then "true" else "false")
  | VNum _ | VArr _ | VObj _ => Unmodelled
  end.

(** [response.choices[0].message.content] *)
Definition contentOf (response : value) : outcome value :=
  choices <- get response "choices" ;;
  choice <- element choices 0 ;;
  message <- get choice "message" ;;
  get message "content".

(** The calls of the logger are left out, but for [Object.keys(data)] in
    the first of them, which throws on [null] and [undefined]. *)
Definition analyzeFinancialData (data : value) : outcome value :=
  if isNullish data then
    Throw (TypeError "Cannot convert undefined or null to object")
  else
    response <- complete data ;;
    content <- contentOf response ;;
    try_catch (parseContent content)
      (fun _ => Ok (VObj [("error", VStr "Analysis parsing failed");
                          ("rawResponse", content)])).

End Client.

End Llm.

(* ================================================================== *)
(** * components/DataVisualization.js: the data of the charts         *)
(* ================================================================== *)

Module Chart.
Import Js.

Notation "x <- m ;; k" := (bind m (fun x => k))
  (at level 61, m at next level, right associativity).

(** The string starts, after whitespace and a sign, with [Infinity], which
    [parseFloat] reads as an infinite number. *)
Definition namesInfinity (s : string) : bool :=
  startsWith "Infinity" (snd (takeSign (trimStart s))).

(** [parseFloat(v)]: the argument is converted to a string first.  A
    number is printed and read back; [undefined], [null] and the booleans
    print as words; the printing of an array or an object is left out. *)
Definition parseFloatOf (v : value) : outcome number :=
  match v with
  | VStr s => if namesInfinity s then Unmodelled else Ok (parseFloat s)
  | VNum n => Ok n
  | VUndefined | VNull | VBool _ => Ok NaN
  | VArr _ | VObj _ => Unmodelled
  end.

Definition isNaN (n : number) : bool :=
  match n with
  | NaN => true
  | Fin _ => false
  end.

(** The body of the [forEach] over the keys of a row. *)
Definition processEntry (processedRow : object) (entry : string * value)
  : outcome object :=
  let (key, value) := entry in
  numValue <- parseFloatOf value ;;
  Ok (assign processedRow key (if isNaN numValue then value else VNum numValue)).

Definition processRow (index : nat) (row : value) : outcome value :=
  if isNullish row then
    Throw (TypeError "Cannot convert undefined or null to object")
  else
    processedRow <- forEach processEntry (entries row)
                      [("index", int (Z.of_nat (index + 1)))] ;;
    Ok (VObj processedRow).

Fixpoint mapIndexed {A B : Type} (f : nat -> A -> outcome B) (index : nat)
         (xs : list A) : outcome (list B) :=
  match xs with
  | [] => Ok []
  | x :: rest =>
      y <- f index x ;;
      ys <- mapIndexed f (S index) rest ;;
      Ok (y :: ys)
  end.

Definition processedData (data : value) : outcome (list value) :=
  match data with
  | VArr rows => mapIndexed processRow 0 rows
  | _ => Ok []
  end.

(** [typeof v === 'number'] and [typeof v === 'string'] *)
Definition isNumber (v : value) : bool :=
  match v with VNum _ => true | _ => false end.

Definition isString (v : value) : bool :=
  match v with VStr _ => true | _ => false end.

(** The keys of the first row, but [index], whose value is of a type. *)
Definition columnsOf (ofType : value -> bool) (processed : list value)
  : list string :=
  match processed with
  | [] => []
  | first :: _ =>
      filter (fun key => negb (String.eqb key "index")
                         && ofType (get_opt first key))
             (keys first)
  end.

Definition numericColumns : list value -> list string := columnsOf isNumber.
Definition categoricalColumns : list value -> list string := columnsOf isString.

End Chart.

(* ================================================================== *)
(** * Further notions                                                 *)
(* ================================================================== *)

Module Terms.
Import Js.

(** The names of the four sequences, in the order the sources list them. *)
Definition categoryNames : list string :=
  ["invoices"; "expenses"; "payments"; "balances"].

(** A field value as [cleanRecord] leaves it: not [null] or [undefined],
    and when a string, one that is not empty, has no whitespace around it
    and has not the numeric shape. *)
Definition cleanField (v : value) : Prop :=
  isNullish v = false
  /\ forall s, v = VStr s ->
       s <> EmptyString /\ trim s = s /\ ~ Notions.looksNumeric s.

(** What [cleanRecord] makes of a record that is not [null]. *)
Definition cleaned (record : value) : value :=
  VObj (fold_left Parser.cleanEntry (entries record) []).

(** What [cleanFinancialData] makes of a sequence of records. *)
Definition cleanedRecords (records : list value) : list value :=
  map cleaned (filter Parser.isObjectLike records).

(** A truthy value that is not an array: what [cleanFinancialData] calls
    [filter] on in vain. *)
Definition notFilterable (entry : option value) : bool :=
  match entry with
  | Some (VArr _) | None => false
  | Some v => truthy v
  end.

(** The entry of a category after [cleanFinancialData]. *)
Definition cleanedEntry (entry : option value) : option value :=
  match entry with
  | Some (VArr records) => Some (VArr (cleanedRecords records))
  | other => other
  end.

(** The own properties of an object are distinct. *)
Definition uniqueKeys (o : object) : Prop := NoDup (map fst o).

(** A record with a numeric amount that is not negative and a calendar
    date: what the schema asks of an invoice and of an expense. *)
Definition billed (record : value) : Prop :=
  exists e q d,
    record = VObj e
    /\ lookup "amount" e = Some (VNum (Fin q)) /\ (0 <= q)%Q
    /\ lookup "date" e = Some (VStr d) /\ AjvFormats.date d = true.

(** What the schema asks of a payment. *)
Definition paid (record : value) : Prop :=
  exists e q d t,
    record = VObj e
    /\ lookup "amount" e = Some (VNum (Fin q))
    /\ lookup "date" e = Some (VStr d) /\ AjvFormats.date d = true
    /\ lookup "type" e = Some (VStr t) /\ (t = "inbound" \/ t = "outbound").

(** What the schema asks of a balance. *)
Definition balanced (record : value) : Prop :=
  exists e a q d,
    record = VObj e
    /\ lookup "account" e = Some (VStr a)
    /\ lookup "balance" e = Some (VNum (Fin q))
    /\ lookup "date" e = Some (VStr d) /\ AjvFormats.date d = true.

(** The entry of a sequence, which may be absent when [required] is false. *)
Definition sequenceOf (P : value -> Prop) (required : bool) (entry : option value)
  : Prop :=
  match entry with
  | Some VUndefined | None => required = false
  | Some v => exists records, v = VArr records /\ Forall P records
  end.

(** The other quality warnings. *)
Definition expenseWarning : string :=
  "No expense data provided - cost analysis will be limited".

Definition unusualWarning (n : nat) : string :=
  (natToString n ++ " records with unusual amounts detected")%string.

Definition undatedWarning (n : nat) : string :=
  (natToString n ++ " records missing dates - timeline analysis may be affected")%string.

(** An amount the quality check finds unusual. *)
Definition unusual (record : value) : bool :=
  match get_opt record "amount" with
  | VNum n => num_ltb n (Fin 0%Q) || num_ltb (Fin (inject_Z 1000000)) n
  | _ => false
  end.

(** The top-level [source] is absent, falsy or a string. *)
Definition sourceIsText (o : object) : Prop :=
  match lookup "source" o with
  | Some (VStr _) | None => True
  | Some v => truthy v = false
  end.

(** The keys [normalizeFinancialData] reads. *)
Definition normalizerKeys : list string :=
  ["invoices"; "expenses"; "payments"; "balances"; "source"].

(** The structure [normalizeFinancialData] builds. *)
Definition normalized (i e p b source : value) (now : string) (count : value) : value :=
  VObj [("invoices", i); ("expenses", e); ("payments", p); ("balances", b);
        ("metadata",
         VObj [("source", source); ("timestamp", VStr now); ("recordCount", count)])].

(** A record that is an object whose explicit tag is absent, falsy or text. *)
Definition plainRecord (record : value) : Prop :=
  exists o, record = VObj o /\ Notions.tagIsText o.

(** [{ ...data }], property by property, and one step of
    [cleanFinancialData] where it does not throw, then the four steps. *)
Definition define (o : object) (kv : string * value) : object :=
  defineProperty o (fst kv) (snd kv).

Definition cleanedIn (o : object) (k : string) : object :=
  match lookup k o with
  | Some (VArr records) => defineProperty o k (VArr (cleanedRecords records))
  | _ => o
  end.

Definition cleanedAll (o : object) : object :=
  fold_left cleanedIn categoryNames o.

(** A record with a numeric amount and a calendar date. *)
Definition entered (record : value) : Prop :=
  exists e q d,
    record = VObj e
    /\ lookup "amount" e = Some (VNum (Fin q))
    /\ lookup "date" e = Some (VStr d) /\ AjvFormats.date d = true.

(** The quality warnings of data whose sequences are [li], [le] and [lp]
    and whose records all have a date. *)
Definition warningsFor (li le lp : list value) : list string :=
  (match li with [] => [Notions.cashFlowWarning] | _ => [] end)
  ++ (match le with [] => [expenseWarning] | _ => [] end)
  ++ (match filter unusual (li ++ le ++ lp) with
      | [] => []
      | odd => [unusualWarning (List.length odd)]
      end).

(** An error object of the instance the sources configure: no data, and a
    schema path. *)
Definition bare (e : Ajv.errorObject) : Prop :=
  Ajv.data e = VUndefined /\ Ajv.schemaPath e <> EmptyString.

(** The explicit tag of a record is truthy without being text: what
    [detectRecordType] calls [toLowerCase] on in vain. *)
Definition badTag (record : value) : bool :=
  match get_opt record "type" with
  | VStr _ => false
  | tag => truthy tag
  end.

(** A record that [detectRecordType] classifies. *)
Definition classifiable (record : value) : bool :=
  negb (isNullish record) && negb (badTag record).

(** The error that reports a required property that is missing, as
    [validateData] gives it. *)
Definition missingProperty (path name : string) : Validation.fieldError :=
  {| Validation.field := path;
     Validation.message := ("must have required property '" ++ name ++ "'")%string;
     Validation.value := VUndefined;
     Validation.constraint := VObj [("missingProperty", VStr name)] |}.

(** The year of a date, as the digits before the first hyphen denote it. *)
Definition yearOf (d : string) : Z :=
  digitsValue (list_ascii_of_string (substring 0 4 d)).

(** The format of a request: [format = 'json'] in the destructuring. *)
Definition formatOf (reqBody : value) : value :=
  match get_opt reqBody "format" with
  | VUndefined => VStr "json"
  | given => given
  end.

(** What the option [cast_date] of [parseCSV] leaves of a record.  Its
    function makes a [Date] object of every field whose text [Date.parse]
    reads, and [Date.parse] reads each calendar date [YYYY-MM-DD]: so no
    field is left a string of the format [date].  (A [Date] has no
    counterpart among the values; whatever stands for one is no string.) *)
Definition castRecord (record : value) : Prop :=
  forall e k s,
    record = VObj e -> lookup k e = Some (VStr s) -> AjvFormats.date s = false.

(** A record with a calendar date in its field [date]. *)
Definition dated (record : value) : Prop :=
  exists e d,
    record = VObj e /\ lookup "date" e = Some (VStr d) /\ AjvFormats.date d = true.

End Terms.

(* ================================================================== *)
(** * Properties                                                      *)
(* ================================================================== *)

(** ** The derivative matcher decides the language *)

Module RegexFacts.
Import Regex RegexSpec.

Lemma append_empty_r (s : string) : (s ++ EmptyString)%string = s.
Proof. induction s as [|c s IH]; simpl; [reflexivity | now rewrite IH]. Qed.

Lemma append_is_empty (s t : string) :
  (s ++ t)%string = EmptyString -> s = EmptyString /\ t = EmptyString.
Proof. destruct s; simpl; [auto | discriminate]. Qed.

Lemma matches_cat_inv (a b : re) (w : string) :
  matches (Cat a b) w ->
  exists s t, w = (s ++ t)%string /\ matches a s /\ matches b t.
Proof. intros H; inversion H; subst; eauto. Qed.

Lemma matches_alt_inv (a b : re) (w : string) :
  matches (Alt a b) w -> matches a w \/ matches b w.
Proof. intros H; inversion H; subst; auto. Qed.

Lemma matches_sym_inv (k : cclass) (w : string) :
  matches (Sym k) w -> exists c, w = String c EmptyString /\ inClass k c = true.
Proof. intros H; inversion H; subst; eauto. Qed.

Lemma matches_eps_inv (w : string) : matches Eps w -> w = EmptyString.
Proof. intros H; inversion H; reflexivity. Qed.

Lemma nullable_matches (r : re) : nullable r = true <-> matches r EmptyString.
Proof.
  induction r as [| |k|a IHa b IHb|a IHa b IHb|a IHa]; simpl.
  - split; [discriminate | intros H; inversion H].
  - split; [intros _; constructor | reflexivity].
  - split; [discriminate | intros H; inversion H].
  - rewrite orb_true_iff, IHa, IHb. split.
    + intros [H|H]; [now apply MAltL | now apply MAltR].
    + apply matches_alt_inv.
  - rewrite andb_true_iff, IHa, IHb. split.
    + intros [Ha Hb]. change EmptyString with (EmptyString ++ EmptyString)%string.
      now constructor.
    + intros H. apply matches_cat_inv in H. destruct H as (s & t & E & Hs & Ht).
      symmetry in E. apply append_is_empty in E. destruct E; subst. auto.
  - split; [intros _; constructor | reflexivity].
Qed.

(** A match of [Star a] on a non-empty string starts with a non-empty match
    of [a]. *)
Lemma star_uncons (a : re) (s : string) :
  matches (Star a) s -> forall c rest, s = String c rest ->
  exists s1 s2, rest = (s1 ++ s2)%string /\ matches a (String c s1) /\ matches (Star a) s2.
Proof.
  intros H. remember (Star a) as r eqn:Hr.
  induction H as [| | | | |a'|a' s t Hs _ Ht IHt]; try discriminate.
  injection Hr as ->. intros c rest E.
  destruct s as [|c' s'].
  - simpl in E. apply (IHt eq_refl c rest E).
  - simpl in E. injection E as -> <-. exists s', t. auto.
Qed.

Lemma deriv_matches (r : re) :
  forall c s, matches (deriv c r) s <-> matches r (String c s).
Proof.
  induction r as [| |k|a IHa b IHb|a IHa b IHb|a IHa]; intros c s; simpl.
  - split; intros H; inversion H.
  - split; intros H; inversion H.
  - destruct (inClass k c) eqn:E; split; intros H.
    + apply matches_eps_inv in H. subst. now constructor.
    + apply matches_sym_inv in H. destruct H as (c' & E' & Hc).
      injection E' as -> ->. constructor.
    + inversion H.
    + apply matches_sym_inv in H. destruct H as (c' & E' & Hc).
      injection E' as -> ->. congruence.
  - split; intros H; apply matches_alt_inv in H; destruct H as [H|H].
    + apply MAltL. now apply IHa.
    + apply MAltR. now apply IHb.
    + apply MAltL. now apply IHa.
    + apply MAltR. now apply IHb.
  - assert (Hcat : matches (Cat (deriv c a) b) s -> matches (Cat a b) (String c s)).
    { intros H. apply matches_cat_inv in H. destruct H as (s1 & s2 & -> & H1 & H2).
      change (String c (s1 ++ s2)) with (String c s1 ++ s2)%string.
      constructor; [now apply IHa | assumption]. }
    assert (Hsplit : matches (Cat a b) (String c s) ->
                     matches (Cat (deriv c a) b) s
                     \/ (matches a EmptyString /\ matches (deriv c b) s)).
    { intros H. apply matches_cat_inv in H. destruct H as (s1 & s2 & E & H1 & H2).
      destruct s1 as [|c1 s1]; simpl in E.
      - subst s2. right. split; [assumption | now apply IHb].
      - injection E as -> ->. left. constructor; [now apply IHa | assumption]. }
    destruct (nullable a) eqn:Hn.
    + split.
      * intros H. apply matches_alt_inv in H. destruct H as [H|H]; [now apply Hcat|].
        change (String c s) with (EmptyString ++ String c s)%string.
        constructor; [now apply nullable_matches | now apply IHb].
      * intros H. destruct (Hsplit H) as [H1|[_ H2]];
          [now apply MAltL | now apply MAltR].
    + split; [exact Hcat|].
      intros H. destruct (Hsplit H) as [H1|[H1 _]]; [assumption|].
      apply nullable_matches in H1. congruence.
  - split.
    + intros H. apply matches_cat_inv in H. destruct H as (s1 & s2 & -> & H1 & H2).
      change (String c (s1 ++ s2)) with (String c s1 ++ s2)%string.
      constructor; [now apply IHa | assumption].
    + intros H. destruct (star_uncons _ _ H _ _ eq_refl) as (s1 & s2 & -> & H1 & H2).
      constructor; [now apply IHa | assumption].
Qed.

Lemma test_matches (s : string) : forall r, test r s = true <-> matches r s.
Proof.
  induction s as [|c s IH]; intros r; simpl.
  - apply nullable_matches.
  - rewrite IH. apply deriv_matches.
Qed.

End RegexFacts.

(** ** The numeric pattern and [parseFloat] *)

Module NumericFacts.
Import Js Regex RegexSpec RegexFacts Spec Notions.

Lemma str_app (l m : list ascii) : str (l ++ m) = (str l ++ str m)%string.
Proof. induction l as [|c l IH]; simpl; [reflexivity | now rewrite IH]. Qed.

Lemma chars_app (s t : string) :
  list_ascii_of_string (s ++ t) = list_ascii_of_string s ++ list_ascii_of_string t.
Proof. induction s as [|c s IH]; simpl; [reflexivity | now rewrite IH]. Qed.

Lemma str_chars (s : string) : str (list_ascii_of_string s) = s.
Proof. apply string_of_list_ascii_of_string. Qed.

Lemma star_digit_chars (s : string) :
  matches (Star (Sym CDigit)) s -> allDigits (list_ascii_of_string s).
Proof.
  intros H. remember (Star (Sym CDigit)) as r eqn:Hr.
  induction H as [| | | | |a|a s t Hs _ Ht IHt]; try discriminate.
  - constructor.
  - injection Hr as ->. rewrite chars_app. apply Forall_app. split.
    + apply matches_sym_inv in Hs. destruct Hs as (c & -> & Hc).
      simpl. constructor; [exact Hc | constructor].
    + now apply IHt.
Qed.

Lemma digits_star (l : list ascii) :
  allDigits l -> matches (Star (Sym CDigit)) (str l).
Proof.
  induction 1 as [|c l Hc _ IH]; simpl.
  - constructor.
  - change (String c (str l)) with (String c EmptyString ++ str l)%string.
    constructor; [now constructor | exact IH].
Qed.

Lemma opt_char_inv (c : ascii) (s : string) :
  matches (Opt (Sym (CChar c))) s ->
  exists present : bool, list_ascii_of_string s = if present then [c] else [].
Proof.
  intros H. apply matches_alt_inv in H. destruct H as [H|H].
  - apply matches_sym_inv in H. destruct H as (c' & -> & Hc).
    simpl in Hc. apply Ascii.eqb_eq in Hc. subst. now exists true.
  - apply matches_eps_inv in H. subst. now exists false.
Qed.

Lemma opt_char_intro (c : ascii) (present : bool) :
  matches (Opt (Sym (CChar c))) (str (if present then [c] else [])).
Proof.
  destruct present; simpl.
  - apply MAltL. constructor. simpl. apply Ascii.eqb_refl.
  - apply MAltR. constructor.
Qed.

(** The regular expression literal of [cleanRecord] accepts exactly the
    strings of the numeric shape. *)
Lemma numericPattern_shape (s : string) :
  matches Parser.numericPattern s <->
  exists (minus : bool) (digits : list ascii) (point : bool) (trailing : list ascii),
    digits <> [] /\ allDigits digits /\ allDigits trailing /\
    (point = false -> trailing = []) /\
    list_ascii_of_string s =
      (if minus then ["-"%char] else [])
      ++ digits ++ (if point then ["."%char] else []) ++ trailing.
Proof.
  unfold Parser.numericPattern. split.
  - intros H.
    apply matches_cat_inv in H. destruct H as (s0 & r0 & -> & H0 & H).
    apply matches_cat_inv in H. destruct H as (s1 & r1 & -> & H1 & H).
    apply matches_cat_inv in H. destruct H as (s2 & s3 & -> & H2 & H3).
    apply opt_char_inv in H0. destruct H0 as (minus & E0).
    apply opt_char_inv in H2. destruct H2 as (point & E2).
    apply star_digit_chars in H3.
    apply matches_cat_inv in H1. destruct H1 as (d & ds & -> & Hd & Hds).
    apply matches_sym_inv in Hd. destruct Hd as (c & -> & Hc).
    apply star_digit_chars in Hds.
    rewrite !chars_app, E0, E2. simpl list_ascii_of_string at 1.
    destruct point.
    + exists minus, (c :: list_ascii_of_string ds), true, (list_ascii_of_string s3).
      repeat split; try assumption; try discriminate.
      now constructor.
    + exists minus, (c :: list_ascii_of_string ds ++ list_ascii_of_string s3),
             false, [].
      repeat split; try discriminate.
      * constructor; [exact Hc | now apply Forall_app].
      * constructor.
      * f_equal. simpl. now rewrite !app_nil_r.
  - intros (minus & digits & point & trailing & Hne & Hd & Ht & _ & E).
    rewrite <- (str_chars s), E, !str_app.
    constructor; [apply opt_char_intro|].
    constructor.
    + destruct digits as [|c ds]; [congruence|].
      inversion Hd; subst.
      change (str (c :: ds)) with (String c EmptyString ++ str ds)%string.
      constructor; [now constructor | now apply digits_star].
    + constructor; [apply opt_char_intro | now apply digits_star].
Qed.

Lemma digit_cases (c : ascii) :
  isDigit c = true ->
  isWhiteSpace c = false /\ c <> "-"%char /\ c <> "+"%char /\ c <> "."%char.
Proof.
  destruct c as [[|] [|] [|] [|] [|] [|] [|] [|]];
    intros H; try discriminate H; repeat split; discriminate.
Qed.

Lemma takeSign_digit (c : ascii) (s : string) :
  isDigit c = true -> takeSign (String c s) = (false, String c s).
Proof.
  destruct c as [[|] [|] [|] [|] [|] [|] [|] [|]];
    intros H; try discriminate H; reflexivity.
Qed.

Lemma takeDigits_all (ds : list ascii) :
  allDigits ds -> takeDigits (str ds) = (ds, EmptyString).
Proof.
  induction 1 as [|c ds Hc _ IH]; simpl; [reflexivity|].
  now rewrite Hc, IH.
Qed.

Lemma takeDigits_until (ds : list ascii) (c : ascii) (rest : string) :
  allDigits ds -> isDigit c = false ->
  takeDigits (str ds ++ String c rest) = (ds, String c rest).
Proof.
  intros Hds Hc. induction Hds as [|d ds Hd _ IH]; simpl.
  - now rewrite Hc.
  - now rewrite Hd, IH.
Qed.

Lemma scale10_decimal (minus : bool) (digits trailing : list ascii) :
  scale10 (if minus then (- digitsValue (digits ++ trailing))%Z
           else digitsValue (digits ++ trailing))
          (0 - Z.of_nat (List.length trailing))
  = decimalValue minus digits trailing.
Proof.
  unfold scale10, decimalValue.
  destruct trailing as [|t trailing].
  - replace (0 <=? 0 - Z.of_nat (List.length (@nil ascii)))%Z with true
      by reflexivity.
    apply Qred_complete. unfold Qeq, inject_Z. cbn [Qnum Qden].
    change (0 - Z.of_nat (List.length (@nil ascii)))%Z with 0%Z.
    change (Z.of_nat (List.length (@nil ascii))) with 0%Z.
    change (Z.to_pos (10 ^ 0)) with 1%positive. lia.
  - replace (0 <=? 0 - Z.of_nat (List.length (t :: trailing)))%Z with false
      by (symmetry; apply Z.leb_gt; simpl List.length; lia).
    replace (- (0 - Z.of_nat (List.length (t :: trailing))))%Z
      with (Z.of_nat (List.length (t :: trailing))) by lia.
    reflexivity.
Qed.

(** On a string of the numeric shape [parseFloat] returns the number the
    literal denotes. *)
Lemma parseFloat_numeric (s : string) (q : Q) :
  numeric s q -> parseFloat s = Fin q.
Proof.
  intros [minus digits point trailing Hne Hd Ht Hpt E ->].
  rewrite <- (str_chars s), E. clear E s.
  destruct digits as [|d ds]; [congruence|].
  inversion Hd as [|? ? Hd0 Hds]; subst.
  destruct (digit_cases d Hd0) as (Hws & _ & _ & _).
  assert (Hsign : forall rest,
             takeSign (trimStart (str ((if minus then ["-"%char] else [])
                                        ++ (d :: ds) ++ rest)))
             = (minus, str ((d :: ds) ++ rest))).
  { intros rest. destruct minus; simpl.
    - reflexivity.
    - rewrite Hws. now apply takeSign_digit. }
  unfold parseFloat. rewrite Hsign. rewrite str_app.
  destruct point.
  - change (str (["."%char] ++ trailing)) with (String "." (str trailing)).
    rewrite (takeDigits_until _ _ _ Hd) by reflexivity.
    rewrite (takeDigits_all _ Ht). simpl.
    rewrite <- (scale10_decimal minus (d :: ds) trailing). reflexivity.
  - rewrite (Hpt eq_refl). simpl str at 2. rewrite RegexFacts.append_empty_r.
    rewrite (takeDigits_all _ Hd). simpl.
    rewrite app_nil_r.
    rewrite <- (scale10_decimal minus (d :: ds) []).
    simpl. now rewrite app_nil_r.
Qed.

End NumericFacts.

(** ** The Record Cleaner *)

Module CleanFacts.
Import Js Spec Notions NumericFacts.

Lemma trimEnd_idempotent (s : string) : trimEnd (trimEnd s) = trimEnd s.
Proof.
  induction s as [|c s IH]; simpl; [reflexivity|].
  destruct (trimEnd s) as [|k kept] eqn:E.
  - destruct (isWhiteSpace c) eqn:Hc; simpl; [reflexivity | now rewrite Hc].
  - simpl in IH |- *. now rewrite IH.
Qed.

Lemma trimStart_head (s : string) :
  trimStart s = EmptyString \/
  exists c rest, trimStart s = String c rest /\ isWhiteSpace c = false.
Proof.
  induction s as [|c s IH]; simpl; [now left|].
  destruct (isWhiteSpace c) eqn:Hc; [exact IH | right; eauto].
Qed.

Lemma trimEnd_head (c : ascii) (rest : string) :
  isWhiteSpace c = false -> exists kept, trimEnd (String c rest) = String c kept.
Proof.
  intros Hc. simpl. destruct (trimEnd rest); rewrite ?Hc; eauto.
Qed.

Lemma trim_head (s : string) :
  trim s = EmptyString \/
  exists c rest, trim s = String c rest /\ isWhiteSpace c = false.
Proof.
  unfold trim. destruct (trimStart_head s) as [E|(c & rest & E & Hc)]; rewrite E.
  - now left.
  - right. destruct (trimEnd_head c rest Hc) as (kept & Ek). eauto.
Qed.

Lemma trim_idempotent (s : string) : trim (trim s) = trim s.
Proof.
  destruct (trim_head s) as [E|(c & rest & E & Hc)].
  - rewrite E. reflexivity.
  - unfold trim at 1. rewrite E. simpl trimStart. rewrite Hc.
    rewrite <- E. unfold trim. apply trimEnd_idempotent.
Qed.

Lemma cleanValue_string (s : string) :
  trim s <> EmptyString ->
  Parser.cleanValue (VStr s) =
    if Regex.test Parser.numericPattern (trim s)
    then Some (VNum (parseFloat (trim s)))
    else Some (VStr (trim s)).
Proof.
  intros Hne. unfold Parser.cleanValue. simpl isNullish. cbv iota.
  destruct (String.eqb_spec (trim s) EmptyString) as [E|_]; [contradiction|].
  reflexivity.
Qed.

Lemma test_numeric (t : string) :
  Regex.test Parser.numericPattern t = true <-> looksNumeric t.
Proof.
  rewrite RegexFacts.test_matches, numericPattern_shape. split.
  - intros (minus & digits & point & trailing & H1 & H2 & H3 & H4 & H5).
    exists (decimalValue minus digits trailing).
    now apply (Numeric t _ minus digits point trailing).
  - intros (q & [minus digits point trailing H1 H2 H3 H4 H5 _]).
    exists minus, digits, point, trailing. auto.
Qed.

(** The numeric shape takes in the strict numerals, and besides them the
    digits that end in a point. *)
Lemma numeric_cases (s : string) (q : Q) :
  numeric s q <->
  numeral s q
  \/ exists (minus : bool) (digits : list ascii),
       digits <> [] /\ allDigits digits
       /\ list_ascii_of_string s
          = (if minus then ["-"%char] else []) ++ digits ++ ["."%char]
       /\ q = decimalValue minus digits [].
Proof.
  split.
  - intros [minus digits point trailing H1 H2 H3 H4 H5 H6].
    destruct point, trailing as [|t trailing].
    + right. exists minus, digits. repeat split; assumption.
    + left. apply (Numeral s q minus digits true (t :: trailing));
        try assumption; discriminate.
    + left. apply (Numeral s q minus digits false []);
        try assumption; discriminate.
    + specialize (H4 eq_refl). discriminate H4.
  - intros [[minus digits point trailing H1 H2 H3 H4 _ H5 H6]
           |(minus & digits & H1 & H2 & H5 & H6)].
    + now apply (Numeric s q minus digits point trailing).
    + apply (Numeric s q minus digits true []); try assumption.
      * constructor.
      * discriminate.
Qed.

(** A numeral that ends in a point is no strict numeral. *)
Lemma bare_point_not_strict (minus : bool) (digits : list ascii) (s : string) :
  allDigits digits ->
  list_ascii_of_string s
  = (if minus then ["-"%char] else []) ++ digits ++ ["."%char] ->
  ~ strictNumeric s.
Proof.
  intros Hd E (q & [minus' digits' point trailing H1 H2 H3 H4 H5 H6 _]).
  rewrite E in H6. clear E.
  assert (Hlast : forall (l : list ascii) (a b : ascii) (l' : list ascii),
             l ++ [a] = l' ++ [b] -> a = b).
  { intros l a b l' H. apply app_inj_tail in H. tauto. }
  destruct point.
  - destruct trailing as [|t trailing]; [now apply H5|].
    destruct (exists_last (l := t :: trailing)) as (front & c & Ec);
      [discriminate|].
    rewrite Ec in H6, H3.
    rewrite !app_assoc in H6. apply Hlast in H6. subst c.
    apply Forall_app in H3. destruct H3 as [_ H3].
    inversion H3 as [|? ? Hc _]. discriminate Hc.
  - rewrite (H4 eq_refl) in H6. rewrite ?app_nil_r in H6.
    destruct (exists_last H1) as (front & c & Ec).
    rewrite Ec in H6, H2.
    rewrite !app_assoc in H6. apply Hlast in H6. subst c.
    apply Forall_app in H2. destruct H2 as [_ H2].
    inversion H2 as [|? ? Hc _]. discriminate Hc.
Qed.

(** What the cleaner keeps, it keeps as it is when cleaned again. *)
Lemma cleanValue_settles (v w : value) :
  Parser.cleanValue v = Some w -> Parser.cleanValue w = Some w.
Proof.
  destruct v as [| |b|n|s|l|o]; try (intros H; injection H as <-; reflexivity);
    try discriminate.
  unfold Parser.cleanValue at 1. simpl isNullish. cbv iota.
  destruct (String.eqb_spec (trim s) EmptyString) as [E|Hne]; [discriminate|].
  destruct (Regex.test Parser.numericPattern (trim s)) eqn:Ht;
    intros H; injection H as <-; [reflexivity|].
  rewrite cleanValue_string; rewrite trim_idempotent; [|assumption].
  now rewrite Ht.
Qed.

End CleanFacts.

Import Js.

(** Claim C7, counterexample.  The string "5." is no strict numeral, for no
    digit follows its point, and cleaning converts it all the same: the
    field becomes the number 5. *)
Lemma clean_coerces_digits_that_end_in_a_point :
  ~ Spec.strictNumeric "5."
  /\ Parser.cleanValue (VStr "5.") = Some (int 5)
  /\ Parser.cleanRecord (VObj [("amount", VStr "5.")])
     = Ok (VObj [("amount", int 5)]).
Proof.
  split; [|split; reflexivity].
  apply (CleanFacts.bare_point_not_strict false ["5"%char]).
  - repeat constructor.
  - reflexivity.
Qed.

(** Claim C7, as amended.  Cleaning turns a string field into a number
    exactly when the trimmed string has the numeric shape: an optional
    leading minus, digits, and an optional single decimal point followed by
    digits, of which there may be none.  Then the field becomes the number
    that is written, and otherwise it stays the trimmed string.  The
    strings of this shape are the strict numerals and, besides them, the
    digits that end in a point.  So [{amount: "123.45"}] cleans to
    [{amount: 123.45}] and [{note: "abc123"}] keeps its string. *)
Theorem clean_coerces_exactly_the_numerals :
  (forall s : string,
      Js.trim s <> EmptyString ->
      (forall q, Notions.numeric (Js.trim s) q ->
                 Parser.cleanValue (VStr s) = Some (VNum (Fin q)))
      /\ (~ Notions.looksNumeric (Js.trim s) ->
          Parser.cleanValue (VStr s) = Some (VStr (Js.trim s))))
  /\ (forall (s : string) (q : Q),
         Notions.numeric s q <->
         Spec.numeral s q
         \/ exists (minus : bool) (digits : list ascii),
              digits <> [] /\ Spec.allDigits digits
              /\ list_ascii_of_string s
                 = (if minus then ["-"%char] else []) ++ digits ++ ["."%char]
              /\ q = Spec.decimalValue minus digits [])
  /\ Parser.cleanRecord (VObj [("amount", VStr "123.45")])
     = Ok (VObj [("amount", VNum (Fin (Qred (12345 # 100))))])
  /\ Parser.cleanRecord (VObj [("note", VStr "abc123")])
     = Ok (VObj [("note", VStr "abc123")]).
Proof.
  split; [|split; [exact CleanFacts.numeric_cases|split; reflexivity]].
  intros s Hne. rewrite (CleanFacts.cleanValue_string s Hne). split.
  - intros q Hq.
    assert (Ht : Regex.test Parser.numericPattern (trim s) = true)
      by (apply CleanFacts.test_numeric; now exists q).
    rewrite Ht. now rewrite (NumericFacts.parseFloat_numeric _ _ Hq).
  - intros Hn.
    destruct (Regex.test Parser.numericPattern (trim s)) eqn:Ht; [|reflexivity].
    apply CleanFacts.test_numeric in Ht. contradiction.
Qed.

Lemma clean_coerces_exactly_the_numerals_witness :
  Parser.cleanValue (VStr " -42.50 ") = Some (VNum (Fin (Qred (-4250 # 100))))
  /\ Parser.cleanValue (VStr " abc123 ") = Some (VStr "abc123").
Proof.
  assert (Hne : Js.trim " -42.50 " <> EmptyString) by discriminate.
  assert (Hne' : Js.trim " abc123 " <> EmptyString) by discriminate.
  split.
  - apply (proj1 (proj1 clean_coerces_exactly_the_numerals " -42.50 " Hne)).
    apply (Notions.Numeric (Js.trim " -42.50 ") _ true
             ["4"; "2"]%char true ["5"; "0"]%char);
      try discriminate; try reflexivity;
      repeat constructor.
  - apply (proj2 (proj1 clean_coerces_exactly_the_numerals " abc123 " Hne')).
    intros Hs. apply CleanFacts.test_numeric in Hs. discriminate Hs.
Defined.

(** ** Property order is kept by assignment *)

Module OrderFacts.
Import Js Notions.

Lemma arrayIndex_name (k : string) (n : N) :
  arrayIndex k = Some n -> k = NToString n.
Proof.
  unfold arrayIndex. destruct (NilEmpty.uint_of_string k) as [u|]; [|discriminate].
  destruct (String.eqb_spec (NToString (N.of_uint u)) k) as [E|_]; simpl;
    [|discriminate].
  destruct (N.of_uint u <=? 4294967294)%N; [|discriminate].
  intros H; injection H as <-. now symmetry.
Qed.

Lemma precedes_neq (a b : string) : precedes a b -> a <> b.
Proof.
  unfold precedes. intros H E. subst b.
  destruct (arrayIndex a); [lia | now apply H].
Qed.

Lemma hasKey_false (k : string) (o : object) :
  Forall (fun k' => k' <> k) (map fst o) -> hasKey k o = false.
Proof.
  induction o as [|[k' v'] o IH]; simpl; intros H; [reflexivity|].
  inversion H as [|? ? Hk Ho]; subst.
  destruct (String.eqb_spec k k') as [E|_]; [now subst|].
  simpl. now apply IH.
Qed.

Lemma hasKey_false_inv (k : string) (o : object) :
  hasKey k o = false -> Forall (fun k' => k' <> k) (map fst o).
Proof.
  induction o as [|[k' v'] o IH]; simpl; intros H; [constructor|].
  apply orb_false_iff in H. destruct H as [H1 H2].
  constructor; [|now apply IH].
  intros E. subst. now rewrite String.eqb_refl in H1.
Qed.

Lemma update_keys (k : string) (v : value) (o : object) :
  map fst (update k v o) = map fst o.
Proof.
  induction o as [|[k' v'] o IH]; simpl; [reflexivity|].
  destruct (String.eqb k k'); simpl; [reflexivity | now rewrite IH].
Qed.

Lemma update_Forall (P : string * value -> Prop) (k : string) (v : value) (o : object) :
  P (k, v) -> Forall P o -> Forall P (update k v o).
Proof.
  intros Hk. induction 1 as [|[k' v'] o Hx Ho IH]; simpl; [constructor|].
  destruct (String.eqb_spec k k') as [E|_].
  - subst. now constructor.
  - now constructor.
Qed.

Lemma insertIndex_Forall (P : string * value -> Prop) (n : N) (k : string)
      (v : value) (o : object) :
  P (k, v) -> Forall P o -> Forall P (insertIndex n k v o).
Proof.
  intros Hk. induction 1 as [|[k' v'] o Hx Ho IH]; simpl.
  - now constructor.
  - destruct (arrayIndex k') as [m|]; [destruct (m <? n)%N|];
      repeat constructor; assumption.
Qed.

Lemma insertIndex_keys_Forall (P : string -> Prop) (n : N) (k : string)
      (v : value) (o : object) :
  P k -> Forall P (map fst o) -> Forall P (map fst (insertIndex n k v o)).
Proof.
  intros Hk Ho. rewrite Forall_map in *.
  apply (insertIndex_Forall (fun e => P (fst e))); assumption.
Qed.

Lemma defineProperty_Forall (P : string * value -> Prop) (o : object)
      (k : string) (v : value) :
  P (k, v) -> Forall P o -> Forall P (defineProperty o k v).
Proof.
  intros Hk Ho. unfold defineProperty.
  destruct (hasKey k o); [now apply update_Forall|].
  destruct (arrayIndex k); [now apply insertIndex_Forall|].
  apply Forall_app. split; [assumption | now constructor].
Qed.

Lemma orderedKeys_app (l1 l2 : list string) :
  orderedKeys (l1 ++ l2) <->
  orderedKeys l1 /\ orderedKeys l2
  /\ Forall (fun a => Forall (precedes a) l2) l1.
Proof.
  induction l1 as [|a l1 IH]; simpl.
  - intuition constructor.
  - rewrite Forall_app, IH. split.
    + intros ((H1 & H2) & H3 & H4 & H5). repeat split; try assumption.
      now constructor.
    + intros ((H1 & H2) & H3 & H4). inversion H4; subst. tauto.
Qed.

(** Where the keys already present all come before [k], defining [k] adds
    it at the end. *)
Lemma defineProperty_last (o : object) (k : string) (v : value) :
  Forall (fun k' => precedes k' k) (map fst o) ->
  defineProperty o k v = o ++ [(k, v)].
Proof.
  intros H. unfold defineProperty.
  rewrite hasKey_false
    by (eapply Forall_impl; [|exact H]; intros a Ha; now apply precedes_neq).
  destruct (arrayIndex k) as [n|] eqn:En; [|reflexivity].
  induction o as [|[k' v'] o IH]; simpl; [reflexivity|].
  simpl in H. inversion H as [|? ? Hk Ho]; subst.
  unfold precedes in Hk. rewrite En in Hk.
  destruct (arrayIndex k') as [m|]; [|contradiction].
  apply N.ltb_lt in Hk. rewrite Hk. now rewrite IH.
Qed.

Lemma insertIndex_ordered (n : N) (k : string) (v : value) (o : object) :
  arrayIndex k = Some n -> hasKey k o = false -> ordered o ->
  ordered (insertIndex n k v o).
Proof.
  intros En. unfold ordered.
  induction o as [|[k' v'] o IH]; simpl; intros Hk Ho.
  - split; constructor.
  - apply orb_false_iff in Hk. destruct Hk as [Hkk' Hk].
    destruct Ho as [Hhead Ho].
    assert (Hne : k <> k') by (intros E; subst; now rewrite String.eqb_refl in Hkk').
    destruct (arrayIndex k') as [m|] eqn:Em.
    + destruct (m <? n)%N eqn:Hmn.
      * simpl. split; [|now apply IH].
        apply insertIndex_keys_Forall; [|assumption].
        unfold precedes. rewrite Em, En. now apply N.ltb_lt.
      * simpl. split; [|split; assumption].
        apply N.ltb_ge in Hmn.
        assert (Hlt : (n < m)%N).
        { destruct (N.eq_dec n m) as [E|E]; [|lia].
          subst m. apply arrayIndex_name in En, Em. congruence. }
        constructor.
        -- unfold precedes. now rewrite En, Em.
        -- eapply Forall_impl; [|exact Hhead].
           intros a. unfold precedes. rewrite En, Em.
           destruct (arrayIndex a); [lia | trivial].
    + simpl. split; [|split; assumption].
      constructor.
      * unfold precedes. now rewrite En, Em.
      * eapply Forall_impl; [|exact Hhead].
        intros a. unfold precedes. rewrite En, Em.
        destruct (arrayIndex a); [contradiction | trivial].
Qed.

Lemma defineProperty_ordered (o : object) (k : string) (v : value) :
  ordered o -> ordered (defineProperty o k v).
Proof.
  intros Ho. unfold defineProperty.
  destruct (hasKey k o) eqn:Hk.
  - unfold ordered. now rewrite update_keys.
  - destruct (arrayIndex k) as [n|] eqn:En.
    + now apply insertIndex_ordered.
    + unfold ordered. rewrite map_app. apply orderedKeys_app.
      split; [exact Ho|]. split; [simpl; split; constructor|].
      apply hasKey_false_inv in Hk.
      eapply Forall_impl; [|exact Hk].
      intros a Ha. simpl. constructor; [|constructor].
      unfold precedes. rewrite En. destruct (arrayIndex a); [trivial | exact Ha].
Qed.

End OrderFacts.

(** ** Cleaning twice *)

Module IdempotenceFacts.
Import Js Notions OrderFacts CleanFacts.

Lemma cleanEntry_invariant (cleaned : object) (entry : string * value) :
  ordered cleaned /\ Forall settled cleaned ->
  ordered (Parser.cleanEntry cleaned entry)
  /\ Forall settled (Parser.cleanEntry cleaned entry).
Proof.
  intros [Ho Hs]. destruct entry as [k v]. unfold Parser.cleanEntry.
  destruct (Parser.cleanValue v) as [w|] eqn:Hv; [|now split].
  unfold assign. destruct (String.eqb_spec k "__proto__") as [E|Hne]; [now split|].
  split.
  - now apply defineProperty_ordered.
  - apply defineProperty_Forall; [|assumption].
    split; [exact Hne | exact (cleanValue_settles v w Hv)].
Qed.

Lemma clean_invariant (record cleaned : object) :
  ordered cleaned /\ Forall settled cleaned ->
  ordered (fold_left Parser.cleanEntry record cleaned)
  /\ Forall settled (fold_left Parser.cleanEntry record cleaned).
Proof.
  revert cleaned. induction record as [|entry record IH]; simpl; intros cleaned H.
  - exact H.
  - apply IH. now apply cleanEntry_invariant.
Qed.

(** Cleaning a record that is in property order and settled rebuilds it
    entry by entry. *)
Lemma clean_rebuilds (record cleaned : object) :
  ordered (cleaned ++ record) -> Forall settled record ->
  fold_left Parser.cleanEntry record cleaned = cleaned ++ record.
Proof.
  revert cleaned. induction record as [|[k v] record IH]; simpl; intros cleaned Ho Hs.
  - now rewrite app_nil_r.
  - inversion Hs as [|? ? [Hk Hv] Hrest]; subst. simpl in Hk, Hv.
    rewrite Hv. unfold assign.
    destruct (String.eqb_spec k "__proto__") as [E|_]; [contradiction|].
    assert (Hsplit : cleaned ++ (k, v) :: record = (cleaned ++ [(k, v)]) ++ record)
      by now rewrite <- app_assoc.
    rewrite defineProperty_last.
    + rewrite Hsplit in Ho |- *. now apply IH.
    + unfold ordered in Ho. rewrite map_app in Ho. simpl in Ho.
      apply orderedKeys_app in Ho. destruct Ho as (_ & _ & Ho).
      eapply Forall_impl; [|exact Ho].
      intros a Ha. now inversion Ha.
Qed.

End IdempotenceFacts.

(** Claim C6.  Cleaning is idempotent: every Raw Record [r] has a cleaned
    form, and cleaning that form again returns it unchanged. *)
Theorem clean_is_idempotent :
  forall r : Js.object,
  exists c, Parser.cleanRecord (VObj r) = Ok c /\ Parser.cleanRecord c = Ok c.
Proof.
  intros r. exists (VObj (fold_left Parser.cleanEntry r [])).
  split; [reflexivity|].
  unfold Parser.cleanRecord. simpl isNullish. cbv iota. simpl entries.
  destruct (IdempotenceFacts.clean_invariant r []) as [Ho Hs].
  { split; [exact I | constructor]. }
  now rewrite (IdempotenceFacts.clean_rebuilds _ [] Ho Hs).
Qed.

(** ** The Record Classifier *)

Module ClassifyFacts.
Import Js Notions Spec.

Lemma existsb_map {A B : Type} (f : B -> bool) (g : A -> B) (l : list A) :
  existsb f (map g l) = existsb (fun x => f (g x)) l.
Proof. induction l as [|x l IH]; simpl; [reflexivity | now rewrite IH]. Qed.

Lemma mentions_applies (c : Category) (words names : list string) :
  existsb (Parser.mentions words) (map toLowerCase names) = applies names (c, words).
Proof.
  unfold applies, Parser.mentions, nameContains. simpl snd.
  now rewrite existsb_map.
Qed.

(** The field-name heuristics of the code and of the specification. *)
Lemma heuristics_agree (o : object) :
  (let keys := map toLowerCase (keys (VObj o)) in
   if existsb (Parser.mentions ["invoice"; "bill"; "revenue"]) keys then
     Ok "invoices"
   else if existsb (Parser.mentions ["payment"; "transaction"]) keys then
     Ok "payments"
   else if existsb (Parser.mentions ["balance"; "account"]) keys then
     Ok "balances"
   else Ok "expenses")
  = Ok (sequenceOf (match find (applies (map fst o)) rules with
                    | Some rule => fst rule
                    | None => expense
                    end)).
Proof.
  cbv zeta. simpl keys.
  rewrite (mentions_applies invoice), (mentions_applies payment),
    (mentions_applies balance).
  unfold rules. simpl find.
  destruct (applies (map fst o) (invoice, _)); [reflexivity|].
  destruct (applies (map fst o) (payment, _)); [reflexivity|].
  destruct (applies (map fst o) (balance, _)); reflexivity.
Qed.

(** On a record whose tag is absent, falsy or a string the classifier
    returns the category the specification's algorithm gives. *)
Lemma detectRecordType_follows_classify (o : object) :
  tagIsText o ->
  Parser.detectRecordType (VObj o) = Ok (sequenceOf (classify o)).
Proof.
  unfold tagIsText, Parser.detectRecordType, classify. simpl get.
  pose proof (heuristics_agree o) as Hh. cbv zeta in Hh. simpl keys in Hh.
  destruct (lookup "type" o) as [v|]; simpl bind; [|intros _; exact Hh].
  destruct v as [| |b|n|s|l|e]; intros Hf;
    try (rewrite Hf; simpl bind; exact Hh).
  simpl truthy.
  destruct (String.eqb_spec s EmptyString) as [->|Hne]; simpl negb; cbv iota.
  - simpl bind. exact Hh.
  - unfold tagCategory.
    destruct (String.eqb (toLowerCase s) "invoice"); [reflexivity|].
    destruct (String.eqb (toLowerCase s) "bill"); [reflexivity|].
    destruct (String.eqb (toLowerCase s) "payment"); [reflexivity|].
    destruct (String.eqb (toLowerCase s) "transaction"); [reflexivity|].
    destruct (String.eqb (toLowerCase s) "expense"); [reflexivity|].
    destruct (String.eqb (toLowerCase s) "balance"); [reflexivity|].
    simpl. exact Hh.
Qed.

End ClassifyFacts.

(** Claim C4 (fails on the code).  The classifier throws on a record whose
    [type] holds a number, as csv-parse produces with [cast: true], and the
    normaliser fails on a flat sequence that contains such a record. *)
Theorem classify_throws_on_a_numeric_tag :
  Parser.detectRecordType (VObj [("type", int 5); ("amount", int 100)])
  = Throw (TypeError "record.type.toLowerCase is not a function")
  /\ Parser.normalizeFinancialData Json.parse "2024-01-01T00:00:00.000Z"
       (VArr [VObj [("type", int 5); ("amount", int 100)]])
     = Throw (Error "Data normalization failed: record.type.toLowerCase is not a function").
Proof. split; reflexivity. Qed.

(** Claim C5 (fails on the code).  On [{type: 5, invoice_number: "x"}] the
    ordered algorithm lets the tag fall through and answers invoice, by the
    field name; the classifier throws.  The two records the claim names are
    classified as it says. *)
Theorem classify_leaves_the_algorithm_on_a_numeric_tag :
  Parser.detectRecordType (VObj [("type", int 5); ("invoice_number", VStr "x")])
  = Throw (TypeError "record.type.toLowerCase is not a function")
  /\ Spec.classify [("type", int 5); ("invoice_number", VStr "x")] = Spec.invoice
  /\ Parser.detectRecordType
       (VObj [("type", VStr "payment"); ("invoice_number", VStr "x")])
     = Ok "payments"
  /\ Parser.detectRecordType (VObj [("foo", int 1); ("bar", int 2)])
     = Ok "expenses".
Proof. repeat split; reflexivity. Qed.

(** ** The Normalizer *)

Module NormalizeFacts.
Import Js Notions.

Lemma detectRecordType_range (record : value) (k : string) :
  Parser.detectRecordType record = Ok k ->
  k = "invoices" \/ k = "expenses" \/ k = "payments" \/ k = "balances".
Proof.
  unfold Parser.detectRecordType.
  destruct (get record "type") as [t| |]; simpl bind; try discriminate.
  assert (Hkeys :
    forall keys,
      (if existsb (Parser.mentions ["invoice"; "bill"; "revenue"]) keys
       then Ok "invoices"
       else if existsb (Parser.mentions ["payment"; "transaction"]) keys
       then Ok "payments"
       else if existsb (Parser.mentions ["balance"; "account"]) keys
       then Ok "balances"
       else Ok "expenses") = Ok k ->
      k = "invoices" \/ k = "expenses" \/ k = "payments" \/ k = "balances").
  { intros keys.
    destruct (existsb _ keys); [intros H; injection H as <-; tauto|].
    destruct (existsb _ keys); [intros H; injection H as <-; tauto|].
    destruct (existsb _ keys); intros H; injection H as <-; tauto. }
  destruct (truthy t); [|simpl bind; apply Hkeys].
  destruct t as [| |b|n|s|l|e]; simpl bind; try discriminate.
  destruct (_ || _)%bool; [simpl; intros H; injection H as <-; tauto|].
  destruct (_ || _)%bool; [simpl; intros H; injection H as <-; tauto|].
  destruct (String.eqb _ _); [simpl; intros H; injection H as <-; tauto|].
  destruct (String.eqb _ _); [simpl; intros H; injection H as <-; tauto|].
  simpl bind. apply Hkeys.
Qed.

Lemma categorizeStep_buckets (i e p b : list value) (record : value) (o : object) :
  Parser.categorizeStep (buckets i e p b) record = Ok o ->
  o = buckets (i ++ filter (classifiedAs "invoices") [record])
              (e ++ filter (classifiedAs "expenses") [record])
              (p ++ filter (classifiedAs "payments") [record])
              (b ++ filter (classifiedAs "balances") [record]).
Proof.
  unfold Parser.categorizeStep, classifiedAs. simpl filter.
  destruct (Parser.detectRecordType record) as [k| |] eqn:Hk; simpl bind;
    try discriminate.
  destruct (detectRecordType_range record k Hk) as [-> | [-> | [-> | ->]]];
    simpl; intros H; injection H as <-; now rewrite !app_nil_r.
Qed.

Lemma categorize_buckets (flatData : list value) :
  forall (i e p b : list value) (o : object),
  forEach Parser.categorizeStep flatData (buckets i e p b) = Ok o ->
  o = buckets (i ++ filter (classifiedAs "invoices") flatData)
              (e ++ filter (classifiedAs "expenses") flatData)
              (p ++ filter (classifiedAs "payments") flatData)
              (b ++ filter (classifiedAs "balances") flatData).
Proof.
  induction flatData as [|record rest IH]; intros i e p b o; simpl forEach.
  - intros H; injection H as <-. simpl. now rewrite !app_nil_r.
  - destruct (Parser.categorizeStep (buckets i e p b) record) as [o1| |] eqn:H1;
      simpl bind; try discriminate.
    apply categorizeStep_buckets in H1. subst o1.
    intros H. apply IH in H. subst o.
    change (record :: rest) with ([record] ++ rest).
    now rewrite !filter_app, !app_assoc.
Qed.

Lemma categorizeFlatData_ok (flatData : list value) (data : value) :
  Parser.categorizeFlatData flatData = Ok data ->
  data = VObj (buckets (filter (classifiedAs "invoices") flatData)
                       (filter (classifiedAs "expenses") flatData)
                       (filter (classifiedAs "payments") flatData)
                       (filter (classifiedAs "balances") flatData)).
Proof.
  unfold Parser.categorizeFlatData.
  destruct (forEach _ _ _) as [o| |] eqn:H; simpl bind; try discriminate.
  intros E; injection E as <-.
  apply (categorize_buckets flatData [] [] [] []) in H. now subst o.
Qed.

Lemma bind_ok {A B : Type} (m : outcome A) (k : A -> outcome B) (b : B) :
  bind m k = Ok b -> exists a, m = Ok a /\ k a = Ok b.
Proof. destruct m as [a| |]; simpl; try discriminate. eauto. Qed.

Lemma bind_throw {A B : Type} (m : outcome A) (k : A -> outcome B) (e : js_error) :
  bind m k = Throw e -> m = Throw e \/ exists a, m = Ok a /\ k a = Throw e.
Proof.
  destruct m as [a| |]; simpl; try discriminate; intros H.
  - right. eauto.
  - injection H as ->. now left.
Qed.

Lemma get_opt_of_get (v x : value) (k : string) :
  get v k = Ok x -> get_opt v k = x.
Proof.
  destruct v; simpl; try discriminate; intros H.
  - injection H as <-. reflexivity.
  - injection H as <-. reflexivity.
  - now rewrite H.
  - now rewrite H.
  - now rewrite H.
Qed.

Lemma Qred_inject_Z (z : Z) : Qred (inject_Z z) = inject_Z z.
Proof. apply Qcanon.Qred_identity. simpl. apply Z.gcd_1_r. Qed.

Lemma add_numbers (x y : number) : add (VNum x) (VNum y) = Ok (VNum (num_add x y)).
Proof. reflexivity. Qed.

Lemma add_int (a b : Z) : add (int a) (int b) = Ok (int (a + b)).
Proof.
  unfold int. rewrite add_numbers. unfold num_add. do 3 f_equal.
  rewrite <- (Qred_inject_Z (a + b)). apply Qred_complete.
  unfold Qeq, inject_Z, Qplus. simpl. lia.
Qed.

(** [(x.length || 0)] is the length of [x || []] when that is a sequence. *)
Lemma length_of_entry (x : value) (l : list value) :
  or_else x (VArr []) = VArr l ->
  or_else (get_opt x "length") (int 0) = int (Z.of_nat (List.length l)).
Proof.
  unfold or_else. destruct (truthy x) eqn:Ht.
  - intros ->. simpl. destruct l; reflexivity.
  - intros H; injection H as <-.
    destruct x as [| |b|[q|]|s|l|o]; try discriminate Ht; try reflexivity.
    simpl in Ht. apply negb_false_iff, String.eqb_eq in Ht. now subst.
Qed.

Section Normalizer.

Variable JSON_parse : string -> outcome value.
Variable now : string.

Lemma readInput_reads (input data : value) :
  readInput JSON_parse input = Ok data <-> reads JSON_parse input data.
Proof.
  unfold readInput, reads.
  destruct input; try (split; congruence).
  destruct (JSON_parse s); simpl; split; congruence.
Qed.

Lemma reads_functional (input d1 d2 : value) :
  reads JSON_parse input d1 -> reads JSON_parse input d2 -> d1 = d2.
Proof. unfold reads. destruct input; congruence. Qed.

(** What a successful call has gone through. *)
Lemma normalize_ok (input out : value) :
  Parser.normalizeFinancialData JSON_parse now input = Ok out ->
  exists data data' i e p b s c,
    reads JSON_parse input data
    /\ match data with
       | VArr flatData => Parser.categorizeFlatData flatData = Ok data'
       | _ => data' = data
       end
    /\ get data' "invoices" = Ok i
    /\ get data' "expenses" = Ok e
    /\ get data' "payments" = Ok p
    /\ get data' "balances" = Ok b
    /\ get data' "source" = Ok s
    /\ Parser.getTotalRecordCount data' = Ok c
    /\ out = VObj
               [("invoices", or_else i (VArr []));
                ("expenses", or_else e (VArr []));
                ("payments", or_else p (VArr []));
                ("balances", or_else b (VArr []));
                ("metadata",
                 VObj [("source", or_else s (VStr "manual_input"));
                       ("timestamp", VStr now);
                       ("recordCount", c)])].
Proof.
  unfold Parser.normalizeFinancialData.
  change (match input with
          | VStr text =>
              try_catch (JSON_parse text)
                        (fun _ => Throw (Error "Invalid JSON format"))
          | _ => Ok input
          end) with (readInput JSON_parse input).
  intros H.
  match type of H with try_catch ?m _ = _ =>
    assert (Hm : m = Ok out) by (destruct m; simpl in H; congruence) end.
  clear H.
  apply bind_ok in Hm. destruct Hm as (data & Hread & Hm).
  apply bind_ok in Hm. destruct Hm as (data' & Hcat & Hm).
  apply bind_ok in Hm. destruct Hm as (i & Hi & Hm).
  apply bind_ok in Hm. destruct Hm as (e & He & Hm).
  apply bind_ok in Hm. destruct Hm as (p & Hp & Hm).
  apply bind_ok in Hm. destruct Hm as (b & Hb & Hm).
  apply bind_ok in Hm. destruct Hm as (s & Hs & Hm).
  apply bind_ok in Hm. destruct Hm as (c & Hc & Hm).
  injection Hm as <-.
  exists data, data', i, e, p, b, s, c.
  repeat split; try assumption.
  - now apply readInput_reads.
  - destruct data; try congruence.
Qed.





Lemma numberToString_returns (n : number) (e : js_error) :
  numberToString n <> Throw e.
Proof.
  destruct n as [q|]; [|discriminate]. unfold numberToString.
  destruct (_ && _); discriminate.
Qed.

Lemma join_returns (items : list (outcome string)) :
  Forall noThrow items -> noThrow (join items).
Proof.
  induction 1 as [|item rest Hitem _ IH]; [exact I|].
  destruct rest as [|next rest]; [exact Hitem|].
  change (noThrow (bind item (fun s =>
            bind (join (next :: rest)) (fun t => Ok (s ++ "," ++ t)%string)))).
  destruct item as [s|e|]; [|exact Hitem|exact I].
  cbv beta iota delta [bind].
  destruct (join (next :: rest)) as [t|e|]; [exact I|exact IH|exact I].
Qed.

Lemma render_never_throws : forall v : value, noThrow (render v).
Proof.
  fix IH 1. intros [| |b|n|s|items|o]; try exact I.
  - simpl. destruct (numberToString n) eqn:E; try exact I.
    now apply numberToString_returns in E.
  - simpl. apply join_returns.
    induction items as [|x rest IHrest]; constructor; [|exact IHrest].
    pose proof (IH x) as Hx. destruct x; first [exact I | exact Hx].
Qed.

Lemma render_returns (v : value) (e : js_error) : render v <> Throw e.
Proof. intros H. pose proof (render_never_throws v) as R. now rewrite H in R. Qed.

Lemma toString_throws (v : value) (e : js_error) :
  toString v = Throw e -> e = noPrimitive.
Proof.
  unfold toString. destruct (printable v).
  - intros H. now apply render_returns in H.
  - intros H. now injection H as <-.
Qed.

Lemma toPrimitive_throws (v : value) (e : js_error) :
  toPrimitive v = Throw e -> e = noPrimitive.
Proof.
  destruct v; try discriminate; simpl; intros H;
    apply bind_throw in H; destruct H as [H|(? & _ & H)];
    try discriminate; now apply toString_throws in H.
Qed.

(** Whatever [+] throws is the error of a conversion. *)
Lemma add_throws (a b : value) (e : js_error) :
  add a b = Throw e -> e = noPrimitive.
Proof.
  unfold add. destruct (negb _); [intros H; now injection H as <-|].
  intros H. apply bind_throw in H.
  destruct H as [H|(lprim & _ & H)]; [now apply toPrimitive_throws in H|].
  apply bind_throw in H.
  destruct H as [H|(rprim & _ & H)]; [now apply toPrimitive_throws in H|].
  assert (Hs : bind (toString lprim) (fun lstr =>
               bind (toString rprim) (fun rstr =>
               Ok (VStr (lstr ++ rstr)%string))) = Throw e -> e = noPrimitive).
  { intros Hc. apply bind_throw in Hc.
    destruct Hc as [Hc|(? & _ & Hc)]; [now apply toString_throws in Hc|].
    apply bind_throw in Hc.
    destruct Hc as [Hc|(? & _ & Hc)]; [now apply toString_throws in Hc|].
    discriminate. }
  destruct lprim, rprim; first [now apply Hs | discriminate H].
Qed.




End Normalizer.

End NormalizeFacts.

(** Claim C1, counterexample.  Given one invoice whose amount is the string
    "123.45", the normaliser returns that record as it is, while the Cleaner
    would have made the amount a number. *)
Lemma normalize_returns_a_record_uncleaned :
  exists out,
    Parser.normalizeFinancialData Json.parse "2024-01-01T00:00:00.000Z"
      (VObj [("invoices", VArr [VObj [("amount", VStr "123.45")]])]) = Ok out
    /\ get out "invoices" = Ok (VArr [VObj [("amount", VStr "123.45")]])
    /\ Parser.cleanRecord (VObj [("amount", VStr "123.45")])
       = Ok (VObj [("amount", VNum (Fin (Qred (12345 # 100))))])
    /\ VObj [("amount", VStr "123.45")]
       <> VObj [("amount", VNum (Fin (Qred (12345 # 100))))].
Proof.
  eexists. split; [reflexivity|].
  split; [reflexivity|]. split; [reflexivity | discriminate].
Qed.

(** Claim C1, as amended.  The normaliser does not run the Cleaner: of a
    flat sequence it returns, under each category, the records classified
    into it, unchanged and in their order; of any other data it returns each
    category entry as it is given, or an empty sequence when the entry is
    absent or falsy. *)
Theorem normalize_keeps_the_records :
  forall (JSON_parse : string -> outcome value) (now : string)
         (input data out : value),
    Notions.reads JSON_parse input data ->
    Parser.normalizeFinancialData JSON_parse now input = Ok out ->
    get out "invoices" = Ok (Notions.categoryOf data "invoices")
    /\ get out "expenses" = Ok (Notions.categoryOf data "expenses")
    /\ get out "payments" = Ok (Notions.categoryOf data "payments")
    /\ get out "balances" = Ok (Notions.categoryOf data "balances").
Proof.
  intros JSON_parse now input data out Hreads Hok.
  apply NormalizeFacts.normalize_ok in Hok.
  destruct Hok as (data0 & data' & i & e & p & b & s & c
                   & Hreads0 & Hcat & Hi & He & Hp & Hb & _ & _ & ->).
  rewrite (NormalizeFacts.reads_functional JSON_parse input data data0 Hreads Hreads0).
  clear Hreads Hreads0 data input.
  assert (Hsame : data' = data0 ->
                  forall k x, get data' k = Ok x ->
                              x = get_opt data0 k).
  { intros -> k x Hx. symmetry. now apply NormalizeFacts.get_opt_of_get. }
  destruct data0 as [| |bb|n|str|flatData|o];
    try (specialize (Hsame Hcat);
         rewrite (Hsame _ _ Hi), (Hsame _ _ He), (Hsame _ _ Hp), (Hsame _ _ Hb);
         repeat split; reflexivity).
  apply NormalizeFacts.categorizeFlatData_ok in Hcat. subst data'.
  simpl in Hi, He, Hp, Hb.
  injection Hi as <-. injection He as <-. injection Hp as <-. injection Hb as <-.
  repeat split; reflexivity.
Qed.

Lemma normalize_keeps_the_records_witness :
  exists out,
    Parser.normalizeFinancialData Json.parse "2024-01-01T00:00:00.000Z"
      (VArr [VObj [("type", VStr "invoice"); ("amount", VStr " 500 ")];
             VObj [("vendor", VStr "Acme"); ("note", VNull)]]) = Ok out
    /\ get out "invoices"
       = Ok (VArr [VObj [("type", VStr "invoice"); ("amount", VStr " 500 ")]])
    /\ get out "expenses"
       = Ok (VArr [VObj [("vendor", VStr "Acme"); ("note", VNull)]]).
Proof.
  eexists. split; [reflexivity|].
  pose proof
    (normalize_keeps_the_records Json.parse "2024-01-01T00:00:00.000Z"
       (VArr [VObj [("type", VStr "invoice"); ("amount", VStr " 500 ")];
              VObj [("vendor", VStr "Acme"); ("note", VNull)]])
       _ _ eq_refl eq_refl) as (Hi & He & _ & _).
  split; [exact Hi | exact He].
Defined.

(** Claim C2, counterexample.  An [invoices] entry that is an object with a
    [length] of -1 is returned as it is, and the record count is -1. *)
Lemma recordCount_can_be_negative :
  exists out,
    Parser.normalizeFinancialData Json.parse "2024-01-01T00:00:00.000Z"
      (VObj [("invoices", VObj [("length", int (-1))])]) = Ok out
    /\ get out "invoices" = Ok (VObj [("length", int (-1))])
    /\ Notions.recordCountOf out = Ok (int (-1)).
Proof. eexists. repeat split; reflexivity. Qed.

(** Claim C2, as amended.  For every input on which the normaliser succeeds
    and returns a sequence under each of the four categories, the record
    count is the sum of the four lengths, a non-negative integer. *)
Theorem recordCount_is_the_sum_of_the_lengths :
  forall (JSON_parse : string -> outcome value) (now : string)
         (input out : value) (invoices expenses payments balances : list value),
    Parser.normalizeFinancialData JSON_parse now input = Ok out ->
    get out "invoices" = Ok (VArr invoices) ->
    get out "expenses" = Ok (VArr expenses) ->
    get out "payments" = Ok (VArr payments) ->
    get out "balances" = Ok (VArr balances) ->
    Notions.recordCountOf out
    = Ok (int (Z.of_nat (List.length invoices + List.length expenses
                         + List.length payments + List.length balances))).
Proof.
  intros JSON_parse now input out li le lp lb Hok Hi He Hp Hb.
  apply NormalizeFacts.normalize_ok in Hok.
  destruct Hok as (data0 & data' & i & e & p & b & s & c
                   & _ & _ & Gi & Ge & Gp & Gb & _ & Hc & ->).
  simpl in Hi, He, Hp, Hb.
  injection Hi as Hi. injection He as He. injection Hp as Hp. injection Hb as Hb.
  apply NormalizeFacts.length_of_entry in Hi, He, Hp, Hb.
  unfold Notions.recordCountOf. simpl. rewrite <- Hc.
  unfold Parser.getTotalRecordCount, Parser.lengthOrZero.
  rewrite Gi, Ge, Gp, Gb. simpl bind.
  rewrite Hi, He, Hp, Hb.
  rewrite NormalizeFacts.add_int. cbv beta iota delta [bind].
  rewrite NormalizeFacts.add_int. cbv beta iota delta [bind].
  rewrite NormalizeFacts.add_int.
  do 2 f_equal. lia.
Qed.

Lemma recordCount_is_the_sum_of_the_lengths_witness :
  exists out,
    Parser.normalizeFinancialData Json.parse "2024-01-01T00:00:00.000Z"
      (VArr [VObj [("type", VStr "invoice"); ("amount", int 500)];
             VObj [("vendor", VStr "Acme"); ("amount", int 50)]]) = Ok out
    /\ Notions.recordCountOf out = Ok (int 2).
Proof.
  eexists. split; [reflexivity|].
  apply (recordCount_is_the_sum_of_the_lengths Json.parse
           "2024-01-01T00:00:00.000Z"
           (VArr [VObj [("type", VStr "invoice"); ("amount", int 500)];
                  VObj [("vendor", VStr "Acme"); ("amount", int 50)]])
           _
           [VObj [("type", VStr "invoice"); ("amount", int 500)]]
           [VObj [("vendor", VStr "Acme"); ("amount", int 50)]]
           [] []); reflexivity.
Defined.




(** Claim C8 (fails on the code).  On
    [{invoices: [{date: "2024-01-01"}], expenses: []}] the validator answers
    [isValid: false] with exactly one field error, for the missing required
    [amount] of the invoice record: it carries the path of the record, the
    message and the constraint, but its [value] is [undefined], because the
    validator instance is not verbose and so attaches no data to its errors.
    From a verbose instance the same code would carry the invoice record. *)
Theorem validate_reports_the_missing_amount_without_a_value :
  Validation.validateData
    (VObj [("invoices", VArr [VObj [("date", VStr "2024-01-01")]]);
           ("expenses", VArr [])])
  = Ok {| Validation.isValid := false;
          Validation.errors :=
            [{| Validation.field := "/invoices/0";
                Validation.message := "must have required property 'amount'";
                Validation.value := VUndefined;
                Validation.constraint := VObj [("missingProperty", VStr "amount")] |}];
          Validation.warnings := [] |}
  /\ map Validation.formatValidationError
         (Ajv.compile AjvFormats.formats true Validation.financialDataSchema
            (VObj [("invoices", VArr [VObj [("date", VStr "2024-01-01")]]);
                   ("expenses", VArr [])]))
     = [{| Validation.field := "/invoices/0";
           Validation.message := "must have required property 'amount'";
           Validation.value := VObj [("date", VStr "2024-01-01")];
           Validation.constraint := VObj [("missingProperty", VStr "amount")] |}].
Proof. split; reflexivity. Qed.

(** ** The schema validator *)

Module AjvFacts.
Import Js Ajv.

Section Validator.

Variable formats : string -> option (string -> bool).
Variable verbose : bool.

Lemma flat_map_nil {A B : Type} (f : A -> list B) (l : list A) :
  flat_map f l = [] <-> Forall (fun x => f x = []) l.
Proof.
  induction l as [|x l IH]; simpl.
  - split; [constructor | reflexivity].
  - split.
    + intros H. apply app_eq_nil in H. destruct H as [Hx Hl].
      constructor; [exact Hx | now apply IH].
    + intros H. inversion H as [|? ? Hx Hl]; subst.
      rewrite Hx. now apply IH.
Qed.

Lemma grouped_type (t : jsonType) (ks : list (keyword schema)) :
  existsb (inGroup t) ks = true ->
  t = TNumber \/ t = TString \/ t = TArray \/ t = TObject.
Proof.
  intros H. apply existsb_exists in H. destruct H as (k & _ & Hk).
  destruct t; auto; destruct k; discriminate.
Qed.

Lemma deferredType_inv (ks : list (keyword schema)) (t : jsonType) :
  deferredType ks = Some t ->
  (exists shown, schemaTypes ks = Some ([t], shown))
  /\ (t = TNumber \/ t = TString \/ t = TArray \/ t = TObject).
Proof.
  unfold deferredType.
  destruct (schemaTypes ks) as [[[|t0 [|t1 ts]] shown]|]; try discriminate.
  destruct (existsb (inGroup t0) ks) eqn:Hg; [|discriminate].
  intros H; injection H as <-. split; [eauto | now apply (grouped_type t0 ks)].
Qed.

(** The six parts of the error list of a schema. *)
Lemma validate_parts (ks : list (keyword schema)) (ipath spath : string) (data : value) :
  validate formats verbose (Schema ks) ipath spath data = [] ->
  (deferredType ks = None -> typeError verbose ipath spath ks data = [])
  /\ (forall t, deferredType ks = Some t ->
                hasType t data = false -> typeError verbose ipath spath ks data = [])
  /\ flat_map (fun k => checkEnum verbose ipath spath k data) ks = []
  /\ (forall q, data = VNum (Fin q) ->
                flat_map (fun k => checkNumber verbose ipath spath k q) ks = [])
  /\ (forall str, data = VStr str ->
                  flat_map (fun k => checkString formats verbose ipath spath k str) ks = [])
  /\ (forall elements, data = VArr elements ->
        flat_map
          (fun k =>
             match k with
             | KItems sub =>
                 flat_map
                   (fun ix => validate formats verbose sub
                                (ipath ++ "/" ++ natToString (fst ix))%string
                                (spath ++ "/items")%string (snd ix))
                   (combine (seq 0 (List.length elements)) elements)
             | _ => []
             end) ks = [])
  /\ (forall o, data = VObj o ->
        flat_map (fun k => checkRequired verbose ipath spath k o) ks = []
        /\ flat_map
             (fun k =>
                match k with
                | KProperties properties =>
                    flat_map
                      (fun p =>
                         match lookup (fst p) o with
                         | None | Some VUndefined => []
                         | Some x =>
                             validate formats verbose (snd p)
                               (ipath ++ "/" ++ fst p)%string
                               (spath ++ "/properties/" ++ fst p)%string x
                         end) properties
                | _ => []
                end) ks = []).
Proof.
  intros Hv. simpl validate in Hv.
  apply app_eq_nil in Hv. destruct Hv as [H1 Hv].
  apply app_eq_nil in Hv. destruct Hv as [H2 Hv].
  apply app_eq_nil in Hv. destruct Hv as [H3 Hv].
  apply app_eq_nil in Hv. destruct Hv as [H4 Hv].
  apply app_eq_nil in Hv. destruct Hv as [H5 H6].
  split; [|split; [|split; [|split; [|split; [|split]]]]].
  - intros Hd. now rewrite Hd in H1.
  - intros t Hd Ht. rewrite Hd in H3, H4, H5, H6.
    destruct (deferredType_inv ks t Hd) as (_ & [-> | [-> | [-> | ->]]]).
    + destruct data as [| |b|[q|]|s|l|o]; try discriminate Ht; exact H3.
    + destruct data as [| |b|n|s|l|o]; try discriminate Ht; exact H4.
    + destruct data as [| |b|n|s|l|o]; try discriminate Ht; exact H5.
    + destruct data as [| |b|n|s|l|o]; try discriminate Ht; exact H6.
  - exact H2.
  - intros q ->. exact H3.
  - intros str ->. exact H4.
  - intros elements ->. exact H5.
  - intros o ->. apply app_eq_nil in H6. exact H6.
Qed.

Lemma validate_type (ks : list (keyword schema)) (ipath spath : string) (data : value)
      (ts : list jsonType) (shown : value) :
  validate formats verbose (Schema ks) ipath spath data = [] ->
  schemaTypes ks = Some (ts, shown) ->
  existsb (fun t => hasType t data) ts = true.
Proof.
  intros Hv Hts. apply validate_parts in Hv.
  destruct Hv as (Hnone & Hsome & _).
  destruct (existsb (fun t => hasType t data) ts) eqn:Hex; [reflexivity|].
  assert (Herr : typeError verbose ipath spath ks data <> []).
  { unfold typeError. rewrite Hts, Hex. discriminate. }
  destruct (deferredType ks) as [t|] eqn:Hd.
  - destruct (deferredType_inv ks t Hd) as ((shown' & Hts') & _).
    rewrite Hts in Hts'. injection Hts' as -> _.
    simpl in Hex. rewrite orb_false_r in Hex.
    now specialize (Hsome t eq_refl Hex).
  - now specialize (Hnone eq_refl).
Qed.

Lemma validate_required (ks : list (keyword schema)) (ipath spath : string)
      (o : object) (names : list string) (name : string) :
  validate formats verbose (Schema ks) ipath spath (VObj o) = [] ->
  In (KRequired names) ks -> In name names -> missing o name = false.
Proof.
  intros Hv Hk Hn. apply validate_parts in Hv.
  destruct Hv as (_ & _ & _ & _ & _ & _ & Hobj).
  destruct (Hobj o eq_refl) as [Hreq _].
  rewrite flat_map_nil, Forall_forall in Hreq. specialize (Hreq _ Hk).
  simpl in Hreq. apply map_eq_nil in Hreq.
  destruct (missing o name) eqn:Hm; [|reflexivity].
  assert (Hin : In name (filter (missing o) names))
    by (apply filter_In; now split).
  rewrite Hreq in Hin. contradiction.
Qed.

Lemma validate_property (ks : list (keyword schema)) (ipath spath : string)
      (o : object) (properties : list (string * schema))
      (name : string) (sub : schema) (x : value) :
  validate formats verbose (Schema ks) ipath spath (VObj o) = [] ->
  In (KProperties properties) ks -> In (name, sub) properties ->
  lookup name o = Some x -> x <> VUndefined ->
  validate formats verbose sub (ipath ++ "/" ++ name)%string
           (spath ++ "/properties/" ++ name)%string x = [].
Proof.
  intros Hv Hk Hp Hx Hdef. apply validate_parts in Hv.
  destruct Hv as (_ & _ & _ & _ & _ & _ & Hobj).
  destruct (Hobj o eq_refl) as [_ Hprops].
  rewrite flat_map_nil, Forall_forall in Hprops. specialize (Hprops _ Hk).
  simpl in Hprops.
  rewrite flat_map_nil, Forall_forall in Hprops. specialize (Hprops _ Hp).
  simpl in Hprops. rewrite Hx in Hprops.
  destruct x; try exact Hprops. contradiction.
Qed.

Lemma indexed_In {A : Type} (l : list A) (x : A) :
  In x l -> forall base, exists i, In (i, x) (combine (seq base (List.length l)) l).
Proof.
  induction l as [|y rest IH]; intros Hx base; [contradiction|].
  simpl. destruct Hx as [->|Hx].
  - exists base. now left.
  - destruct (IH Hx (S base)) as (i & Hi). exists i. now right.
Qed.

Lemma validate_items (ks : list (keyword schema)) (ipath spath : string)
      (elements : list value) (sub : schema) (x : value) :
  validate formats verbose (Schema ks) ipath spath (VArr elements) = [] ->
  In (KItems sub) ks -> In x elements ->
  exists ipath', validate formats verbose sub ipath' (spath ++ "/items")%string x = [].
Proof.
  intros Hv Hk Hx. apply validate_parts in Hv.
  destruct Hv as (_ & _ & _ & _ & _ & Harr & _).
  specialize (Harr elements eq_refl).
  rewrite flat_map_nil, Forall_forall in Harr. specialize (Harr _ Hk).
  simpl in Harr. rewrite flat_map_nil, Forall_forall in Harr.
  destruct (indexed_In elements x Hx 0) as (i & Hi).
  specialize (Harr _ Hi). simpl in Harr. eauto.
Qed.

Lemma pricing_record (s : schema) (ipath spath : string) (x : value) :
  Notions.pricing s ->
  validate formats verbose s ipath spath x = [] -> Notions.pricedRecord x.
Proof.
  intros (ks & names & properties & ks' & shown & shown'
          & -> & Hts & Hreq & Hn & Hprops & Hp & Hts') Hv.
  pose proof (validate_type ks ipath spath x _ _ Hv Hts) as Ht.
  simpl in Ht. rewrite orb_false_r in Ht.
  destruct x as [| |b|n|str|l|e]; try discriminate Ht.
  pose proof (validate_required ks ipath spath e names "amount" Hv Hreq Hn) as Hm.
  unfold missing in Hm.
  destruct (lookup "amount" e) as [a|] eqn:Ha; [|discriminate Hm].
  assert (Hdef : a <> VUndefined) by (intros ->; discriminate Hm).
  pose proof (validate_property ks ipath spath e properties "amount" _ a
                Hv Hprops Hp Ha Hdef) as Hva.
  pose proof (validate_type ks' _ _ a _ _ Hva Hts') as Hta.
  simpl in Hta. rewrite orb_false_r in Hta.
  destruct a as [| |b|[q|]|str|l|e']; try discriminate Hta.
  exists e, q. now split.
Qed.

Lemma pricing_records (s : schema) (ipath spath : string) (x : value) :
  Notions.pricingList s ->
  validate formats verbose s ipath spath x = [] -> Notions.pricedRecords x.
Proof.
  intros (ks & shown & sub & -> & Hts & Hitems & Hsub) Hv.
  pose proof (validate_type ks ipath spath x _ _ Hv Hts) as Ht.
  simpl in Ht. rewrite orb_false_r in Ht.
  destruct x as [| |b|n|str|l|e]; try discriminate Ht.
  exists l. split; [reflexivity|].
  apply Forall_forall. intros r Hr.
  destruct (validate_items ks ipath spath l sub r Hv Hitems Hr) as (ipath' & Hvr).
  exact (pricing_record sub ipath' _ r Hsub Hvr).
Qed.

End Validator.
End AjvFacts.

(** ** Validation of financial data *)

(** Membership in a list that is written out. *)
Ltac solve_In := simpl; repeat (first [left; reflexivity | right]).

Module ValidationFacts.
Import Js Notions.

Ltac solve_pricingList :=
  eexists; eexists; eexists;
  split; [reflexivity|]; split; [reflexivity|]; split; [solve_In|];
  eexists; eexists; eexists; eexists; eexists; eexists;
  split; [reflexivity|]; split; [reflexivity|]; split; [solve_In|];
  split; [solve_In|]; split; [solve_In|]; split; [solve_In | reflexivity].

(** What structural validity says of the data the quality check reads. *)
Lemma valid_structure (data : value) :
  Validation.validateFinancialData data = [] ->
  exists o invoices expenses,
    data = VObj o
    /\ lookup "invoices" o = Some invoices /\ pricedRecords invoices
    /\ lookup "expenses" o = Some expenses /\ pricedRecords expenses
    /\ optionalRecords (lookup "payments" o).
Proof.
  unfold Validation.validateFinancialData, Ajv.compile, Validation.financialDataSchema.
  intros Hv.
  pose proof (AjvFacts.validate_type _ _ _ _ _ _ _ _ Hv eq_refl) as Ht.
  simpl in Ht. rewrite orb_false_r in Ht.
  destruct data as [| |b|n|str|l|o]; try discriminate Ht. clear Ht.
  assert (Hrequired :
    forall name, In name ["invoices"; "expenses"] ->
                 exists x, lookup name o = Some x /\ x <> VUndefined).
  { intros name Hin.
    eapply AjvFacts.validate_required in Hv; [ | solve_In | exact Hin ].
    unfold Ajv.missing in Hv.
    destruct (lookup name o) as [x|]; [|discriminate Hv].
    exists x. split; [reflexivity|]. intros ->. discriminate Hv. }
  assert (Hfield :
    forall name x,
      In name ["invoices"; "expenses"; "payments"] ->
      lookup name o = Some x -> x <> VUndefined -> pricedRecords x).
  { intros name x Hin Hx Hdef.
    destruct Hin as [<-|[<-|[<-|[]]]].
    - eapply (AjvFacts.validate_property _ _ _ _ _ _ _ "invoices" _ x) in Hv;
        [ | solve_In | solve_In | exact Hx | exact Hdef ].
      eapply AjvFacts.pricing_records; [|exact Hv]. solve_pricingList.
    - eapply (AjvFacts.validate_property _ _ _ _ _ _ _ "expenses" _ x) in Hv;
        [ | solve_In | solve_In | exact Hx | exact Hdef ].
      eapply AjvFacts.pricing_records; [|exact Hv]. solve_pricingList.
    - eapply (AjvFacts.validate_property _ _ _ _ _ _ _ "payments" _ x) in Hv;
        [ | solve_In | solve_In | exact Hx | exact Hdef ].
      eapply AjvFacts.pricing_records; [|exact Hv]. solve_pricingList. }
  destruct (Hrequired "invoices") as (inv & Hinv & Hinv'); [solve_In|].
  destruct (Hrequired "expenses") as (exp & Hexp & Hexp'); [solve_In|].
  exists o, inv, exp.
  split; [reflexivity|].
  split; [exact Hinv|]. split; [apply (Hfield "invoices"); [solve_In|assumption..]|].
  split; [exact Hexp|]. split; [apply (Hfield "expenses"); [solve_In|assumption..]|].
  unfold optionalRecords.
  destruct (lookup "payments" o) as [x|] eqn:Hx; [|exact I].
  assert (Hx' : x = VUndefined \/ x <> VUndefined)
    by (destruct x; auto; right; discriminate).
  destruct Hx' as [->|Hdef]; [exact I|].
  pose proof (Hfield "payments" x ltac:(solve_In) Hx Hdef) as Hp.
  destruct x; try exact Hp. contradiction.
Qed.

Lemma missingDate_total (records : list value) :
  Forall pricedRecord records ->
  exists kept, Validation.filterM Validation.missingDate records = Ok kept.
Proof.
  induction 1 as [|r rest (e & q & -> & _) _ (kept & IH)]; simpl.
  - now exists [].
  - unfold Validation.missingDate at 1. simpl get.
    destruct (lookup "date" e); simpl bind; rewrite IH; simpl bind; eauto.
Qed.

Lemma suspiciousAmount_total (records : list value) :
  Forall pricedRecord records ->
  exists kept, Validation.filterM Validation.suspiciousAmount records = Ok kept.
Proof.
  induction 1 as [|r rest (e & q & -> & Ha) _ (kept & IH)]; simpl.
  - now exists [].
  - unfold Validation.suspiciousAmount at 1. simpl get. rewrite Ha. simpl bind.
    simpl truthy. rewrite IH.
    destruct (negb (Qeq_bool q 0)); simpl bind; eauto.
Qed.

Lemma spread_optional (entry : option value) :
  optionalRecords entry ->
  exists records,
    Validation.spread
      (or_else (match entry with Some x => x | None => VUndefined end) (VArr []))
    = Ok records
    /\ Forall pricedRecord records.
Proof.
  destruct entry as [x|]; [|intros _; exists []; split; [reflexivity | constructor]].
  destruct x as [| |b|n|str|l|o]; simpl;
    try (intros (records & E & _); discriminate E);
    try (intros _; exists []; split; [reflexivity | constructor]).
  intros (records & E & H). injection E as <-. now exists l.
Qed.

(** On structurally valid data the quality check returns, and warns of an
    empty invoices sequence. *)
Lemma checkDataQuality_total (data : value) :
  Validation.validateFinancialData data = [] ->
  exists warnings,
    Validation.checkDataQuality data = Ok warnings
    /\ (get data "invoices" = Ok (VArr []) -> In cashFlowWarning warnings).
Proof.
  intros Hv. apply valid_structure in Hv.
  destruct Hv as (o & inv & exp & -> & Hinv & (li & -> & Hli)
                  & Hexp & (le & -> & Hle) & Hpay).
  apply spread_optional in Hpay. destruct Hpay as (lp & Hspread & Hlp).
  assert (Hall : Forall pricedRecord (li ++ le ++ lp))
    by (repeat (apply Forall_app; split); assumption).
  destruct (missingDate_total _ Hall) as (undated & Hundated).
  destruct (suspiciousAmount_total _ Hall) as (odd & Hodd).
  unfold Validation.checkDataQuality. simpl get. rewrite Hinv, Hexp.
  cbv beta iota delta [bind]. simpl or_else at 1 2. simpl Validation.spread at 1 2.
  cbv beta iota.
  replace (match lookup "payments" o with
           | Some x => Ok x
           | None => Ok VUndefined
           end)
    with (Ok (A := value)
             (match lookup "payments" o with Some x => x | None => VUndefined end))
    by (destruct (lookup "payments" o); reflexivity).
  cbv beta iota. rewrite Hspread. cbv beta iota.
  rewrite Hundated. cbv beta iota. rewrite Hodd. cbv beta iota.
  eexists. split; [reflexivity|].
  intros E; injection E as ->. simpl.
  destruct (0 <? List.length odd); destruct (0 <? List.length undated);
    destruct (Qeq_bool _ _);
    repeat (apply in_or_app; left); now left.
Qed.

Lemma validateData_valid (data : value) :
  Validation.validateFinancialData data = [] ->
  exists warnings,
    Validation.validateData data
    = Ok {| Validation.isValid := true;
            Validation.errors := [];
            Validation.warnings := warnings |}
    /\ (get data "invoices" = Ok (VArr []) -> In cashFlowWarning warnings).
Proof.
  intros Hv. destruct (checkDataQuality_total data Hv) as (ws & Hq & Hw).
  exists ws. split; [|exact Hw].
  unfold Validation.validateData. rewrite Hv. cbv beta iota zeta.
  now rewrite Hq.
Qed.

Lemma validateData_invalid (data : value) :
  Validation.validateFinancialData data <> [] ->
  Validation.validateData data
  = Ok {| Validation.isValid := false;
          Validation.errors :=
            map Validation.formatValidationError
                (Validation.validateFinancialData data);
          Validation.warnings := [] |}.
Proof.
  intros Hv. unfold Validation.validateData.
  destruct (Validation.validateFinancialData data); [contradiction | reflexivity].
Qed.

End ValidationFacts.

(** Claim C9.  Quality warnings are computed only on structurally valid
    data and never change [isValid]: valid data with an empty invoices
    sequence gets [isValid: true] and the cash-flow warning; invalid data
    gets an empty list of warnings; and [isValid] is decided by the
    structural check alone. *)
Theorem warnings_are_soft :
  (forall data,
      Validation.validateFinancialData data = [] ->
      get data "invoices" = Ok (VArr []) ->
      exists warnings,
        Validation.validateData data
        = Ok {| Validation.isValid := true;
                Validation.errors := [];
                Validation.warnings := warnings |}
        /\ In Notions.cashFlowWarning warnings)
  /\ (forall data,
         Validation.validateFinancialData data <> [] ->
         exists errors,
           Validation.validateData data
           = Ok {| Validation.isValid := false;
                   Validation.errors := errors;
                   Validation.warnings := [] |})
  /\ (forall data,
         exists result,
           Validation.validateData data = Ok result
           /\ Validation.isValid result
              = match Validation.validateFinancialData data with
                | [] => true
                | _ => false
                end).
Proof.
  split; [|split].
  - intros data Hv Hinv.
    destruct (ValidationFacts.validateData_valid data Hv) as (ws & Hr & Hw).
    exists ws. split; [exact Hr | now apply Hw].
  - intros data Hv. eexists. now apply ValidationFacts.validateData_invalid.
  - intros data.
    destruct (Validation.validateFinancialData data) as [|e es] eqn:Hv.
    + destruct (ValidationFacts.validateData_valid data Hv) as (ws & Hr & _).
      eexists. split; [exact Hr | reflexivity].
    + eexists. split.
      * apply ValidationFacts.validateData_invalid. rewrite Hv. discriminate.
      * reflexivity.
Qed.

Lemma warnings_are_soft_witness :
  (exists warnings,
      Validation.validateData
        (VObj [("invoices", VArr []);
               ("expenses",
                VArr [VObj [("amount", int 50); ("date", VStr "2024-02-02")]])])
      = Ok {| Validation.isValid := true;
              Validation.errors := [];
              Validation.warnings := warnings |}
      /\ In Notions.cashFlowWarning warnings)
  /\ (exists errors,
         Validation.validateData (VObj [("invoices", VArr [])])
         = Ok {| Validation.isValid := false;
                 Validation.errors := errors;
                 Validation.warnings := [] |}).
Proof.
  split.
  - apply (proj1 warnings_are_soft); reflexivity.
  - apply (proj1 (proj2 warnings_are_soft)). discriminate.
Defined.

(** ** Which properties of an object the validator looks at *)

Module ObjectFacts.
Import Js Ajv Notions.

Lemma flat_map_ext_in {A B : Type} (f g : A -> list B) (l : list A) :
  (forall x, In x l -> f x = g x) -> flat_map f l = flat_map g l.
Proof.
  induction l as [|x l IH]; simpl; intros H; [reflexivity|].
  rewrite (H x) by now left. rewrite IH; [reflexivity|].
  intros y Hy. apply H. now right.
Qed.

Lemma lookup_without (k name : string) (o : object) :
  lookup name (without k o) = if String.eqb name k then None else lookup name o.
Proof.
  induction o as [|[k' v'] o IH]; simpl.
  - now destruct (String.eqb name k).
  - destruct (String.eqb_spec k' k) as [->|Hne]; simpl.
    + rewrite IH. destruct (String.eqb_spec name k) as [->|Hn]; [reflexivity|].
      destruct (String.eqb_spec name k); [contradiction | reflexivity].
    + rewrite IH. destruct (String.eqb_spec name k') as [->|Hn].
      * destruct (String.eqb_spec k' k); [contradiction | reflexivity].
      * reflexivity.
Qed.

Lemma lookup_update (k name : string) (v : value) (o : object) :
  hasKey k o = true ->
  lookup name (update k v o) = if String.eqb name k then Some v else lookup name o.
Proof.
  induction o as [|[k' v'] o IH]; simpl; [discriminate|].
  destruct (String.eqb_spec k k') as [->|Hne]; simpl.
  - intros _. now destruct (String.eqb name k').
  - intros Hk. rewrite (IH Hk).
    destruct (String.eqb_spec name k') as [->|Hn]; [|reflexivity].
    destruct (String.eqb_spec k' k); [congruence | reflexivity].
Qed.

Lemma lookup_app_last (k name : string) (v : value) (o : object) :
  hasKey k o = false ->
  lookup name (o ++ [(k, v)]) = if String.eqb name k then Some v else lookup name o.
Proof.
  induction o as [|[k' v'] o IH]; simpl; [now destruct (String.eqb name k)|].
  intros H. apply orb_false_iff in H. destruct H as [Hkk' Hk]. rewrite (IH Hk).
  destruct (String.eqb_spec name k') as [->|Hn]; [|reflexivity].
  destruct (String.eqb_spec k' k) as [->|_]; [|reflexivity].
  now rewrite String.eqb_refl in Hkk'.
Qed.

Lemma lookup_insertIndex (n : N) (k name : string) (v : value) (o : object) :
  hasKey k o = false ->
  lookup name (insertIndex n k v o)
  = if String.eqb name k then Some v else lookup name o.
Proof.
  induction o as [|[k' v'] o IH]; simpl; [now destruct (String.eqb name k)|].
  intros H. apply orb_false_iff in H. destruct H as [Hkk' Hk].
  destruct (arrayIndex k') as [m|]; [destruct (m <? n)%N|]; simpl;
    try reflexivity.
  rewrite (IH Hk).
  destruct (String.eqb_spec name k') as [->|Hn]; [|reflexivity].
  destruct (String.eqb_spec k' k) as [->|_]; [|reflexivity].
  now rewrite String.eqb_refl in Hkk'.
Qed.

Lemma lookup_defineProperty (k name : string) (v : value) (o : object) :
  lookup name (defineProperty o k v)
  = if String.eqb name k then Some v else lookup name o.
Proof.
  unfold defineProperty. destruct (hasKey k o) eqn:Hk.
  - now apply lookup_update.
  - destruct (arrayIndex k); [now apply lookup_insertIndex | now apply lookup_app_last].
Qed.

Section Validator.

Variable formats : string -> option (string -> bool).

Lemma typeError_object (ipath spath : string) (ks : list (keyword schema))
      (o o' : object) :
  typeError false ipath spath ks (VObj o) = typeError false ipath spath ks (VObj o').
Proof.
  unfold typeError, attach.
  destruct (schemaTypes ks) as [[ts shown]|]; [|reflexivity].
  replace (existsb (fun t => hasType t (VObj o')) ts)
    with (existsb (fun t => hasType t (VObj o)) ts); [reflexivity|].
  induction ts as [|t ts IH]; simpl; [reflexivity|].
  rewrite IH. now destruct t.
Qed.

(** The errors of an object depend on it through the properties that the
    schema names, when the schema has no [enum] of its own. *)
Lemma validate_object_ext (ks : list (keyword schema)) (ipath spath : string)
      (o o' : object) :
  (forall allowed, ~ In (KEnum allowed) ks) ->
  (forall names name, In (KRequired names) ks -> In name names ->
                      lookup name o = lookup name o') ->
  (forall properties p, In (KProperties properties) ks -> In p properties ->
                        lookup (fst p) o = lookup (fst p) o') ->
  validate formats false (Schema ks) ipath spath (VObj o)
  = validate formats false (Schema ks) ipath spath (VObj o').
Proof.
  intros Henum Hreq Hprops. simpl validate.
  rewrite (typeError_object ipath spath ks o o').
  f_equal. f_equal.
  { apply flat_map_ext_in. intros k Hk.
    destruct k; try reflexivity. now apply Henum in Hk. }
  f_equal. f_equal. f_equal. f_equal.
  - apply flat_map_ext_in. intros k Hk. destruct k; try reflexivity.
    simpl. f_equal. apply filter_ext_in. intros name Hn.
    unfold missing. now rewrite (Hreq _ _ Hk Hn).
  - apply flat_map_ext_in. intros k Hk. destruct k; try reflexivity.
    apply flat_map_ext_in. intros p Hp. now rewrite (Hprops _ _ Hk Hp).
Qed.

(** Removing a property that is not required leaves valid data valid. *)
Lemma validate_object_without (ks : list (keyword schema)) (ipath spath : string)
      (o : object) (k : string) :
  (forall allowed, ~ In (KEnum allowed) ks) ->
  (forall names, In (KRequired names) ks -> ~ In k names) ->
  validate formats false (Schema ks) ipath spath (VObj o) = [] ->
  validate formats false (Schema ks) ipath spath (VObj (without k o)) = [].
Proof.
  intros Henum Hreq Hv. simpl validate in Hv |- *.
  rewrite (typeError_object ipath spath ks (without k o) o).
  apply app_eq_nil in Hv. destruct Hv as [H1 Hv]. rewrite H1. simpl app.
  apply app_eq_nil in Hv. destruct Hv as [H2 Hv].
  apply app_eq_nil in Hv. destruct Hv as [H3 Hv]. rewrite H3.
  apply app_eq_nil in Hv. destruct Hv as [H4 Hv]. rewrite H4.
  apply app_eq_nil in Hv. destruct Hv as [H5 Hv]. rewrite H5.
  apply app_eq_nil in Hv. destruct Hv as [H6 H7].
  simpl app.
  assert (E2 : flat_map (fun k0 => checkEnum false ipath spath k0 (VObj (without k o))) ks = []).
  { apply AjvFacts.flat_map_nil, Forall_forall. intros k0 Hk0.
    destruct k0; try reflexivity. now apply Henum in Hk0. }
  rewrite E2. simpl app.
  assert (E6 : flat_map (fun k0 => checkRequired false ipath spath k0 (without k o)) ks = []).
  { rewrite AjvFacts.flat_map_nil, Forall_forall in H6 |- *.
    intros k0 Hk0. specialize (H6 k0 Hk0).
    destruct k0; try reflexivity. simpl in H6 |- *.
    rewrite <- H6. f_equal. apply filter_ext_in. intros name Hn.
    unfold missing. rewrite lookup_without.
    destruct (String.eqb_spec name k) as [->|_]; [|reflexivity].
    now apply Hreq in Hk0. }
  rewrite E6. simpl app.
  rewrite AjvFacts.flat_map_nil, Forall_forall in H7 |- *.
  intros k0 Hk0. specialize (H7 k0 Hk0).
  destruct k0; try reflexivity.
  rewrite AjvFacts.flat_map_nil, Forall_forall in H7 |- *.
  intros p Hp. specialize (H7 p Hp). simpl in H7 |- *.
  rewrite lookup_without. destruct (String.eqb (fst p) k); [reflexivity | exact H7].
Qed.

End Validator.

End ObjectFacts.

Module TopLevelFacts.
Import Js Ajv Notions.

Lemma no_enum_at_top (allowed : list value) :
  ~ In (KEnum allowed)
       (match Validation.financialDataSchema with Schema ks => ks end).
Proof.
  simpl. intros H.
  repeat (destruct H as [H|H]; [discriminate H|]). contradiction.
Qed.

Lemma required_at_top (names : list string) :
  In (KRequired names)
     (match Validation.financialDataSchema with Schema ks => ks end) ->
  names = ["invoices"; "expenses"].
Proof.
  simpl. intros H.
  repeat (destruct H as [H|H]; [first [discriminate H | now injection H as <-]|]).
  contradiction.
Qed.

Lemma properties_at_top (properties : list (string * schema)) (p : string * schema) :
  In (KProperties properties)
     (match Validation.financialDataSchema with Schema ks => ks end) ->
  In p properties -> In (fst p) schemaNames.
Proof.
  simpl. intros H.
  repeat (destruct H as [H|H]; [first [discriminate H | injection H as <-]|]);
    [|contradiction].
  intros Hp. unfold schemaNames.
  repeat (destruct Hp as [<-|Hp]; [solve_In|]). contradiction.
Qed.

Lemma validateData_isValid (data : value) (result : Validation.validationResult) :
  Validation.validateData data = Ok result ->
  Validation.isValid result = true ->
  Validation.validateFinancialData data = [].
Proof.
  unfold Validation.validateData.
  destruct (Validation.validateFinancialData data); [reflexivity|].
  simpl. intros H; injection H as <-. discriminate.
Qed.

Lemma without_keeps_valid (o : object) (k : string) :
  In k ["payments"; "balances"; "metadata"] ->
  Validation.validateFinancialData (VObj o) = [] ->
  Validation.validateFinancialData (VObj (without k o)) = [].
Proof.
  intros Hk. unfold Validation.validateFinancialData, compile.
  change Validation.financialDataSchema
    with (Schema (match Validation.financialDataSchema with Schema ks => ks end)).
  apply ObjectFacts.validate_object_without.
  - apply no_enum_at_top.
  - intros names Hn. apply required_at_top in Hn. subst names.
    intros Hin. simpl in Hk, Hin.
    repeat (destruct Hk as [<-|Hk];
            [repeat (destruct Hin as [Hin|Hin]; [discriminate Hin|]);
             contradiction|]).
    contradiction.
Qed.

Lemma extra_key_same_errors (o : object) (k : string) (v : value) :
  ~ In k schemaNames ->
  Validation.validateFinancialData (VObj (defineProperty o k v))
  = Validation.validateFinancialData (VObj o).
Proof.
  intros Hk. unfold Validation.validateFinancialData, compile.
  change Validation.financialDataSchema
    with (Schema (match Validation.financialDataSchema with Schema ks => ks end)).
  assert (Hlookup : forall name, In name schemaNames ->
                      lookup name (defineProperty o k v) = lookup name o).
  { intros name Hn. rewrite ObjectFacts.lookup_defineProperty.
    destruct (String.eqb_spec name k) as [->|_]; [contradiction | reflexivity]. }
  apply ObjectFacts.validate_object_ext.
  - apply no_enum_at_top.
  - intros names name Hn Hin. apply required_at_top in Hn. subst names.
    apply Hlookup. unfold schemaNames. simpl in Hin |- *. tauto.
  - intros properties p Hp Hin. apply Hlookup.
    now apply (properties_at_top properties p).
Qed.

End TopLevelFacts.

(** Claim C10.  Data that lacks the top-level [invoices] or [expenses] is
    not valid; taking [payments], [balances] or [metadata] away from valid
    data leaves it valid; and a top-level key the schema does not name
    changes neither [isValid] nor the errors. *)
Theorem top_level_keys :
  (forall data,
      Notions.lacks data "invoices" \/ Notions.lacks data "expenses" ->
      exists result,
        Validation.validateData data = Ok result
        /\ Validation.isValid result = false)
  /\ (forall o k result,
         In k ["payments"; "balances"; "metadata"] ->
         Validation.validateData (VObj o) = Ok result ->
         Validation.isValid result = true ->
         exists result',
           Validation.validateData (VObj (Notions.without k o)) = Ok result'
           /\ Validation.isValid result' = true)
  /\ (forall o k v,
         ~ In k Notions.schemaNames ->
         exists result result',
           Validation.validateData (VObj o) = Ok result
           /\ Validation.validateData (VObj (defineProperty o k v)) = Ok result'
           /\ Validation.isValid result' = Validation.isValid result
           /\ Validation.errors result' = Validation.errors result).
Proof.
  split; [|split].
  - intros data Hlacks.
    assert (Hv : Validation.validateFinancialData data <> []).
    { intros Hv. apply ValidationFacts.valid_structure in Hv.
      destruct Hv as (o & inv & exp & -> & Hinv & (li & -> & _)
                      & Hexp & (le & -> & _) & _).
      unfold Notions.lacks in Hlacks. simpl in Hlacks.
      rewrite Hinv, Hexp in Hlacks. destruct Hlacks; discriminate. }
    eexists. split; [now apply ValidationFacts.validateData_invalid | reflexivity].
  - intros o k result Hk Hr Hvalid.
    apply TopLevelFacts.validateData_isValid in Hr; [|exact Hvalid].
    apply (TopLevelFacts.without_keeps_valid o k Hk) in Hr.
    destruct (ValidationFacts.validateData_valid _ Hr) as (ws & Hr' & _).
    eexists. split; [exact Hr' | reflexivity].
  - intros o k v Hk.
    pose proof (TopLevelFacts.extra_key_same_errors o k v Hk) as Hsame.
    destruct (Validation.validateFinancialData (VObj o)) as [|e es] eqn:Hv.
    + destruct (ValidationFacts.validateData_valid _ Hv) as (ws & Hr & _).
      destruct (ValidationFacts.validateData_valid _ Hsame) as (ws' & Hr' & _).
      eexists. eexists. split; [exact Hr|]. split; [exact Hr'|]. now split.
    + eexists. eexists. split; [|split].
      * apply ValidationFacts.validateData_invalid. rewrite Hv. discriminate.
      * apply ValidationFacts.validateData_invalid. rewrite Hsame. discriminate.
      * simpl. rewrite Hsame, Hv. now split.
Qed.

Lemma top_level_keys_witness :
  (exists result,
      Validation.validateData (VObj [("expenses", VArr [])]) = Ok result
      /\ Validation.isValid result = false)
  /\ (exists result',
         Validation.validateData
           (VObj (Notions.without "payments"
                    [("invoices", VArr []); ("expenses", VArr []);
                     ("payments", VArr [])])) = Ok result'
         /\ Validation.isValid result' = true)
  /\ (exists result result',
         Validation.validateData
           (VObj [("invoices", VArr []); ("expenses", VArr [])]) = Ok result
         /\ Validation.validateData
              (VObj (defineProperty
                       [("invoices", VArr []); ("expenses", VArr [])]
                       "revenues" (VArr []))) = Ok result'
         /\ Validation.isValid result' = Validation.isValid result
         /\ Validation.errors result' = Validation.errors result).
Proof.
  destruct top_level_keys as (Hlacks & Hwithout & Hextra).
  split; [|split].
  - apply Hlacks. left. reflexivity.
  - eapply (Hwithout _ "payments"); [simpl; tauto | reflexivity | reflexivity].
  - apply Hextra. unfold Notions.schemaNames. simpl.
    intros H. repeat (destruct H as [H|H]; [discriminate H|]). contradiction.
Defined.

(** ** Scenarios of the specification *)

Module Scenarios.

(** The end-to-end scenario: one tagged invoice and one untagged record
    normalise to one invoice and one expense with a record count of 2, and
    the result passes validation without warnings. *)
Example end_to_end :
  let flat :=
    VArr [VObj [("type", VStr "invoice"); ("amount", int 500);
                ("date", VStr "2024-02-01")];
          VObj [("vendor", VStr "Acme"); ("amount", int 50);
                ("date", VStr "2024-02-02")]] in
  exists out,
    Parser.normalizeFinancialData Json.parse "2024-03-01T09:30:00.000Z" flat = Ok out
    /\ get out "invoices"
       = Ok (VArr [VObj [("type", VStr "invoice"); ("amount", int 500);
                         ("date", VStr "2024-02-01")]])
    /\ get out "expenses"
       = Ok (VArr [VObj [("vendor", VStr "Acme"); ("amount", int 50);
                         ("date", VStr "2024-02-02")]])
    /\ Notions.recordCountOf out = Ok (int 2)
    /\ Validation.validateData out
       = Ok {| Validation.isValid := true;
               Validation.errors := [];
               Validation.warnings := [] |}.
Proof. eexists. repeat split; reflexivity. Qed.

(** [cleanFinancialData] is where records are cleaned. *)
Example cleaning_a_structure :
  Parser.cleanFinancialData
    (VObj [("invoices",
            VArr [VObj [("amount", VStr " 123.45 "); ("note", VNull)]; VNull]);
           ("source", VStr "upload")])
  = Ok (VObj [("invoices", VArr [VObj [("amount", VNum (Fin (Qred (12345 # 100))))]]);
              ("source", VStr "upload")]).
Proof. reflexivity. Qed.

(** A decimal point may end the digits that are converted; an exponent or
    a separator may not occur in them. *)
Example numerals_at_the_border :
  Parser.cleanValue (VStr "5.") = Some (int 5)
  /\ Parser.cleanValue (VStr "-0.50") = Some (VNum (Fin (Qred (-1 # 2))))
  /\ Parser.cleanValue (VStr ".5") = Some (VStr ".5")
  /\ Parser.cleanValue (VStr "1e3") = Some (VStr "1e3")
  /\ Parser.cleanValue (VStr "1,000") = Some (VStr "1,000")
  /\ Parser.cleanValue (VStr "1.2.3") = Some (VStr "1.2.3").
Proof. repeat split; reflexivity. Qed.

Example parse_array :
  Json.parse " [1, -2.50, 1e3, true, null] "
  = Ok (VArr [int 1; VNum (Fin (Qred (-5 # 2))); int 1000; VBool true; VNull]).
Proof. reflexivity. Qed.

Example parse_rejects_a_trailing_comma :
  Json.parse "[1,]" = Json.syntaxError.
Proof. reflexivity. Qed.

End Scenarios.

(* ================================================================== *)
(** * Further properties of the parser                                *)
(* ================================================================== *)

(** ** Flat sequences *)

Module FlatFacts.
Import Js Notions Terms NormalizeFacts.

Lemma classifiedAs_eqb (record : value) (k k' : string) :
  Parser.detectRecordType record = Ok k ->
  classifiedAs k' record = String.eqb k k'.
Proof. unfold classifiedAs. now intros ->. Qed.

Lemma categorized_classified (flatData : list value) :
  forall acc o,
    forEach Parser.categorizeStep flatData acc = Ok o ->
    Forall (fun r => exists k, Parser.detectRecordType r = Ok k) flatData.
Proof.
  induction flatData as [|r rest IH]; simpl; intros acc o H; [constructor|].
  apply bind_ok in H. destruct H as (acc' & Hstep & Hrest).
  constructor; [|exact (IH _ _ Hrest)].
  unfold Parser.categorizeStep in Hstep.
  apply bind_ok in Hstep. destruct Hstep as (k & Hk & _). now exists k.
Qed.

Lemma categorize_total (flatData : list value) :
  Forall (fun r => exists k, Parser.detectRecordType r = Ok k) flatData ->
  forall i e p b,
    forEach Parser.categorizeStep flatData (buckets i e p b)
    = Ok (buckets (i ++ filter (classifiedAs "invoices") flatData)
                  (e ++ filter (classifiedAs "expenses") flatData)
                  (p ++ filter (classifiedAs "payments") flatData)
                  (b ++ filter (classifiedAs "balances") flatData)).
Proof.
  induction 1 as [|r rest (k & Hk) _ IH]; intros i e p b; simpl forEach.
  - simpl. now rewrite !app_nil_r.
  - assert (Hstep :
      Parser.categorizeStep (buckets i e p b) r
      = Ok (buckets (i ++ filter (classifiedAs "invoices") [r])
                    (e ++ filter (classifiedAs "expenses") [r])
                    (p ++ filter (classifiedAs "payments") [r])
                    (b ++ filter (classifiedAs "balances") [r]))).
    { destruct (Parser.categorizeStep (buckets i e p b) r) as [o| |] eqn:Hs.
      - now rewrite (categorizeStep_buckets i e p b r o Hs).
      - exfalso. unfold Parser.categorizeStep in Hs. rewrite Hk in Hs. simpl in Hs.
        destruct (detectRecordType_range r k Hk) as [-> | [-> | [-> | ->]]];
          discriminate Hs.
      - exfalso. unfold Parser.categorizeStep in Hs. rewrite Hk in Hs. simpl in Hs.
        destruct (detectRecordType_range r k Hk) as [-> | [-> | [-> | ->]]];
          discriminate Hs. }
    rewrite Hstep. simpl bind. rewrite IH.
    change (r :: rest) with ([r] ++ rest).
    now rewrite !filter_app, !app_assoc.
Qed.

(** Filters of which exactly one keeps each element share out the list. *)
Lemma filters_share_out {A : Type} (f1 f2 f3 f4 : A -> bool) (l : list A) :
  Forall (fun x => (f1 x, f2 x, f3 x, f4 x) = (true, false, false, false)
                   \/ (f1 x, f2 x, f3 x, f4 x) = (false, true, false, false)
                   \/ (f1 x, f2 x, f3 x, f4 x) = (false, false, true, false)
                   \/ (f1 x, f2 x, f3 x, f4 x) = (false, false, false, true)) l ->
  Permutation (filter f1 l ++ filter f2 l ++ filter f3 l ++ filter f4 l) l.
Proof.
  induction 1 as [|x l Hx _ IH]; simpl; [constructor|].
  destruct Hx as [Hx | [Hx | [Hx | Hx]]];
    injection Hx as -> -> -> ->.
  - simpl. now constructor.
  - apply Permutation_sym, Permutation_cons_app. now apply Permutation_sym.
  - rewrite app_assoc. apply Permutation_sym, Permutation_cons_app.
    rewrite <- app_assoc. now apply Permutation_sym.
  - rewrite 2 app_assoc. apply Permutation_sym, Permutation_cons_app.
    rewrite <- 2 app_assoc. now apply Permutation_sym.
Qed.

Lemma classified_share_out (flatData : list value) :
  Forall (fun r => exists k, Parser.detectRecordType r = Ok k) flatData ->
  Permutation (filter (classifiedAs "invoices") flatData
               ++ filter (classifiedAs "expenses") flatData
               ++ filter (classifiedAs "payments") flatData
               ++ filter (classifiedAs "balances") flatData) flatData.
Proof.
  intros H. apply filters_share_out.
  eapply Forall_impl; [|exact H]. intros r (k & Hk). cbv beta.
  rewrite !(classifiedAs_eqb r k _ Hk).
  destruct (detectRecordType_range r k Hk) as [-> | [-> | [-> | ->]]]; simpl; tauto.
Qed.

Lemma count_buckets (i e p b : list value) :
  Parser.getTotalRecordCount (VObj (buckets i e p b))
  = Ok (int (Z.of_nat (List.length (i ++ e ++ p ++ b)))).
Proof.
  unfold Parser.getTotalRecordCount, Parser.lengthOrZero, buckets. simpl get.
  cbv beta iota delta [bind].
  rewrite !(length_of_entry (VArr _) _ eq_refl).
  rewrite add_int. cbv beta iota delta [bind].
  rewrite add_int. cbv beta iota delta [bind].
  rewrite add_int. do 2 f_equal. rewrite !length_app. lia.
Qed.

Section Normalizer.

Variable JSON_parse : string -> outcome value.
Variable now : string.

(** The normaliser on a flat sequence whose records all classify. *)
Lemma normalize_flat (input : value) (flatData : list value) :
  reads JSON_parse input (VArr flatData) ->
  Forall (fun r => exists k, Parser.detectRecordType r = Ok k) flatData ->
  Parser.normalizeFinancialData JSON_parse now input
  = Ok (normalized (VArr (filter (classifiedAs "invoices") flatData))
                   (VArr (filter (classifiedAs "expenses") flatData))
                   (VArr (filter (classifiedAs "payments") flatData))
                   (VArr (filter (classifiedAs "balances") flatData))
                   (VStr "manual_input") now
                   (int (Z.of_nat (List.length flatData)))).
Proof.
  intros Hreads Hall.
  apply readInput_reads in Hreads.
  unfold Parser.normalizeFinancialData.
  change (match input with
          | VStr text =>
              try_catch (JSON_parse text)
                        (fun _ => Throw (Error "Invalid JSON format"))
          | _ => Ok input
          end) with (readInput JSON_parse input).
  rewrite Hreads. cbv beta iota delta [bind].
  unfold Parser.categorizeFlatData.
  change Parser.emptyCategories with (buckets [] [] [] []).
  rewrite (categorize_total flatData Hall). cbv beta iota delta [bind].
  simpl app. rewrite count_buckets.
  rewrite (Permutation_length (classified_share_out flatData Hall)).
  reflexivity.
Qed.

End Normalizer.

End FlatFacts.

Module RenormalizeFacts.
Import Js Notions Terms NormalizeFacts.

Lemma or_else_or_else (x : value) :
  or_else (or_else x (VArr [])) (VArr []) = or_else x (VArr []).
Proof. unfold or_else. destruct (truthy x) eqn:H; [now rewrite H | reflexivity]. Qed.

Lemma length_or_else (x : value) :
  or_else (get_opt (or_else x (VArr [])) "length") (int 0)
  = or_else (get_opt x "length") (int 0).
Proof.
  unfold or_else at 2. destruct (truthy x) eqn:H; [reflexivity|].
  destruct x as [| |b|[q|]|s|l|o]; try discriminate H; try reflexivity.
  simpl in H. apply negb_false_iff, String.eqb_eq in H. now subst.
Qed.

End RenormalizeFacts.

(** X1.  A flat sequence on which the normaliser succeeds is shared out among
    the four sequences: the four together are a rearrangement of the input,
    so every record is kept once, and the record count is the number of
    records given. *)
Theorem normalize_shares_out_a_flat_sequence :
  forall (JSON_parse : string -> outcome value) (now : string)
         (input out : value) (records : list value),
    Notions.reads JSON_parse input (VArr records) ->
    Parser.normalizeFinancialData JSON_parse now input = Ok out ->
    exists i e p b,
      get out "invoices" = Ok (VArr i)
      /\ get out "expenses" = Ok (VArr e)
      /\ get out "payments" = Ok (VArr p)
      /\ get out "balances" = Ok (VArr b)
      /\ Permutation (i ++ e ++ p ++ b) records
      /\ Notions.recordCountOf out = Ok (int (Z.of_nat (List.length records))).
Proof.
  intros JSON_parse now input out records Hreads Hok.
  pose proof Hok as Hparts.
  apply NormalizeFacts.normalize_ok in Hparts.
  destruct Hparts as (data0 & data' & _ & _ & _ & _ & _ & _
                      & Hreads0 & Hcat & _).
  rewrite <- (NormalizeFacts.reads_functional JSON_parse input _ _ Hreads Hreads0)
    in Hcat.
  unfold Parser.categorizeFlatData in Hcat.
  apply NormalizeFacts.bind_ok in Hcat. destruct Hcat as (o & Hcat & _).
  apply FlatFacts.categorized_classified in Hcat.
  rewrite (FlatFacts.normalize_flat JSON_parse now input records Hreads Hcat) in Hok.
  injection Hok as <-.
  do 4 eexists. repeat split; try reflexivity.
  now apply FlatFacts.classified_share_out.
Qed.

Lemma normalize_shares_out_a_flat_sequence_witness :
  let records :=
    [VObj [("type", VStr "invoice"); ("amount", int 500)];
     VObj [("vendor", VStr "Acme"); ("amount", int 50)];
     VNum (Fin 7%Q)] in
  exists out,
    Parser.normalizeFinancialData Json.parse "2024-01-01T00:00:00.000Z"
      (VArr records) = Ok out
    /\ exists i e p b,
         get out "invoices" = Ok (VArr i)
         /\ get out "expenses" = Ok (VArr e)
         /\ get out "payments" = Ok (VArr p)
         /\ get out "balances" = Ok (VArr b)
         /\ Permutation (i ++ e ++ p ++ b) records
         /\ Notions.recordCountOf out = Ok (int (Z.of_nat (List.length records))).
Proof.
  intros records. eexists. split; [reflexivity|].
  apply (normalize_shares_out_a_flat_sequence Json.parse
           "2024-01-01T00:00:00.000Z" (VArr records) _ records); reflexivity.
Defined.

(** X2.  The normaliser succeeds on every flat sequence of objects whose
    explicit tag is absent, falsy or text, and each record is then found in
    the sequence of the category the Record Classifier gives it. *)
Theorem normalize_accepts_plain_records :
  forall (JSON_parse : string -> outcome value) (now : string)
         (records : list value),
    Forall Terms.plainRecord records ->
    exists out,
      Parser.normalizeFinancialData JSON_parse now (VArr records) = Ok out
      /\ forall record o,
           In record records -> record = VObj o ->
           exists sequence,
             get out (Spec.sequenceOf (Spec.classify o)) = Ok (VArr sequence)
             /\ In record sequence.
Proof.
  intros JSON_parse now records Hplain.
  assert (Hall : Forall (fun r => exists k, Parser.detectRecordType r = Ok k) records).
  { eapply Forall_impl; [|exact Hplain]. intros r (o & -> & Ht).
    eexists. now apply ClassifyFacts.detectRecordType_follows_classify. }
  eexists. split.
  { apply (FlatFacts.normalize_flat JSON_parse now (VArr records) records eq_refl Hall). }
  intros record o Hin ->.
  rewrite Forall_forall in Hplain.
  destruct (Hplain _ Hin) as (o' & E & Ht). injection E as <-.
  pose proof (ClassifyFacts.detectRecordType_follows_classify o Ht) as Hk.
  assert (Hkept : forall k, k = Spec.sequenceOf (Spec.classify o) ->
                    In (VObj o) (filter (Notions.classifiedAs k) records)).
  { intros k ->. apply filter_In. split; [exact Hin|].
    rewrite (FlatFacts.classifiedAs_eqb _ _ _ Hk). apply String.eqb_refl. }
  destruct (Spec.classify o); simpl Spec.sequenceOf in *;
    eexists; (split; [reflexivity | now apply Hkept]).
Qed.

Lemma normalize_accepts_plain_records_witness :
  let records :=
    [VObj [("type", VStr "Bill"); ("amount", int 500)];
     VObj [("account", VStr "main"); ("type", VNum (Fin 0%Q))]] in
  exists out,
    Parser.normalizeFinancialData Json.parse "2024-01-01T00:00:00.000Z"
      (VArr records) = Ok out
    /\ forall record o,
         In record records -> record = VObj o ->
         exists sequence,
           get out (Spec.sequenceOf (Spec.classify o)) = Ok (VArr sequence)
           /\ In record sequence.
Proof.
  intros records.
  apply (normalize_accepts_plain_records Json.parse "2024-01-01T00:00:00.000Z" records).
  repeat constructor; eexists; (split; [reflexivity|]); reflexivity.
Defined.

(** X3.  Of an object the normaliser reads the keys [invoices], [expenses],
    [payments], [balances] and [source] and nothing else: two objects that
    agree on these five normalise alike, so a [metadata] entry or an unknown
    key of the input has no effect. *)
Theorem normalize_reads_five_keys :
  forall (JSON_parse : string -> outcome value) (now : string) (o o' : object),
    (forall k, In k Terms.normalizerKeys -> lookup k o = lookup k o') ->
    Parser.normalizeFinancialData JSON_parse now (VObj o)
    = Parser.normalizeFinancialData JSON_parse now (VObj o').
Proof.
  intros JSON_parse now o o' H.
  unfold Parser.normalizeFinancialData.
  cbv beta iota delta [bind].
  unfold Parser.getTotalRecordCount, Parser.lengthOrZero.
  simpl get.
  rewrite (H "invoices"), (H "expenses"), (H "payments"), (H "balances"),
    (H "source") by (unfold Terms.normalizerKeys; solve_In).
  reflexivity.
Qed.

Lemma normalize_reads_five_keys_witness :
  Parser.normalizeFinancialData Json.parse "2024-01-01T00:00:00.000Z"
    (VObj [("invoices", VArr [VObj [("amount", int 5)]]);
           ("revenues", VArr [VNull]);
           ("metadata", VObj [("source", VStr "test_data")])])
  = Parser.normalizeFinancialData Json.parse "2024-01-01T00:00:00.000Z"
      (VObj [("invoices", VArr [VObj [("amount", int 5)]])]).
Proof.
  apply normalize_reads_five_keys.
  intros k Hk. unfold Terms.normalizerKeys in Hk. simpl in Hk.
  repeat (destruct Hk as [<-|Hk]; [reflexivity|]). contradiction.
Defined.

(** X4.  Normalising a normalised structure again keeps the four sequences
    and the record count; the source becomes [manual_input] and the
    timestamp that of the second call. *)
Theorem normalize_again_resets_the_source :
  forall (JSON_parse JSON_parse' : string -> outcome value) (now now' : string)
         (input out : value),
    Parser.normalizeFinancialData JSON_parse now input = Ok out ->
    exists i e p b source count,
      out = Terms.normalized i e p b source now count
      /\ Parser.normalizeFinancialData JSON_parse' now' out
         = Ok (Terms.normalized i e p b (VStr "manual_input") now' count).
Proof.
  intros JSON_parse JSON_parse' now now' input out Hok.
  apply NormalizeFacts.normalize_ok in Hok.
  destruct Hok as (data0 & data' & i & e & p & b & s & c
                   & _ & _ & Gi & Ge & Gp & Gb & _ & Hc & ->).
  do 6 eexists. split; [reflexivity|].
  unfold Parser.normalizeFinancialData, Terms.normalized.
  cbv beta iota delta [bind].
  unfold Parser.getTotalRecordCount, Parser.lengthOrZero.
  simpl get. cbv beta iota delta [bind].
  rewrite !RenormalizeFacts.length_or_else, !RenormalizeFacts.or_else_or_else.
  unfold Parser.getTotalRecordCount, Parser.lengthOrZero in Hc.
  rewrite Gi, Ge, Gp, Gb in Hc. cbv beta iota delta [bind] in Hc.
  rewrite Hc. reflexivity.
Qed.

Lemma normalize_again_resets_the_source_witness :
  exists i e p b source count,
    Terms.normalized (VArr []) (VArr []) (VArr []) (VArr []) (VStr "upload")
      "2024-01-01T00:00:00.000Z" (int 0)
    = Terms.normalized i e p b source "2024-01-01T00:00:00.000Z" count
    /\ Parser.normalizeFinancialData Json.parse "2024-06-30T12:00:00.000Z"
         (Terms.normalized (VArr []) (VArr []) (VArr []) (VArr []) (VStr "upload")
            "2024-01-01T00:00:00.000Z" (int 0))
       = Ok (Terms.normalized i e p b (VStr "manual_input")
               "2024-06-30T12:00:00.000Z" count).
Proof.
  apply (normalize_again_resets_the_source Json.parse Json.parse
           "2024-01-01T00:00:00.000Z" "2024-06-30T12:00:00.000Z"
           (VObj [("source", VStr "upload")])).
  reflexivity.
Defined.

(** ** Cleaning *)

Module RecordFacts.
Import Js Notions Terms OrderFacts CleanFacts.

Lemma map_fst_combine {A B : Type} (l : list A) (m : list B) :
  List.length l = List.length m -> map fst (combine l m) = l.
Proof.
  revert m. induction l as [|a l IH]; intros [|b m]; simpl; try discriminate;
    [reflexivity|].
  intros H. injection H as H. now rewrite IH.
Qed.

Lemma indexKeys_length (n : nat) : List.length (indexKeys n) = n.
Proof. unfold indexKeys. now rewrite length_map, length_seq. Qed.

Lemma entries_keys (v : value) : map fst (entries v) = keys v.
Proof.
  destruct v as [| |b|n|s|l|o]; simpl; try reflexivity.
  - apply map_fst_combine.
    rewrite indexKeys_length, length_map. clear.
    induction s as [|c s IH]; simpl; [reflexivity | now rewrite IH].
  - apply map_fst_combine. now rewrite indexKeys_length.
Qed.

Lemma orderedKeys_NoDup (ks : list string) : orderedKeys ks -> NoDup ks.
Proof.
  induction ks as [|k ks IH]; simpl; intros H; [constructor|].
  destruct H as [Hk Hks]. constructor; [|now apply IH].
  intros Hin. rewrite Forall_forall in Hk.
  exact (precedes_neq k k (Hk k Hin) eq_refl).
Qed.

Lemma cleanValue_cleanField (v w : value) :
  Parser.cleanValue v = Some w -> cleanField w.
Proof.
  destruct v as [| |b|n|s|l|o]; try discriminate;
    try (intros H; injection H as <-; split; [reflexivity | discriminate]).
  unfold Parser.cleanValue. simpl isNullish. cbv iota.
  destruct (String.eqb_spec (trim s) EmptyString) as [E|Hne]; [discriminate|].
  destruct (Regex.test Parser.numericPattern (trim s)) eqn:Ht;
    intros H; injection H as <-; (split; [reflexivity|]); [discriminate|].
  intros s' E. injection E as <-.
  split; [exact Hne|]. split; [apply trim_idempotent|].
  intros Hn. apply test_numeric in Hn. congruence.
Qed.

Lemma fold_cleanEntry_Forall (P : string * value -> Prop) (record : object) :
  (forall k v w, In (k, v) record -> k <> "__proto__" ->
                 Parser.cleanValue v = Some w -> P (k, w)) ->
  forall cleaned, Forall P cleaned ->
                  Forall P (fold_left Parser.cleanEntry record cleaned).
Proof.
  induction record as [|[k v] record IH]; simpl; intros HP cleaned Hc; [exact Hc|].
  apply IH.
  - intros k' v' w' Hin. apply HP. now right.
  - destruct (Parser.cleanValue v) as [w|] eqn:Hv; [|exact Hc].
    unfold assign. destruct (String.eqb_spec k "__proto__") as [E|Hne]; [exact Hc|].
    apply defineProperty_Forall; [|exact Hc].
    apply (HP k v w); [now left | exact Hne | exact Hv].
Qed.

(** Each field is cleaned on its own. *)
Lemma lookup_fold_cleanEntry (k : string) (record : object) :
  NoDup (map fst record) ->
  forall cleaned,
    lookup k (fold_left Parser.cleanEntry record cleaned)
    = match lookup k record with
      | Some v =>
          match Parser.cleanValue v with
          | Some w => if String.eqb k "__proto__" then lookup k cleaned else Some w
          | None => lookup k cleaned
          end
      | None => lookup k cleaned
      end.
Proof.
  induction record as [|[k' v'] record IH]; cbn [fold_left lookup map fst];
    intros Hu cleaned; [reflexivity|].
  inversion Hu as [|? ? Hk' Hrest]; subst.
  rewrite (IH Hrest).
  assert (Hstep : forall name, name <> k' ->
            lookup name (Parser.cleanEntry cleaned (k', v')) = lookup name cleaned).
  { intros name Hne. unfold Parser.cleanEntry.
    destruct (Parser.cleanValue v'); [|reflexivity].
    unfold assign. destruct (String.eqb k' "__proto__"); [reflexivity|].
    rewrite ObjectFacts.lookup_defineProperty.
    destruct (String.eqb_spec name k'); [contradiction | reflexivity]. }
  destruct (String.eqb_spec k k') as [->|Hne].
  - assert (Hnone : lookup k' record = None).
    { clear - Hk'. induction record as [|[a x] record IH]; simpl; [reflexivity|].
      destruct (String.eqb_spec k' a) as [->|_].
      - exfalso. apply Hk'. now left.
      - apply IH. intros Hin. apply Hk'. now right. }
    rewrite Hnone. unfold Parser.cleanEntry.
    destruct (Parser.cleanValue v') as [w|]; [|reflexivity].
    unfold assign. destruct (String.eqb k' "__proto__"); [reflexivity|].
    rewrite ObjectFacts.lookup_defineProperty. now rewrite String.eqb_refl.
  - rewrite (Hstep k Hne). reflexivity.
Qed.

Lemma cleaned_fixed (record : value) : cleaned (cleaned record) = cleaned record.
Proof.
  unfold cleaned at 1. simpl entries. unfold cleaned.
  destruct (IdempotenceFacts.clean_invariant (entries record) []) as [Ho Hs].
  { split; [exact I | constructor]. }
  now rewrite (IdempotenceFacts.clean_rebuilds _ [] Ho Hs).
Qed.

End RecordFacts.

Module StructureFacts.
Import Js Notions Terms OrderFacts RecordFacts.

Lemma copy_ordered (es : object) :
  forall o, ordered o -> ordered (fold_left define es o).
Proof.
  induction es as [|[k v] es IH]; simpl; intros o Ho; [exact Ho|].
  apply IH. now apply defineProperty_ordered.
Qed.

Lemma copy_rebuilds (es : object) :
  forall o, ordered (o ++ es) -> fold_left define es o = o ++ es.
Proof.
  induction es as [|[k v] es IH]; simpl; intros o Ho.
  - now rewrite app_nil_r.
  - assert (Hsplit : o ++ (k, v) :: es = (o ++ [(k, v)]) ++ es)
      by now rewrite <- app_assoc.
    unfold define at 2. simpl fst. simpl snd.
    rewrite defineProperty_last.
    + rewrite Hsplit in Ho |- *. now apply IH.
    + unfold ordered in Ho. rewrite map_app in Ho. simpl in Ho.
      apply orderedKeys_app in Ho. destruct Ho as (_ & _ & Ho).
      eapply Forall_impl; [|exact Ho].
      intros a Ha. now inversion Ha.
Qed.

Lemma lookup_absent (k : string) (o : object) :
  ~ In k (map fst o) -> lookup k o = None.
Proof.
  induction o as [|[a x] o IH]; simpl; intros H; [reflexivity|].
  destruct (String.eqb_spec k a) as [->|_].
  - exfalso. apply H. now left.
  - apply IH. intros Hin. apply H. now right.
Qed.

Lemma lookup_copy (k : string) (es : object) :
  NoDup (map fst es) ->
  forall o,
    lookup k (fold_left define es o)
    = match lookup k es with
      | Some v => Some v
      | None => lookup k o
      end.
Proof.
  induction es as [|[k' v'] es IH]; cbn [fold_left lookup map fst];
    intros Hu o; [reflexivity|].
  inversion Hu as [|? ? Hk' Hrest]; subst.
  rewrite (IH Hrest). unfold define. simpl fst. simpl snd.
  rewrite ObjectFacts.lookup_defineProperty.
  destruct (String.eqb_spec k k') as [->|Hne].
  - now rewrite (lookup_absent k' es Hk').
  - reflexivity.
Qed.

Lemma mapM_cleanRecord (records : list value) :
  Forall (fun r => Parser.isObjectLike r = true) records ->
  Parser.mapM Parser.cleanRecord records = Ok (map cleaned records).
Proof.
  induction 1 as [|r records Hr _ IH]; simpl; [reflexivity|].
  rewrite IH. destruct r; try discriminate Hr; reflexivity.
Qed.

Lemma filter_objectLike (records : list value) :
  Forall (fun r => Parser.isObjectLike r = true)
         (filter Parser.isObjectLike records).
Proof.
  apply Forall_forall. intros r Hr. now apply filter_In in Hr.
Qed.

Lemma cleanCategory_spec (o : object) (k : string) :
  Parser.cleanCategory o k
  = if notFilterable (lookup k o)
    then Throw (TypeError "cleaned[category].filter is not a function")
    else Ok (cleanedIn o k).
Proof.
  unfold Parser.cleanCategory, cleanedIn, notFilterable.
  destruct (lookup k o) as [v|]; [|reflexivity].
  destruct v as [| |b|[q|]|s|l|e]; simpl truthy; cbv iota; try reflexivity.
  rewrite (mapM_cleanRecord _ (filter_objectLike l)). reflexivity.
Qed.

Lemma lookup_cleanedIn (name k : string) (o : object) :
  lookup name (cleanedIn o k)
  = if String.eqb name k then cleanedEntry (lookup k o) else lookup name o.
Proof.
  unfold cleanedIn, cleanedEntry.
  destruct (String.eqb_spec name k) as [->|Hne].
  - destruct (lookup k o) as [v|] eqn:Hk; [|exact Hk].
    destruct v; try exact Hk.
    rewrite ObjectFacts.lookup_defineProperty. now rewrite String.eqb_refl.
  - destruct (lookup k o) as [v|]; [|reflexivity].
    destruct v; try reflexivity.
    rewrite ObjectFacts.lookup_defineProperty.
    destruct (String.eqb_spec name k); [contradiction | reflexivity].
Qed.

Lemma cleanedIn_ordered (o : object) (k : string) :
  ordered o -> ordered (cleanedIn o k).
Proof.
  intros Ho. unfold cleanedIn.
  destruct (lookup k o) as [v|]; [|exact Ho].
  destruct v; try exact Ho. now apply defineProperty_ordered.
Qed.

Lemma lookup_cleanedAll (name : string) (o : object) :
  lookup name (cleanedAll o)
  = if existsb (String.eqb name) categoryNames
    then cleanedEntry (lookup name o) else lookup name o.
Proof.
  unfold cleanedAll, categoryNames. simpl fold_left. simpl existsb.
  rewrite !lookup_cleanedIn.
  destruct (String.eqb_spec name "balances") as [->|H4]; [reflexivity|].
  destruct (String.eqb_spec name "payments") as [->|H3]; [reflexivity|].
  destruct (String.eqb_spec name "expenses") as [->|H2]; [reflexivity|].
  destruct (String.eqb_spec name "invoices") as [->|H1]; reflexivity.
Qed.

Lemma cleanedAll_ordered (o : object) : ordered o -> ordered (cleanedAll o).
Proof.
  intros Ho. unfold cleanedAll, categoryNames. simpl.
  now repeat apply cleanedIn_ordered.
Qed.

Lemma forEach_cleanCategory (o : object) :
  forEach Parser.cleanCategory categoryNames o
  = if existsb (fun k => notFilterable (lookup k o)) categoryNames
    then Throw (TypeError "cleaned[category].filter is not a function")
    else Ok (cleanedAll o).
Proof.
  unfold categoryNames, cleanedAll. simpl forEach. simpl existsb. simpl fold_left.
  rewrite (cleanCategory_spec o "invoices").
  destruct (notFilterable (lookup "invoices" o)); [reflexivity|]. simpl bind.
  rewrite cleanCategory_spec, lookup_cleanedIn. simpl String.eqb.
  destruct (notFilterable (lookup "expenses" o)); [reflexivity|]. simpl bind.
  rewrite cleanCategory_spec, !lookup_cleanedIn. simpl String.eqb.
  destruct (notFilterable (lookup "payments" o)); [reflexivity|]. simpl bind.
  rewrite cleanCategory_spec, !lookup_cleanedIn. simpl String.eqb.
  destruct (notFilterable (lookup "balances" o)); reflexivity.
Qed.

Lemma cleanFinancialData_spec (data : value) :
  Parser.cleanFinancialData data
  = let copy := fold_left define (entries data) [] in
    if existsb (fun k => notFilterable (lookup k copy)) categoryNames
    then Throw (TypeError "cleaned[category].filter is not a function")
    else Ok (VObj (cleanedAll copy)).
Proof.
  unfold Parser.cleanFinancialData.
  change (fun (o : object) (kv : string * value) => defineProperty o (fst kv) (snd kv))
    with define.
  change ["invoices"; "expenses"; "payments"; "balances"] with categoryNames.
  rewrite forEach_cleanCategory. cbv zeta.
  now destruct (existsb _ categoryNames).
Qed.

Lemma defineProperty_same (o : object) (k : string) (v : value) :
  lookup k o = Some v -> defineProperty o k v = o.
Proof.
  intros H. unfold defineProperty.
  assert (Hk : hasKey k o = true).
  { revert H. induction o as [|[a x] o IH]; simpl; [discriminate|].
    destruct (String.eqb k a); [reflexivity | exact IH]. }
  rewrite Hk. revert H. clear Hk.
  induction o as [|[a x] o IH]; simpl; [reflexivity|].
  destruct (String.eqb_spec k a) as [->|_].
  - intros H; injection H as ->. reflexivity.
  - intros H. now rewrite IH.
Qed.

Lemma cleanedRecords_fixed (records : list value) :
  cleanedRecords (cleanedRecords records) = cleanedRecords records.
Proof.
  unfold cleanedRecords.
  induction (filter Parser.isObjectLike records) as [|r rs IH]; simpl; [reflexivity|].
  rewrite cleaned_fixed. f_equal. exact IH.
Qed.

Lemma cleanedEntry_fixed (entry : option value) :
  cleanedEntry (cleanedEntry entry) = cleanedEntry entry.
Proof.
  destruct entry as [v|]; [|reflexivity].
  destruct v; try reflexivity. simpl. now rewrite cleanedRecords_fixed.
Qed.

Lemma notFilterable_cleanedEntry (entry : option value) :
  notFilterable entry = false -> notFilterable (cleanedEntry entry) = false.
Proof. destruct entry as [v|]; [|reflexivity]. now destruct v. Qed.

(** A step on an object whose entry is already clean changes nothing. *)
Lemma cleanedIn_fixed (o : object) (k : string) :
  cleanedEntry (lookup k o) = lookup k o -> cleanedIn o k = o.
Proof.
  unfold cleanedIn, cleanedEntry.
  destruct (lookup k o) as [v|] eqn:Hk; [|reflexivity].
  destruct v; try reflexivity.
  intros E. injection E as E. rewrite E. now apply defineProperty_same.
Qed.

Lemma cleanedAll_fixed (o : object) :
  (forall k, In k categoryNames -> cleanedEntry (lookup k o) = lookup k o) ->
  cleanedAll o = o.
Proof.
  intros H. unfold cleanedAll, categoryNames. simpl.
  rewrite (cleanedIn_fixed o "invoices") by (apply H; solve_In).
  rewrite (cleanedIn_fixed o "expenses") by (apply H; solve_In).
  rewrite (cleanedIn_fixed o "payments") by (apply H; solve_In).
  apply cleanedIn_fixed. apply H. solve_In.
Qed.

End StructureFacts.

(** X5.  In a record that [cleanRecord] returns the keys are distinct, each is
    a key of the input other than [__proto__], and no value is [null],
    [undefined], an empty string, a string with whitespace around it or a
    string of the numeric shape. *)
Theorem cleanRecord_leaves_clean_fields :
  forall (record c : value),
    Parser.cleanRecord record = Ok c ->
    exists o,
      c = VObj o
      /\ Terms.uniqueKeys o
      /\ forall k v, In (k, v) o ->
           Terms.cleanField v /\ k <> "__proto__" /\ In k (keys record).
Proof.
  intros record c. unfold Parser.cleanRecord.
  destruct (isNullish record); [discriminate|].
  intros H; injection H as <-. eexists. split; [reflexivity|]. split.
  - apply RecordFacts.orderedKeys_NoDup.
    apply (IdempotenceFacts.clean_invariant (entries record) []).
    split; [exact I | constructor].
  - assert (Hall : Forall (fun kv => Terms.cleanField (snd kv)
                                     /\ fst kv <> "__proto__"
                                     /\ In (fst kv) (keys record))
                          (fold_left Parser.cleanEntry (entries record) [])).
    { apply RecordFacts.fold_cleanEntry_Forall; [|constructor].
      intros k v w Hin Hk Hv. simpl. split; [|split].
      - exact (RecordFacts.cleanValue_cleanField v w Hv).
      - exact Hk.
      - rewrite <- RecordFacts.entries_keys. now apply (in_map fst) in Hin. }
    rewrite Forall_forall in Hall. intros k v Hin. exact (Hall _ Hin).
Qed.

Lemma cleanRecord_leaves_clean_fields_witness :
  exists o,
    VObj [("amount", int 12); ("note", VStr "net 30")] = VObj o
    /\ Terms.uniqueKeys o
    /\ forall k v, In (k, v) o ->
         Terms.cleanField v /\ k <> "__proto__"
         /\ In k (keys (VObj [("amount", VStr " 12 "); ("memo", VNull);
                              ("note", VStr "net 30 "); ("tag", VStr "  ")])).
Proof.
  apply (cleanRecord_leaves_clean_fields
           (VObj [("amount", VStr " 12 "); ("memo", VNull);
                  ("note", VStr "net 30 "); ("tag", VStr "  ")])).
  reflexivity.
Defined.

(** X6.  [cleanRecord] works field by field: for an object with distinct keys
    the cleaned record holds under a key (other than [__proto__]) what
    [cleanValue] makes of the value of that key, and nothing when the key is
    absent or its value is dropped. *)
Theorem cleanRecord_cleans_field_by_field :
  forall (o : object) (k : string),
    Terms.uniqueKeys o -> k <> "__proto__" ->
    exists c,
      Parser.cleanRecord (VObj o) = Ok (VObj c)
      /\ lookup k c = match lookup k o with
                      | Some v => Parser.cleanValue v
                      | None => None
                      end.
Proof.
  intros o k Hu Hk. exists (fold_left Parser.cleanEntry o []).
  split; [reflexivity|].
  rewrite (RecordFacts.lookup_fold_cleanEntry k o Hu []).
  destruct (lookup k o) as [v|]; [|reflexivity].
  destruct (Parser.cleanValue v); [|reflexivity].
  destruct (String.eqb_spec k "__proto__"); [contradiction | reflexivity].
Qed.

Lemma cleanRecord_cleans_field_by_field_witness :
  exists c,
    Parser.cleanRecord (VObj [("amount", VStr " 12 "); ("memo", VNull)]) = Ok (VObj c)
    /\ lookup "amount" c
       = match lookup "amount" [("amount", VStr " 12 "); ("memo", VNull)] with
         | Some v => Parser.cleanValue v
         | None => None
         end.
Proof.
  apply (cleanRecord_cleans_field_by_field
           [("amount", VStr " 12 "); ("memo", VNull)] "amount").
  - unfold Terms.uniqueKeys. simpl.
    repeat constructor; simpl; intros H;
      repeat (destruct H as [H|H]; [discriminate H|]); contradiction.
  - discriminate.
Defined.

(** X7.  Where each of the four categories is absent, falsy or a sequence,
    [cleanFinancialData] succeeds: a category that is a sequence becomes
    the cleaned records of its object-like elements, in order, and every
    other key, such as [metadata] with its record count, keeps its value. *)
Theorem cleanFinancialData_cleans_each_sequence :
  forall (o : object),
    Terms.uniqueKeys o ->
    (forall k, In k Terms.categoryNames -> Terms.notFilterable (lookup k o) = false) ->
    exists c,
      Parser.cleanFinancialData (VObj o) = Ok (VObj c)
      /\ Terms.uniqueKeys c
      /\ forall k,
           lookup k c = if existsb (String.eqb k) Terms.categoryNames
                        then Terms.cleanedEntry (lookup k o)
                        else lookup k o.
Proof.
  intros o Hu Hf.
  assert (Hcopy : forall k, lookup k (fold_left Terms.define o []) = lookup k o).
  { intros k. rewrite (StructureFacts.lookup_copy k o Hu []).
    now destruct (lookup k o). }
  rewrite StructureFacts.cleanFinancialData_spec. cbv zeta. simpl entries.
  assert (Hnone : existsb (fun k => Terms.notFilterable
                                      (lookup k (fold_left Terms.define o [])))
                          Terms.categoryNames = false).
  { apply not_true_is_false. intros H. apply existsb_exists in H.
    destruct H as (k & Hk & H). rewrite Hcopy, (Hf k Hk) in H. discriminate. }
  rewrite Hnone. eexists. split; [reflexivity|]. split.
  - apply RecordFacts.orderedKeys_NoDup.
    apply StructureFacts.cleanedAll_ordered.
    apply StructureFacts.copy_ordered. exact I.
  - intros k. rewrite StructureFacts.lookup_cleanedAll. now rewrite Hcopy.
Qed.

Lemma cleanFinancialData_cleans_each_sequence_witness :
  let o := [("invoices", VArr [VObj [("amount", VStr " 12 ")]; VNull]);
            ("expenses", VNull);
            ("source", VStr " upload ")] in
  exists c,
    Parser.cleanFinancialData (VObj o) = Ok (VObj c)
    /\ Terms.uniqueKeys c
    /\ forall k,
         lookup k c = if existsb (String.eqb k) Terms.categoryNames
                      then Terms.cleanedEntry (lookup k o)
                      else lookup k o.
Proof.
  intros o. apply (cleanFinancialData_cleans_each_sequence o).
  - unfold Terms.uniqueKeys. simpl.
    repeat constructor; simpl; intros H;
      repeat (destruct H as [H|H]; [discriminate H|]); contradiction.
  - intros k Hk. unfold Terms.categoryNames in Hk. simpl in Hk.
    repeat (destruct Hk as [<-|Hk]; [reflexivity|]). contradiction.
Defined.

(** X8.  [cleanFinancialData] throws a [TypeError] when one of the four
    categories holds a truthy value that is not a sequence. *)
Theorem cleanFinancialData_fails_on_a_category_that_is_no_sequence :
  forall (o : object) (k : string),
    Terms.uniqueKeys o ->
    In k Terms.categoryNames ->
    Terms.notFilterable (lookup k o) = true ->
    Parser.cleanFinancialData (VObj o)
    = Throw (TypeError "cleaned[category].filter is not a function").
Proof.
  intros o k Hu Hk Hf.
  rewrite StructureFacts.cleanFinancialData_spec. cbv zeta. simpl entries.
  assert (Hsome : existsb (fun k => Terms.notFilterable
                                      (lookup k (fold_left Terms.define o [])))
                          Terms.categoryNames = true).
  { apply existsb_exists. exists k. split; [exact Hk|].
    rewrite (StructureFacts.lookup_copy k o Hu []).
    destruct (lookup k o); [exact Hf | discriminate Hf]. }
  now rewrite Hsome.
Qed.

Lemma cleanFinancialData_fails_on_a_category_that_is_no_sequence_witness :
  Parser.cleanFinancialData
    (VObj [("invoices", VArr []); ("payments", VStr "none")])
  = Throw (TypeError "cleaned[category].filter is not a function").
Proof.
  apply (cleanFinancialData_fails_on_a_category_that_is_no_sequence
           [("invoices", VArr []); ("payments", VStr "none")] "payments").
  - unfold Terms.uniqueKeys. simpl.
    repeat constructor; simpl; intros H;
      repeat (destruct H as [H|H]; [discriminate H|]); contradiction.
  - unfold Terms.categoryNames. solve_In.
  - reflexivity.
Defined.

(** X9.  [cleanFinancialData] is idempotent: what it returns, it returns
    unchanged when applied again. *)
Theorem cleanFinancialData_is_idempotent :
  forall (data c : value),
    Parser.cleanFinancialData data = Ok c ->
    Parser.cleanFinancialData c = Ok c.
Proof.
  intros data c. rewrite StructureFacts.cleanFinancialData_spec. cbv zeta.
  set (copy := fold_left Terms.define (entries data) []).
  destruct (existsb _ Terms.categoryNames) eqn:Hf; [discriminate|].
  intros H; injection H as <-.
  assert (Hcopy : Notions.ordered copy)
    by (apply StructureFacts.copy_ordered; exact I).
  assert (Ho : Notions.ordered (Terms.cleanedAll copy))
    by now apply StructureFacts.cleanedAll_ordered.
  rewrite StructureFacts.cleanFinancialData_spec. cbv zeta. simpl entries.
  rewrite (StructureFacts.copy_rebuilds _ [] Ho). simpl app.
  assert (Hnone : existsb (fun k => Terms.notFilterable
                                      (lookup k (Terms.cleanedAll copy)))
                          Terms.categoryNames = false).
  { apply not_true_is_false. intros H. apply existsb_exists in H.
    destruct H as (k & Hk & H).
    rewrite StructureFacts.lookup_cleanedAll in H.
    assert (Hin : existsb (String.eqb k) Terms.categoryNames = true).
    { apply existsb_exists. exists k. split; [exact Hk | apply String.eqb_refl]. }
    rewrite Hin in H.
    rewrite StructureFacts.notFilterable_cleanedEntry in H; [discriminate|].
    apply not_true_is_false. intros Hk'.
    assert (Hex : existsb (fun k => Terms.notFilterable (lookup k copy))
                          Terms.categoryNames = true)
      by (apply existsb_exists; now exists k).
    rewrite Hf in Hex. discriminate. }
  rewrite Hnone. do 2 f_equal.
  apply StructureFacts.cleanedAll_fixed. intros k Hk.
  rewrite StructureFacts.lookup_cleanedAll.
  assert (Hin : existsb (String.eqb k) Terms.categoryNames = true).
  { apply existsb_exists. exists k. split; [exact Hk | apply String.eqb_refl]. }
  rewrite Hin. apply StructureFacts.cleanedEntry_fixed.
Qed.

Lemma cleanFinancialData_is_idempotent_witness :
  Parser.cleanFinancialData
    (VObj [("source", VStr " upload "); ("invoices", VArr [VObj [("amount", int 12)]])])
  = Ok (VObj [("source", VStr " upload ");
              ("invoices", VArr [VObj [("amount", int 12)]])]).
Proof.
  apply (cleanFinancialData_is_idempotent
           (VObj [("source", VStr " upload ");
                  ("invoices", VArr [VObj [("amount", VStr "12")]; VBool true])])).
  reflexivity.
Defined.

(* ================================================================== *)
(** * Further properties of the validation                            *)
(* ================================================================== *)

(** ** What the schema asks *)

Module SchemaFacts.
Import Js Ajv.

Section Validator.

Variable formats : string -> option (string -> bool).
Variable verbose : bool.

Lemma validate_minimum (ks : list (keyword schema)) (ipath spath : string)
      (q limit : Q) :
  validate formats verbose (Schema ks) ipath spath (VNum (Fin q)) = [] ->
  In (KMinimum limit) ks -> Qle_bool limit q = true.
Proof.
  intros Hv Hk. apply AjvFacts.validate_parts in Hv.
  destruct Hv as (_ & _ & _ & Hnum & _).
  specialize (Hnum q eq_refl).
  rewrite AjvFacts.flat_map_nil, Forall_forall in Hnum. specialize (Hnum _ Hk).
  simpl in Hnum. destruct (Qle_bool limit q); [reflexivity | discriminate Hnum].
Qed.

Lemma validate_enum (ks : list (keyword schema)) (ipath spath : string)
      (data : value) (allowed : list value) :
  validate formats verbose (Schema ks) ipath spath data = [] ->
  In (KEnum allowed) ks -> existsb (equal data) allowed = true.
Proof.
  intros Hv Hk. apply AjvFacts.validate_parts in Hv.
  destruct Hv as (_ & _ & Henum & _).
  rewrite AjvFacts.flat_map_nil, Forall_forall in Henum. specialize (Henum _ Hk).
  simpl in Henum.
  destruct (existsb (equal data) allowed); [reflexivity | discriminate Henum].
Qed.

Lemma validate_format (ks : list (keyword schema)) (ipath spath : string)
      (s name : string) (accepts : string -> bool) :
  validate formats verbose (Schema ks) ipath spath (VStr s) = [] ->
  In (KFormat name) ks -> formats name = Some accepts -> accepts s = true.
Proof.
  intros Hv Hk Hf. apply AjvFacts.validate_parts in Hv.
  destruct Hv as (_ & _ & _ & _ & Hstr & _).
  specialize (Hstr s eq_refl).
  rewrite AjvFacts.flat_map_nil, Forall_forall in Hstr. specialize (Hstr _ Hk).
  simpl in Hstr. rewrite Hf in Hstr.
  destruct (accepts s); [reflexivity | discriminate Hstr].
Qed.

(** A required property that the schema describes is present and valid. *)
Lemma validate_required_property (ks : list (keyword schema)) (ipath spath : string)
      (o : object) (names : list string) (properties : list (string * schema))
      (name : string) (sub : schema) :
  validate formats verbose (Schema ks) ipath spath (VObj o) = [] ->
  In (KRequired names) ks -> In name names ->
  In (KProperties properties) ks -> In (name, sub) properties ->
  exists x,
    lookup name o = Some x
    /\ validate formats verbose sub (ipath ++ "/" ++ name)%string
                (spath ++ "/properties/" ++ name)%string x = [].
Proof.
  intros Hv Hreq Hn Hprops Hp.
  pose proof (AjvFacts.validate_required formats verbose ks ipath spath o names name
                Hv Hreq Hn) as Hm.
  unfold missing in Hm.
  destruct (lookup name o) as [x|] eqn:Hx; [|discriminate Hm].
  assert (Hdef : x <> VUndefined) by (intros ->; discriminate Hm).
  exists x. split; [reflexivity|].
  exact (AjvFacts.validate_property formats verbose ks ipath spath o properties
           name sub x Hv Hprops Hp Hx Hdef).
Qed.

Lemma valid_number (ks : list (keyword schema)) (ipath spath : string)
      (x shown : value) :
  validate formats verbose (Schema ks) ipath spath x = [] ->
  schemaTypes ks = Some ([TNumber], shown) ->
  exists q, x = VNum (Fin q).
Proof.
  intros Hv Hts.
  pose proof (AjvFacts.validate_type formats verbose ks ipath spath x _ _ Hv Hts) as Ht.
  simpl in Ht. rewrite orb_false_r in Ht.
  destruct x as [| |b|[q|]|s|l|e]; try discriminate Ht. now exists q.
Qed.

Lemma valid_string (ks : list (keyword schema)) (ipath spath : string)
      (x shown : value) :
  validate formats verbose (Schema ks) ipath spath x = [] ->
  schemaTypes ks = Some ([TString], shown) ->
  exists s, x = VStr s.
Proof.
  intros Hv Hts.
  pose proof (AjvFacts.validate_type formats verbose ks ipath spath x _ _ Hv Hts) as Ht.
  simpl in Ht. rewrite orb_false_r in Ht.
  destruct x as [| |b|n|s|l|e]; try discriminate Ht. now exists s.
Qed.

Lemma valid_object (ks : list (keyword schema)) (ipath spath : string)
      (x shown : value) :
  validate formats verbose (Schema ks) ipath spath x = [] ->
  schemaTypes ks = Some ([TObject], shown) ->
  exists o, x = VObj o.
Proof.
  intros Hv Hts.
  pose proof (AjvFacts.validate_type formats verbose ks ipath spath x _ _ Hv Hts) as Ht.
  simpl in Ht. rewrite orb_false_r in Ht.
  destruct x as [| |b|n|s|l|e]; try discriminate Ht. now exists e.
Qed.

(** A valid array, with what its items schema says of each element. *)
Lemma valid_array (ks : list (keyword schema)) (ipath spath : string)
      (x shown : value) (sub : schema) (P : value -> Prop) :
  validate formats verbose (Schema ks) ipath spath x = [] ->
  schemaTypes ks = Some ([TArray], shown) ->
  In (KItems sub) ks ->
  (forall ipath' r,
      validate formats verbose sub ipath' (spath ++ "/items")%string r = [] -> P r) ->
  exists records, x = VArr records /\ Forall P records.
Proof.
  intros Hv Hts Hitems HP.
  pose proof (AjvFacts.validate_type formats verbose ks ipath spath x _ _ Hv Hts) as Ht.
  simpl in Ht. rewrite orb_false_r in Ht.
  destruct x as [| |b|n|s|l|e]; try discriminate Ht.
  exists l. split; [reflexivity|]. apply Forall_forall. intros r Hr.
  destruct (AjvFacts.validate_items formats verbose ks ipath spath l sub r
              Hv Hitems Hr) as (ipath' & Hvr).
  exact (HP ipath' r Hvr).
Qed.

End Validator.

End SchemaFacts.

Module ValidFacts.
Import Js Ajv Notions Terms SchemaFacts.

Abbreviation valid s ipath spath x :=
  (validate AjvFormats.formats false s ipath spath x = []).

Lemma valid_date (ipath spath : string) (x : value) :
  valid Validation.aDate ipath spath x ->
  exists d, x = VStr d /\ AjvFormats.date d = true.
Proof.
  unfold Validation.aDate. intros Hv.
  destruct (valid_string _ _ _ _ _ _ _ Hv eq_refl) as (d & ->).
  exists d. split; [reflexivity|].
  apply (validate_format _ _ _ _ _ _ "date" _ Hv); [solve_In | reflexivity].
Qed.

Lemma valid_amount (ipath spath : string) (x : value) :
  valid (Schema [KType TNumber; KMinimum 0%Q]) ipath spath x ->
  exists q, x = VNum (Fin q) /\ (0 <= q)%Q.
Proof.
  intros Hv. destruct (valid_number _ _ _ _ _ _ _ Hv eq_refl) as (q & ->).
  exists q. split; [reflexivity|].
  apply Qle_bool_iff.
  apply (validate_minimum _ _ _ _ _ _ _ Hv). solve_In.
Qed.

Lemma billed_record (ks : list (keyword schema)) (ipath spath : string)
      (r shown : value) (names : list string) (properties : list (string * schema)) :
  schemaTypes ks = Some ([TObject], shown) ->
  In (KRequired names) ks -> In "amount" names -> In "date" names ->
  In (KProperties properties) ks ->
  In ("amount", Schema [KType TNumber; KMinimum 0%Q]) properties ->
  In ("date", Validation.aDate) properties ->
  valid (Schema ks) ipath spath r -> billed r.
Proof.
  intros Hts Hreq Ha Hd Hprops Hpa Hpd Hv.
  destruct (valid_object _ _ _ _ _ _ _ Hv Hts) as (e & ->).
  destruct (validate_required_property _ _ _ _ _ _ _ _ _ _ Hv Hreq Ha Hprops Hpa)
    as (a & Hla & Hva).
  destruct (validate_required_property _ _ _ _ _ _ _ _ _ _ Hv Hreq Hd Hprops Hpd)
    as (d & Hld & Hvd).
  destruct (valid_amount _ _ _ Hva) as (q & -> & Hq).
  destruct (valid_date _ _ _ Hvd) as (ds & -> & Hds).
  exists e, q, ds. auto.
Qed.

Lemma paid_record (ks : list (keyword schema)) (ipath spath : string)
      (r shown : value) (names : list string) (properties : list (string * schema)) :
  schemaTypes ks = Some ([TObject], shown) ->
  In (KRequired names) ks ->
  In "amount" names -> In "date" names -> In "type" names ->
  In (KProperties properties) ks ->
  In ("amount", Validation.aNumber) properties ->
  In ("date", Validation.aDate) properties ->
  In ("type", Schema [KType TString; KEnum [VStr "inbound"; VStr "outbound"]])
     properties ->
  valid (Schema ks) ipath spath r -> paid r.
Proof.
  intros Hts Hreq Ha Hd Ht Hprops Hpa Hpd Hpt Hv.
  destruct (valid_object _ _ _ _ _ _ _ Hv Hts) as (e & ->).
  destruct (validate_required_property _ _ _ _ _ _ _ _ _ _ Hv Hreq Ha Hprops Hpa)
    as (a & Hla & Hva).
  destruct (validate_required_property _ _ _ _ _ _ _ _ _ _ Hv Hreq Hd Hprops Hpd)
    as (d & Hld & Hvd).
  destruct (validate_required_property _ _ _ _ _ _ _ _ _ _ Hv Hreq Ht Hprops Hpt)
    as (t & Hlt & Hvt).
  unfold Validation.aNumber in Hva.
  destruct (valid_number _ _ _ _ _ _ _ Hva eq_refl) as (q & ->).
  destruct (valid_date _ _ _ Hvd) as (ds & -> & Hds).
  destruct (valid_string _ _ _ _ _ _ _ Hvt eq_refl) as (ts & ->).
  pose proof (validate_enum _ _ _ _ _ _ _ Hvt ltac:(solve_In)) as Henum.
  simpl in Henum. rewrite orb_false_r in Henum.
  exists e, q, ds, ts. repeat split; try assumption.
  apply orb_true_iff in Henum.
  destruct Henum as [H|H]; apply String.eqb_eq in H; auto.
Qed.

Lemma balanced_record (ks : list (keyword schema)) (ipath spath : string)
      (r shown : value) (names : list string) (properties : list (string * schema)) :
  schemaTypes ks = Some ([TObject], shown) ->
  In (KRequired names) ks ->
  In "account" names -> In "balance" names -> In "date" names ->
  In (KProperties properties) ks ->
  In ("account", Validation.aString) properties ->
  In ("balance", Validation.aNumber) properties ->
  In ("date", Validation.aDate) properties ->
  valid (Schema ks) ipath spath r -> balanced r.
Proof.
  intros Hts Hreq Ha Hb Hd Hprops Hpa Hpb Hpd Hv.
  destruct (valid_object _ _ _ _ _ _ _ Hv Hts) as (e & ->).
  destruct (validate_required_property _ _ _ _ _ _ _ _ _ _ Hv Hreq Ha Hprops Hpa)
    as (a & Hla & Hva).
  destruct (validate_required_property _ _ _ _ _ _ _ _ _ _ Hv Hreq Hb Hprops Hpb)
    as (b & Hlb & Hvb).
  destruct (validate_required_property _ _ _ _ _ _ _ _ _ _ Hv Hreq Hd Hprops Hpd)
    as (d & Hld & Hvd).
  unfold Validation.aString in Hva. unfold Validation.aNumber in Hvb.
  destruct (valid_string _ _ _ _ _ _ _ Hva eq_refl) as (s & ->).
  destruct (valid_number _ _ _ _ _ _ _ Hvb eq_refl) as (q & ->).
  destruct (valid_date _ _ _ Hvd) as (ds & -> & Hds).
  exists e, s, q, ds. auto.
Qed.

(** A property of valid data that is present holds a valid value. *)
Lemma top_property (o : object) (name : string) (sub : schema) (x : value) :
  Validation.validateFinancialData (VObj o) = [] ->
  In (name, sub)
     (match Validation.financialDataSchema with
      | Schema (_ :: KProperties properties :: _) => properties
      | _ => []
      end) ->
  lookup name o = Some x -> x <> VUndefined ->
  valid sub ("/" ++ name)%string ("#/properties/" ++ name)%string x.
Proof.
  intros Hv Hp Hx Hdef.
  unfold Validation.validateFinancialData, compile, Validation.financialDataSchema in Hv.
  eapply (AjvFacts.validate_property _ _ _ _ _ _ _ name sub x) in Hv;
    [exact Hv | solve_In | exact Hp | exact Hx | exact Hdef].
Qed.

Lemma valid_sequence (P : value -> Prop) (required : bool) (o : object)
      (name : string) (sub : schema) :
  Validation.validateFinancialData (VObj o) = [] ->
  In (name, sub)
     (match Validation.financialDataSchema with
      | Schema (_ :: KProperties properties :: _) => properties
      | _ => []
      end) ->
  (required = true -> In name ["invoices"; "expenses"]) ->
  (forall x, valid sub ("/" ++ name)%string ("#/properties/" ++ name)%string x ->
             exists records, x = VArr records /\ Forall P records) ->
  sequenceOf P required (lookup name o).
Proof.
  intros Hv Hp Hreq HP. unfold sequenceOf.
  assert (Hpresent : required = true ->
            exists x, lookup name o = Some x /\ x <> VUndefined).
  { intros Hr. specialize (Hreq Hr).
    unfold Validation.validateFinancialData, compile,
      Validation.financialDataSchema in Hv.
    eapply AjvFacts.validate_required in Hv; [ | solve_In | exact Hreq ].
    unfold missing in Hv. destruct (lookup name o) as [x|]; [|discriminate Hv].
    exists x. split; [reflexivity|]. intros ->. discriminate Hv. }
  destruct (lookup name o) as [x|] eqn:Hx.
  - assert (Hx' : x = VUndefined \/ x <> VUndefined)
      by (destruct x; auto; right; discriminate).
    destruct Hx' as [->|Hdef].
    + destruct required; [|reflexivity].
      destruct (Hpresent eq_refl) as (x & E & Hdef). injection E as <-.
      contradiction.
    + pose proof (HP x (top_property o name sub x Hv Hp Hx Hdef)) as Hrec.
      destruct x; try exact Hrec. contradiction.
  - destruct required; [|reflexivity].
    destruct (Hpresent eq_refl) as (x & E & _). discriminate E.
Qed.

Lemma valid_data_structure (data : value) :
  Validation.validateFinancialData data = [] ->
  exists o,
    data = VObj o
    /\ sequenceOf billed true (lookup "invoices" o)
    /\ sequenceOf billed true (lookup "expenses" o)
    /\ sequenceOf paid false (lookup "payments" o)
    /\ sequenceOf balanced false (lookup "balances" o).
Proof.
  intros Hv.
  assert (Ho : exists o, data = VObj o).
  { unfold Validation.validateFinancialData, compile,
      Validation.financialDataSchema in Hv.
    exact (valid_object _ _ _ _ _ _ _ Hv eq_refl). }
  destruct Ho as (o & ->). exists o. split; [reflexivity|].
  split; [|split; [|split]].
  - eapply (valid_sequence billed true o "invoices");
      [exact Hv | solve_In | intros _; solve_In |].
    intros x Hx.
    eapply (valid_array _ _ _ _ _ _ _ _ billed Hx); [reflexivity | solve_In |].
    intros ipath' r Hr.
    refine (billed_record _ _ _ _ _ _ _ _ _ _ _ _ _ _ Hr);
      first [reflexivity | solve_In].
  - eapply (valid_sequence billed true o "expenses");
      [exact Hv | solve_In | intros _; solve_In |].
    intros x Hx.
    eapply (valid_array _ _ _ _ _ _ _ _ billed Hx); [reflexivity | solve_In |].
    intros ipath' r Hr.
    refine (billed_record _ _ _ _ _ _ _ _ _ _ _ _ _ _ Hr);
      first [reflexivity | solve_In].
  - eapply (valid_sequence paid false o "payments");
      [exact Hv | solve_In | discriminate |].
    intros x Hx.
    eapply (valid_array _ _ _ _ _ _ _ _ paid Hx); [reflexivity | solve_In |].
    intros ipath' r Hr.
    refine (paid_record _ _ _ _ _ _ _ _ _ _ _ _ _ _ _ _ Hr);
      first [reflexivity | solve_In].
  - eapply (valid_sequence balanced false o "balances");
      [exact Hv | solve_In | discriminate |].
    intros x Hx.
    eapply (valid_array _ _ _ _ _ _ _ _ balanced Hx); [reflexivity | solve_In |].
    intros ipath' r Hr.
    refine (balanced_record _ _ _ _ _ _ _ _ _ _ _ _ _ _ _ _ Hr);
      first [reflexivity | solve_In].
Qed.

End ValidFacts.

Module QualityFacts.
Import Js Notions Terms.

Lemma billed_entered (r : value) : billed r -> entered r.
Proof. intros (e & q & d & -> & Ha & _ & Hd & Hdate). now exists e, q, d. Qed.

Lemma paid_entered (r : value) : paid r -> entered r.
Proof. intros (e & q & d & t & -> & Ha & Hd & Hdate & _). now exists e, q, d. Qed.

Lemma date_truthy (d : string) : AjvFormats.date d = true -> truthy (VStr d) = true.
Proof. destruct d; [discriminate | reflexivity]. Qed.

Lemma no_record_undated (records : list value) :
  Forall entered records ->
  Validation.filterM Validation.missingDate records = Ok [].
Proof.
  induction 1 as [|r rest (e & q & d & -> & _ & Hd & Hdate) _ IH]; simpl;
    [reflexivity|].
  unfold Validation.missingDate at 1. simpl get. rewrite Hd.
  cbv beta iota delta [bind].
  rewrite (date_truthy d Hdate). simpl negb. rewrite IH. reflexivity.
Qed.

Lemma suspicious_unusual (records : list value) :
  Forall entered records ->
  Validation.filterM Validation.suspiciousAmount records
  = Ok (filter unusual records).
Proof.
  induction 1 as [|r rest (e & q & d & -> & Ha & _) _ IH]; simpl; [reflexivity|].
  unfold Validation.suspiciousAmount at 1, unusual at 1.
  simpl get. simpl get_opt. rewrite Ha. cbv beta iota delta [bind]. simpl truthy.
  rewrite IH.
  destruct (Qeq_bool q 0) eqn:Hz; simpl negb; cbv iota; [|reflexivity].
  apply Qeq_bool_iff in Hz.
  assert (H1 : Qle_bool 0 q = true) by (apply Qle_bool_iff; rewrite Hz; apply Qle_refl).
  assert (H2 : Qle_bool q (inject_Z 1000000) = true)
    by (apply Qle_bool_iff; rewrite Hz; discriminate).
  simpl num_ltb. rewrite H1, H2. reflexivity.
Qed.

Lemma empty_length (l : list value) :
  strict_eq_num (get_opt (VArr l) "length") (Fin 0%Q)
  = match l with [] => true | _ => false end.
Proof. destruct l; reflexivity. Qed.

(** The sequence the quality check reads for an entry that may be absent. *)
Lemma spread_sequence (P : value -> Prop) (required : bool) (entry : option value) :
  sequenceOf P required entry ->
  exists records,
    or_else (match entry with Some x => x | None => VUndefined end) (VArr [])
    = VArr records
    /\ Forall P records.
Proof.
  destruct entry as [x|]; [|intros _; exists []; split; [reflexivity | constructor]].
  destruct x as [| |b|n|str|l|o]; simpl;
    try (intros (records & E & _); discriminate E);
    try (intros _; exists []; split; [reflexivity | constructor]).
  intros (records & E & H). injection E as <-. now exists l.
Qed.

Lemma checkDataQuality_valid (o : object) (li le lp : list value) :
  lookup "invoices" o = Some (VArr li) ->
  lookup "expenses" o = Some (VArr le) ->
  or_else (match lookup "payments" o with Some x => x | None => VUndefined end)
          (VArr []) = VArr lp ->
  Forall entered (li ++ le ++ lp) ->
  Validation.checkDataQuality (VObj o) = Ok (warningsFor li le lp).
Proof.
  intros Hinv Hexp Hpay Hall.
  unfold Validation.checkDataQuality. simpl get. rewrite Hinv, Hexp.
  cbv beta iota delta [bind]. simpl or_else at 1 2. simpl Validation.spread at 1 2.
  cbv beta iota.
  replace (match lookup "payments" o with
           | Some x => Ok x
           | None => Ok VUndefined
           end)
    with (Ok (A := value)
             (match lookup "payments" o with Some x => x | None => VUndefined end))
    by (destruct (lookup "payments" o); reflexivity).
  cbv beta iota. rewrite Hpay. simpl Validation.spread. cbv beta iota.
  rewrite (no_record_undated _ Hall). cbv beta iota.
  rewrite (suspicious_unusual _ Hall). cbv beta iota.
  rewrite !empty_length. simpl List.length at 1. simpl Nat.ltb at 1. cbv iota.
  unfold warningsFor, cashFlowWarning, expenseWarning, unusualWarning.
  destruct (filter unusual (li ++ le ++ lp)) as [|x odd]; destruct li; destruct le;
    reflexivity.
Qed.

End QualityFacts.

(** X10.  What [isValid] guarantees: the data is an object; [invoices] and
    [expenses] are sequences of objects with an amount that is a number not
    below 0 and a date that is a calendar date; [payments], when present,
    have a numeric amount, a calendar date and a type [inbound] or
    [outbound]; [balances], when present, have a string account, a numeric
    balance and a calendar date. *)
Theorem valid_data_is_well_formed :
  forall (data : value) (result : Validation.validationResult),
    Validation.validateData data = Ok result ->
    Validation.isValid result = true ->
    exists o,
      data = VObj o
      /\ Terms.sequenceOf Terms.billed true (lookup "invoices" o)
      /\ Terms.sequenceOf Terms.billed true (lookup "expenses" o)
      /\ Terms.sequenceOf Terms.paid false (lookup "payments" o)
      /\ Terms.sequenceOf Terms.balanced false (lookup "balances" o).
Proof.
  intros data result Hr Hvalid.
  apply ValidFacts.valid_data_structure.
  exact (TopLevelFacts.validateData_isValid data result Hr Hvalid).
Qed.

Lemma valid_data_is_well_formed_witness :
  let data :=
    VObj [("invoices", VArr [VObj [("amount", int 500); ("date", VStr "2024-02-29")]]);
          ("expenses", VArr []);
          ("payments", VArr [VObj [("amount", int (-20)); ("date", VStr "2024-03-01");
                                   ("type", VStr "outbound")]])] in
  exists o,
    data = VObj o
    /\ Terms.sequenceOf Terms.billed true (lookup "invoices" o)
    /\ Terms.sequenceOf Terms.billed true (lookup "expenses" o)
    /\ Terms.sequenceOf Terms.paid false (lookup "payments" o)
    /\ Terms.sequenceOf Terms.balanced false (lookup "balances" o).
Proof.
  intros data.
  apply (valid_data_is_well_formed data
           {| Validation.isValid := true;
              Validation.errors := [];
              Validation.warnings :=
                [Terms.expenseWarning; Terms.unusualWarning 1] |});
    reflexivity.
Defined.

(** X11.  On valid data the warnings are exactly: the cash-flow warning when
    [invoices] is empty, the expense warning when [expenses] is empty, and
    the count of the records with an unusual amount (below 0 or above
    1000000) when there is one, in this order.  The warning about missing
    dates does not occur, since the schema requires a date of every
    record. *)
Theorem quality_warnings_of_valid_data :
  forall (data : value) (result : Validation.validationResult),
    Validation.validateData data = Ok result ->
    Validation.isValid result = true ->
    exists li le lp,
      get data "invoices" = Ok (VArr li)
      /\ get data "expenses" = Ok (VArr le)
      /\ or_else (get_opt data "payments") (VArr []) = VArr lp
      /\ Validation.warnings result = Terms.warningsFor li le lp.
Proof.
  intros data result Hr Hvalid.
  pose proof (TopLevelFacts.validateData_isValid data result Hr Hvalid) as Hv.
  destruct (ValidFacts.valid_data_structure data Hv)
    as (o & -> & Hinv & Hexp & Hpay & _).
  assert (Hi : exists li, lookup "invoices" o = Some (VArr li)
                          /\ Forall Terms.billed li).
  { unfold Terms.sequenceOf in Hinv.
    destruct (lookup "invoices" o) as [x|]; [|discriminate Hinv].
    destruct x; try discriminate Hinv;
      destruct Hinv as (l & E & H); try discriminate E.
    injection E as <-. eauto. }
  assert (He : exists le, lookup "expenses" o = Some (VArr le)
                          /\ Forall Terms.billed le).
  { unfold Terms.sequenceOf in Hexp.
    destruct (lookup "expenses" o) as [x|]; [|discriminate Hexp].
    destruct x; try discriminate Hexp;
      destruct Hexp as (l & E & H); try discriminate E.
    injection E as <-. eauto. }
  destruct Hi as (li & Hli & Hbi). destruct He as (le & Hle & Hbe).
  destruct (QualityFacts.spread_sequence _ _ _ Hpay) as (lp & Hlp & Hbp).
  assert (Hall : Forall Terms.entered (li ++ le ++ lp)).
  { repeat (apply Forall_app; split);
      (eapply Forall_impl; [|eassumption]); intros r;
      first [apply QualityFacts.billed_entered | apply QualityFacts.paid_entered]. }
  pose proof (QualityFacts.checkDataQuality_valid o li le lp Hli Hle Hlp Hall) as Hq.
  exists li, le, lp. simpl get. rewrite Hli, Hle.
  split; [reflexivity|]. split; [reflexivity|]. split.
  - simpl get_opt. destruct (lookup "payments" o); exact Hlp.
  - unfold Validation.validateData in Hr. rewrite Hv in Hr.
    cbv beta iota zeta in Hr. rewrite Hq in Hr. simpl in Hr.
    injection Hr as <-. reflexivity.
Qed.

Lemma quality_warnings_of_valid_data_witness :
  let data :=
    VObj [("invoices", VArr [VObj [("amount", int 5000000); ("date", VStr "2024-02-29")]]);
          ("expenses", VArr []);
          ("payments", VArr [VObj [("amount", int (-20)); ("date", VStr "2024-03-01");
                                   ("type", VStr "outbound")]])] in
  exists li le lp,
    get data "invoices" = Ok (VArr li)
    /\ get data "expenses" = Ok (VArr le)
    /\ or_else (get_opt data "payments") (VArr []) = VArr lp
    /\ [Terms.expenseWarning; Terms.unusualWarning 2] = Terms.warningsFor li le lp.
Proof.
  intros data.
  apply (quality_warnings_of_valid_data data
           {| Validation.isValid := true;
              Validation.errors := [];
              Validation.warnings :=
                [Terms.expenseWarning; Terms.unusualWarning 2] |});
    reflexivity.
Defined.

(** ** The errors reported *)

Module ErrorFacts.
Import Js Ajv Terms.

Section SchemaInduction.

Variable P : schema -> Prop.

Hypothesis step :
  forall ks,
    Forall (fun k => match k with
                     | KItems sub => P sub
                     | KProperties properties =>
                         Forall (fun p => P (snd p)) properties
                     | _ => True
                     end) ks ->
    P (Schema ks).

Lemma schema_induction : forall s, P s.
Proof.
  fix IH 1. intros [ks]. apply step.
  induction ks as [|k ks IHks]; constructor; [|exact IHks].
  destruct k; try exact I.
  - apply IH.
  - induction properties as [|[name sub] ps IHps]; constructor;
      [apply IH | exact IHps].
Qed.

End SchemaInduction.

Lemma Forall_flat_map {A B : Type} (Q : B -> Prop) (f : A -> list B) (l : list A) :
  (forall x, In x l -> Forall Q (f x)) -> Forall Q (flat_map f l).
Proof.
  induction l as [|x l IH]; simpl; intros H; [constructor|].
  apply Forall_app. split; [apply H; now left|].
  apply IH. intros y Hy. apply H. now right.
Qed.

Lemma append_nonempty (s t : string) : t <> EmptyString -> (s ++ t)%string <> EmptyString.
Proof.
  intros Ht E. apply RegexFacts.append_is_empty in E. now destruct E.
Qed.

Section Validator.

Variable formats : string -> option (string -> bool).

Lemma typeError_bare (ipath spath : string) (ks : list (keyword schema)) (x : value) :
  Forall bare (typeError false ipath spath ks x).
Proof.
  unfold typeError. destruct (schemaTypes ks) as [[ts shown]|]; [|constructor].
  destruct (existsb _ ts); constructor; [|constructor].
  split; [reflexivity|]. simpl. now apply append_nonempty.
Qed.

Lemma validate_bare (s : schema) :
  forall ipath spath x, Forall bare (validate formats false s ipath spath x).
Proof.
  induction s as [ks IH] using schema_induction. intros ipath spath x.
  rewrite Forall_forall in IH.
  assert (Hdeferred : forall g,
            Forall bare
              (match deferredType ks with
               | Some t => if jsonType_eqb t g then typeError false ipath spath ks x
                           else []
               | None => []
               end)).
  { intros g. destruct (deferredType ks) as [t|]; [|constructor].
    destruct (jsonType_eqb t g); [apply typeError_bare | constructor]. }
  simpl validate. repeat (apply Forall_app; split).
  - destruct (deferredType ks); [constructor | apply typeError_bare].
  - apply Forall_flat_map. intros k _. destruct k; try constructor.
    simpl. destruct (existsb _ allowed); constructor; [|constructor].
    split; [reflexivity|]. simpl. now apply append_nonempty.
  - destruct x as [| |b|[q|]|str|l|o]; try apply Hdeferred.
    apply Forall_flat_map. intros k _. destruct k; try constructor.
    simpl. destruct (Qle_bool limit q); constructor; [|constructor].
    split; [reflexivity|]. simpl. now apply append_nonempty.
  - destruct x as [| |b|n|str|l|o]; try apply Hdeferred.
    apply Forall_flat_map. intros k _. destruct k; try constructor.
    simpl. destruct (formats name) as [accepts|]; [|constructor].
    destruct (accepts str); constructor; [|constructor].
    split; [reflexivity|]. simpl. now apply append_nonempty.
  - destruct x as [| |b|n|str|l|o]; try apply Hdeferred.
    apply Forall_flat_map. intros k Hk. specialize (IH k Hk).
    destruct k; try constructor.
    apply Forall_flat_map. intros ix _. apply IH.
  - destruct x as [| |b|n|str|l|o]; try apply Hdeferred.
    apply Forall_app. split.
    + apply Forall_flat_map. intros k _. destruct k; try constructor.
      simpl. apply Forall_map, Forall_forall. intros name _.
      split; [reflexivity|]. simpl. now apply append_nonempty.
    + apply Forall_flat_map. intros k Hk. specialize (IH k Hk).
      destruct k; try constructor.
      rewrite Forall_forall in IH.
      apply Forall_flat_map. intros p Hp.
      destruct (lookup (fst p) o) as [y|]; [|constructor].
      destruct y; try constructor; apply (IH p Hp).
Qed.

End Validator.

End ErrorFacts.

(** X12.  [isValid] is true exactly when the list of errors is empty, and
    every error reported has a field that is not empty and a value that is
    [undefined]. *)
Theorem reported_errors_carry_no_value :
  forall (data : value) (result : Validation.validationResult),
    Validation.validateData data = Ok result ->
    (Validation.isValid result = true <-> Validation.errors result = [])
    /\ forall e, In e (Validation.errors result) ->
         Validation.value e = VUndefined
         /\ Validation.field e <> EmptyString.
Proof.
  intros data result. unfold Validation.validateData.
  pose proof (ErrorFacts.validate_bare AjvFormats.formats
                Validation.financialDataSchema EmptyString "#" data) as Hbare.
  fold (Ajv.compile AjvFormats.formats false Validation.financialDataSchema data)
    in Hbare.
  fold (Validation.validateFinancialData data) in Hbare.
  destruct (Validation.validateFinancialData data) as [|e0 found].
  - destruct (Validation.checkDataQuality data); simpl; try discriminate.
    intros H; injection H as <-. simpl. split; [tauto | contradiction].
  - simpl. intros H; injection H as <-. simpl. split.
    + split; discriminate.
    + rewrite Forall_forall in Hbare.
      intros e [<-|He].
      * destruct (Hbare e0 (or_introl eq_refl)) as [Hd Hs].
        split; [exact Hd|]. unfold Validation.formatValidationError. simpl.
        destruct (String.eqb_spec (Ajv.instancePath e0) EmptyString); assumption.
      * apply in_map_iff in He. destruct He as (e1 & <- & He1).
        destruct (Hbare e1 (or_intror He1)) as [Hd Hs].
        split; [exact Hd|]. unfold Validation.formatValidationError. simpl.
        destruct (String.eqb_spec (Ajv.instancePath e1) EmptyString); assumption.
Qed.

Lemma reported_errors_carry_no_value_witness :
  exists result,
    Validation.validateData
      (VObj [("invoices", VArr [VObj [("amount", VStr "12")]])]) = Ok result
    /\ (Validation.isValid result = true <-> Validation.errors result = [])
    /\ forall e, In e (Validation.errors result) ->
         Validation.value e = VUndefined
         /\ Validation.field e <> EmptyString.
Proof.
  eexists. split; [reflexivity|].
  apply (reported_errors_carry_no_value
           (VObj [("invoices", VArr [VObj [("amount", VStr "12")]])])).
  reflexivity.
Defined.

(** ** Uploaded files *)

Module UploadFacts.
Import Js.

Lemma includesValue_spec (names : list string) (v : value) :
  Upload.includesValue names v = true <-> exists s, v = VStr s /\ In s names.
Proof.
  unfold Upload.includesValue. split.
  - destruct v as [| |b|n|s|l|o]; try discriminate.
    intros H. apply existsb_exists in H. destruct H as (x & Hx & E).
    apply String.eqb_eq in E. subst x. now exists s.
  - intros (s & -> & Hs). apply existsb_exists. exists s.
    split; [exact Hs | apply String.eqb_refl].
Qed.

Lemma validateFileUpload_object (o : object) (size : Q) :
  lookup "size" o = Some (VNum (Fin size)) ->
  Upload.validateFileUpload (VObj o)
  = Ok (let mimetype := match lookup "mimetype" o with
                        | Some x => x
                        | None => VUndefined
                        end in
        let errors1 :=
          if negb (Qle_bool size (inject_Z (10 * 1024 * 1024)))
          then ["File size exceeds 10MB limit"] else [] in
        let errors2 :=
          if negb (Upload.includesValue Upload.allowedTypes mimetype)
          then errors1 ++ [("Invalid file type. Allowed types: "
                            ++ Ajv.joinWith ", " Upload.allowedTypes)%string]
          else errors1 in
        {| Upload.isValid := (List.length errors2 =? 0);
           Upload.errors := errors2 |}).
Proof.
  intros Hsize. unfold Upload.validateFileUpload. simpl truthy. simpl negb.
  cbv iota. simpl get. rewrite Hsize. cbv beta iota delta [bind Upload.exceeds].
  simpl num_ltb.
  destruct (lookup "mimetype" o); reflexivity.
Qed.

End UploadFacts.

(** X13.  [validateFileUpload]: a falsy file gives the one error that no file
    is provided; a file object with a numeric size is valid exactly when the
    size is at most 10485760 and the mimetype is one of the three allowed
    types; [isValid] is true exactly when there is no error, and there are
    at most two. *)
Theorem validateFileUpload_accepts_small_files_of_an_allowed_type :
  (forall file,
      truthy file = false ->
      Upload.validateFileUpload file
      = Ok {| Upload.isValid := false; Upload.errors := ["No file provided"] |})
  /\ forall (o : object) (size : Q),
       lookup "size" o = Some (VNum (Fin size)) ->
       exists r,
         Upload.validateFileUpload (VObj o) = Ok r
         /\ (Upload.isValid r = true <->
             (size <= inject_Z 10485760)%Q
             /\ exists s, lookup "mimetype" o = Some (VStr s)
                          /\ In s Upload.allowedTypes)
         /\ (Upload.isValid r = true <-> Upload.errors r = [])
         /\ List.length (Upload.errors r) <= 2.
Proof.
  split.
  { intros file Hf. unfold Upload.validateFileUpload. now rewrite Hf. }
  intros o size Hsize.
  rewrite (UploadFacts.validateFileUpload_object o size Hsize).
  eexists. split; [reflexivity|]. cbv zeta.
  change (inject_Z (10 * 1024 * 1024)) with (inject_Z 10485760).
  set (mimetype := match lookup "mimetype" o with Some x => x | None => VUndefined end).
  assert (Htype : Upload.includesValue Upload.allowedTypes mimetype = true
                  <-> exists s, lookup "mimetype" o = Some (VStr s)
                                /\ In s Upload.allowedTypes).
  { rewrite UploadFacts.includesValue_spec. unfold mimetype.
    split; intros (s & E & Hs); exists s; (split; [|exact Hs]).
    - destruct (lookup "mimetype" o); [now subst | discriminate E].
    - now rewrite E. }
  rewrite <- Htype. rewrite <- Qle_bool_iff.
  destruct (Qle_bool size (inject_Z 10485760));
    destruct (Upload.includesValue Upload.allowedTypes mimetype); simpl;
    repeat split; try tauto; try discriminate; try lia;
    intros [H1 H2]; discriminate.
Qed.

Lemma validateFileUpload_accepts_small_files_of_an_allowed_type_witness :
  let o := [("originalname", VStr "ledger.csv"); ("mimetype", VStr "text/csv");
            ("size", int 2048)] in
  exists r,
    Upload.validateFileUpload (VObj o) = Ok r
    /\ (Upload.isValid r = true <->
        (inject_Z 2048 <= inject_Z 10485760)%Q
        /\ exists s, lookup "mimetype" o = Some (VStr s)
                     /\ In s Upload.allowedTypes)
    /\ (Upload.isValid r = true <-> Upload.errors r = [])
    /\ List.length (Upload.errors r) <= 2.
Proof.
  intros o.
  apply (proj2 validateFileUpload_accepts_small_files_of_an_allowed_type o
           (inject_Z 2048)).
  reflexivity.
Defined.

(** X14.  The [fileFilter] of the upload route and [validateFileUpload]
    agree: the filter accepts a file object or rejects it with its error,
    and a file object with a numeric size is valid for [validateFileUpload]
    exactly when the filter accepts it and its size is at most 10485760. *)
Theorem the_upload_filter_agrees_with_validateFileUpload :
  forall (o : object) (size : Q),
    lookup "size" o = Some (VNum (Fin size)) ->
    (Server.fileFilter (VObj o) = Ok true
     \/ Server.fileFilter (VObj o)
        = Throw (Error "Invalid file type. Only CSV and JSON files are allowed."))
    /\ ((Server.fileFilter (VObj o) = Ok true /\ (size <= inject_Z 10485760)%Q)
        <-> exists r, Upload.validateFileUpload (VObj o) = Ok r
                      /\ Upload.isValid r = true).
Proof.
  intros o size Hsize.
  rewrite (UploadFacts.validateFileUpload_object o size Hsize). cbv zeta.
  change (inject_Z (10 * 1024 * 1024)) with (inject_Z 10485760).
  unfold Server.fileFilter. simpl get.
  replace (match lookup "mimetype" o with
           | Some x => Ok x
           | None => Ok VUndefined
           end)
    with (Ok (A := value)
             (match lookup "mimetype" o with Some x => x | None => VUndefined end))
    by (destruct (lookup "mimetype" o); reflexivity).
  cbv beta iota delta [bind].
  change Server.allowedTypes with Upload.allowedTypes.
  rewrite <- Qle_bool_iff.
  destruct (Upload.includesValue Upload.allowedTypes _);
    destruct (Qle_bool size (inject_Z 10485760)); simpl; split; auto; split.
  - intros _. eexists. split; reflexivity.
  - auto.
  - intros [_ H]. discriminate H.
  - intros (r & E & H). injection E as <-. discriminate H.
  - intros [H _]. discriminate H.
  - intros (r & E & H). injection E as <-. discriminate H.
  - intros [H _]. discriminate H.
  - intros (r & E & H). injection E as <-. discriminate H.
Qed.

Lemma the_upload_filter_agrees_with_validateFileUpload_witness :
  let o := [("mimetype", VStr "image/png"); ("size", int 2048)] in
  (Server.fileFilter (VObj o) = Ok true
   \/ Server.fileFilter (VObj o)
      = Throw (Error "Invalid file type. Only CSV and JSON files are allowed."))
  /\ ((Server.fileFilter (VObj o) = Ok true
       /\ (inject_Z 2048 <= inject_Z 10485760)%Q)
      <-> exists r, Upload.validateFileUpload (VObj o) = Ok r
                    /\ Upload.isValid r = true).
Proof.
  intros o.
  apply (the_upload_filter_agrees_with_validateFileUpload o (inject_Z 2048)).
  reflexivity.
Defined.

(* ================================================================== *)
(** * Properties of the request handlers                              *)
(* ================================================================== *)

Module ControllerFacts.
Import Js.

Lemma validateData_returns (data : value) :
  exists result,
    Validation.validateData data = Ok result
    /\ (Validation.isValid result = true ->
        Validation.validateFinancialData data = [])
    /\ (Validation.isValid result = false ->
        Validation.errors result
        = map Validation.formatValidationError
              (Validation.validateFinancialData data)).
Proof.
  destruct (Validation.validateFinancialData data) as [|e found] eqn:Hv.
  - destruct (ValidationFacts.validateData_valid data Hv) as (ws & Hr & _).
    eexists. split; [exact Hr|]. split; [reflexivity | discriminate].
  - eexists. split.
    + apply ValidationFacts.validateData_invalid. rewrite Hv. discriminate.
    + rewrite Hv. split; [discriminate | reflexivity].
Qed.

Section Handlers.

Variable JSON_parse : string -> outcome value.
Variable csv_parse : value -> outcome (list value).
Variable analyze : value -> outcome value.
Variable now : string.
Variable later : string.
Variable bufferText : value -> outcome string.

(** What follows the parsing, in both handlers. *)
Lemma checked_then_analysed (parsedData : value) (h : js_error -> outcome Controller.response)
      (finish : value -> outcome Controller.response) (r : Controller.response) :
  (forall analysis, exists body, finish analysis = Ok {| Controller.status := 200;
                                                         Controller.body := body |}) ->
  (forall e, exists s body, h e = Ok {| Controller.status := s; Controller.body := body |}
                            /\ s <> 200) ->
  try_catch
    (bind (Validation.validateData parsedData)
       (fun validation =>
          if negb (Validation.isValid validation) then
            Controller.respond 400
              [("error", VStr "Data validation failed");
               ("details",
                VArr (map Controller.errorValue (Validation.errors validation)))]
          else bind (analyze parsedData) finish)) h = Ok r ->
  Controller.status r = 200 ->
  Validation.validateFinancialData parsedData = []
  /\ exists analysis, analyze parsedData = Ok analysis /\ finish analysis = Ok r.
Proof.
  intros Hfinish Hh.
  destruct (validateData_returns parsedData) as (v & Hv & Hvalid & _).
  rewrite Hv. cbv beta iota delta [bind].
  destruct (Validation.isValid v) eqn:Hv'; simpl negb; cbv iota.
  - destruct (analyze parsedData) as [analysis|e|] eqn:Ha; simpl.
    + destruct (Hfinish analysis) as (body & Hf). rewrite Hf. simpl.
      intros Hr _. split; [now apply Hvalid|]. exists analysis.
      split; [reflexivity | congruence].
    + destruct (Hh e) as (s & body & -> & Hs).
      intros H; injection H as <-. simpl. intros Hs'. contradiction.
    + discriminate.
  - simpl. intros H; injection H as <-. discriminate.
Qed.

End Handlers.

End ControllerFacts.

Module ResponseFacts.
Import Js.

(** What follows the parsing, case by case. *)
Lemma checked_cases (analyze : value -> outcome value) (parsedData : value)
      (h : js_error -> outcome Controller.response)
      (finish : value -> outcome Controller.response) :
  try_catch
    (bind (Validation.validateData parsedData)
       (fun validation =>
          if negb (Validation.isValid validation) then
            Controller.respond 400
              [("error", VStr "Data validation failed");
               ("details",
                VArr (map Controller.errorValue (Validation.errors validation)))]
          else bind (analyze parsedData) finish)) h
  = match Validation.validateFinancialData parsedData with
    | [] =>
        match analyze parsedData with
        | Ok analysis => try_catch (finish analysis) h
        | Throw e => h e
        | Unmodelled => Unmodelled
        end
    | found =>
        Controller.respond 400
          [("error", VStr "Data validation failed");
           ("details",
            VArr (map Controller.errorValue
                    (map Validation.formatValidationError found)))]
    end.
Proof.
  destruct (Validation.validateFinancialData parsedData) as [|e found] eqn:Hv.
  - destruct (ValidationFacts.validateData_valid parsedData Hv) as (ws & Hr & _).
    rewrite Hr. cbv beta iota delta [bind]. simpl negb. cbv iota.
    now destruct (analyze parsedData).
  - rewrite ValidationFacts.validateData_invalid by (rewrite Hv; discriminate).
    rewrite Hv. reflexivity.
Qed.

End ResponseFacts.

Module FileFacts.
Import Js.

Lemma get_truthy (v : value) (k : string) :
  truthy v = true -> get v k = Ok (get_opt v k).
Proof.
  destruct v as [| |b|n|s|l|o]; try discriminate; intros _; simpl.
  - reflexivity.
  - reflexivity.
  - now destruct (String.eqb k "length").
  - now destruct (String.eqb k "length").
  - now destruct (lookup k o).
Qed.

End FileFacts.

(** X15.  [analyzeFinancialData] answers 200 exactly when the body is not
    [null] or [undefined], its data is truthy and is parsed and normalised
    according to the format, the result is structurally valid and the
    analysis succeeds; the response then carries that normalised data and
    the analysis.  So the analysis is only run on validated data. *)
Theorem analysis_follows_validation :
  forall (JSON_parse : string -> outcome value)
         (csv_parse : value -> outcome (list value))
         (analyze : value -> outcome value) (now later : string)
         (reqBody : value) (r : Controller.response),
    (Controller.analyzeFinancialData JSON_parse csv_parse analyze now later reqBody
     = Ok r
     /\ Controller.status r = 200)
    <-> exists parsedData analysis,
          isNullish reqBody = false
          /\ truthy (get_opt reqBody "data") = true
          /\ Controller.parseRequest JSON_parse csv_parse now
               (get_opt reqBody "data") (Terms.formatOf reqBody) = Ok parsedData
          /\ Validation.validateFinancialData parsedData = []
          /\ analyze parsedData = Ok analysis
          /\ r = {| Controller.status := 200;
                    Controller.body :=
                      VObj [("success", VBool true); ("data", parsedData);
                            ("analysis", analysis); ("timestamp", VStr later)] |}.
Proof.
  intros JSON_parse csv_parse analyze now later reqBody r.
  unfold Controller.analyzeFinancialData, Terms.formatOf. split.
  - intros [H Hs].
    destruct (isNullish reqBody) eqn:Hn;
      [simpl in H; injection H as <-; discriminate Hs|].
    destruct (truthy (get_opt reqBody "data")) eqn:HD; simpl negb in H;
      cbv iota zeta in H;
      [|simpl in H; injection H as <-; discriminate Hs].
    match type of H with
    | context [Controller.parseRequest _ _ _ ?D ?F] =>
        destruct (Controller.parseRequest JSON_parse csv_parse now D F)
          as [parsedData|e|] eqn:Hp;
        [ | simpl in H; injection H as <-; discriminate Hs | discriminate H ]
    end.
    exists parsedData.
    apply (ControllerFacts.checked_then_analysed analyze) in H;
      [ destruct H as (Hv & analysis & Ha & Hr); exists analysis;
        injection Hr as <-; repeat split; assumption
      | intros analysis; eexists; reflexivity
      | intros e; do 2 eexists; split; [reflexivity | discriminate]
      | exact Hs ].
  - intros (parsedData & analysis & Hn & Ht & Hp & Hv & Ha & ->).
    split; [|reflexivity].
    rewrite Hn, Ht. simpl negb. cbv iota zeta. rewrite Hp.
    rewrite (ResponseFacts.checked_cases analyze), Hv, Ha. reflexivity.
Qed.

Lemma analysis_follows_validation_witness :
  let data := VObj [("invoices", VArr []); ("expenses", VArr [])] in
  let analyze := fun _ : value => Ok (VObj [("summary", VStr "nothing to report")]) in
  let csv_parse := fun _ : value => Ok (@nil value) in
  Controller.analyzeFinancialData Json.parse csv_parse analyze
    "2024-03-01T09:30:00.000Z" "2024-03-01T09:30:02.000Z"
    (VObj [("data", data)])
  = Ok {| Controller.status := 200;
          Controller.body :=
            VObj [("success", VBool true);
                  ("data", Notions.emptyStructure "2024-03-01T09:30:00.000Z");
                  ("analysis", VObj [("summary", VStr "nothing to report")]);
                  ("timestamp", VStr "2024-03-01T09:30:02.000Z")] |}
  /\ Controller.status
       {| Controller.status := 200;
          Controller.body :=
            VObj [("success", VBool true);
                  ("data", Notions.emptyStructure "2024-03-01T09:30:00.000Z");
                  ("analysis", VObj [("summary", VStr "nothing to report")]);
                  ("timestamp", VStr "2024-03-01T09:30:02.000Z")] |} = 200.
Proof.
  intros data analyze csv_parse.
  apply (proj2 (analysis_follows_validation Json.parse csv_parse analyze
                  "2024-03-01T09:30:00.000Z" "2024-03-01T09:30:02.000Z"
                  (VObj [("data", data)]) _)).
  exists (Notions.emptyStructure "2024-03-01T09:30:00.000Z"),
         (VObj [("summary", VStr "nothing to report")]).
  repeat split.
Defined.



(** X17.  [analyzeFile] answers 200 only for a file whose content is parsed
    and normalised, is structurally valid and is analysed successfully; the
    response carries the original name of the file, the normalised data and
    the analysis. *)
Theorem file_analysis_follows_validation :
  forall (JSON_parse : string -> outcome value)
         (csv_parse : value -> outcome (list value))
         (analyze : value -> outcome value) (now later : string)
         (bufferText : value -> outcome string)
         (file : value) (r : Controller.response),
    Controller.analyzeFile JSON_parse csv_parse analyze now later bufferText file
    = Ok r ->
    Controller.status r = 200 ->
    exists fileContent parsedData analysis,
      truthy file = true
      /\ bufferText file = Ok fileContent
      /\ Controller.parseFile JSON_parse csv_parse now file fileContent
         = Ok parsedData
      /\ Validation.validateFinancialData parsedData = []
      /\ analyze parsedData = Ok analysis
      /\ Controller.body r
         = VObj [("success", VBool true);
                 ("filename", get_opt file "originalname");
                 ("data", parsedData);
                 ("analysis", analysis);
                 ("timestamp", VStr later)].
Proof.
  intros JSON_parse csv_parse analyze now later bufferText file r H Hs.
  unfold Controller.analyzeFile in H.
  destruct (truthy file) eqn:Hf; simpl negb in H; cbv iota in H;
    [|simpl in H; injection H as <-; discriminate Hs].
  destruct (bufferText file) as [fileContent|e|] eqn:Hb;
    [ | simpl in H; injection H as <-; discriminate Hs | discriminate H ].
  cbv beta iota delta [bind] in H.
  destruct (Controller.parseFile JSON_parse csv_parse now file fileContent)
    as [parsedData|e|] eqn:Hp;
    [ | simpl in H; injection H as <-; discriminate Hs | discriminate H ].
  exists fileContent, parsedData.
  apply (ControllerFacts.checked_then_analysed analyze) in H.
  - destruct H as (Hv & analysis & Ha & Hr). exists analysis.
    rewrite (FileFacts.get_truthy file "originalname" Hf) in Hr.
    injection Hr as <-. repeat split; assumption.
  - intros analysis.
    rewrite (FileFacts.get_truthy file "originalname" Hf).
    eexists. reflexivity.
  - intros e. do 2 eexists. split; [reflexivity | discriminate].
  - exact Hs.
Qed.

Lemma file_analysis_follows_validation_witness :
  let analyze := fun _ : value => Ok (VObj [("summary", VStr "nothing to report")]) in
  let csv_parse := fun _ : value => Ok (@nil value) in
  let bufferText := fun _ : value => Ok "[]" in
  let file := VObj [("originalname", VStr "ledger.json");
                    ("mimetype", VStr "application/json"); ("size", int 2)] in
  exists r,
    Controller.analyzeFile Json.parse csv_parse analyze
      "2024-03-01T09:30:00.000Z" "2024-03-01T09:30:02.000Z" bufferText file = Ok r
    /\ exists fileContent parsedData analysis,
         truthy file = true
         /\ bufferText file = Ok fileContent
         /\ Controller.parseFile Json.parse csv_parse "2024-03-01T09:30:00.000Z"
              file fileContent = Ok parsedData
         /\ Validation.validateFinancialData parsedData = []
         /\ analyze parsedData = Ok analysis
         /\ Controller.body r
            = VObj [("success", VBool true);
                    ("filename", get_opt file "originalname");
                    ("data", parsedData);
                    ("analysis", analysis);
                    ("timestamp", VStr "2024-03-01T09:30:02.000Z")].
Proof.
  intros analyze csv_parse bufferText file. eexists. split; [reflexivity|].
  apply (file_analysis_follows_validation Json.parse csv_parse analyze
           "2024-03-01T09:30:00.000Z" "2024-03-01T09:30:02.000Z" bufferText file);
    reflexivity.
Defined.

(** ** Normalising data that is valid *)

Module PipelineFacts.
Import Js Ajv Notions Terms.

Abbreviation valid s ipath spath x :=
  (validate AjvFormats.formats false s ipath spath x = []).

Lemma validate_object_intro (formats : string -> option (string -> bool))
      (ks : list (keyword schema)) (ipath spath : string) (o : object) :
  typeError false ipath spath ks (VObj o) = [] ->
  (forall allowed, ~ In (KEnum allowed) ks) ->
  (forall names name, In (KRequired names) ks -> In name names ->
                      missing o name = false) ->
  (forall properties p x,
      In (KProperties properties) ks -> In p properties ->
      lookup (fst p) o = Some x -> x <> VUndefined ->
      validate formats false (snd p) (ipath ++ "/" ++ fst p)%string
               (spath ++ "/properties/" ++ fst p)%string x = []) ->
  validate formats false (Schema ks) ipath spath (VObj o) = [].
Proof.
  intros Ht Henum Hreq Hprops. simpl validate. rewrite Ht.
  assert (E1 : match deferredType ks with
               | Some _ => [] | None => @nil errorObject end = [])
    by now destruct (deferredType ks).
  assert (E2 : forall g,
            match deferredType ks with
            | Some t => if jsonType_eqb t g then [] else []
            | None => @nil errorObject
            end = []).
  { intros g. destruct (deferredType ks) as [t|]; [|reflexivity].
    now destruct (jsonType_eqb t g). }
  rewrite E1, !E2. simpl app.
  assert (E3 : flat_map (fun k => checkEnum false ipath spath k (VObj o)) ks = []).
  { apply AjvFacts.flat_map_nil, Forall_forall. intros k Hk.
    destruct k; try reflexivity. now apply Henum in Hk. }
  rewrite E3. simpl app.
  assert (E4 : flat_map (fun k => checkRequired false ipath spath k o) ks = []).
  { apply AjvFacts.flat_map_nil, Forall_forall. intros k Hk.
    destruct k; try reflexivity. simpl.
    replace (filter (missing o) names) with (@nil string); [reflexivity|].
    symmetry.
    assert (Hm : forall name, In name names -> missing o name = false)
      by (intros name Hn; exact (Hreq names name Hk Hn)).
    clear - Hm.
    induction names as [|name names IH]; simpl; [reflexivity|].
    rewrite (Hm name) by now left. apply IH.
    intros x Hx. apply Hm. now right. }
  rewrite E4. simpl app.
  apply AjvFacts.flat_map_nil, Forall_forall. intros k Hk.
  destruct k; try reflexivity.
  apply AjvFacts.flat_map_nil, Forall_forall. intros p Hp.
  destruct (lookup (fst p) o) as [x|] eqn:Hx; [|reflexivity].
  assert (Hx' : x = VUndefined \/ x <> VUndefined)
    by (destruct x; auto; right; discriminate).
  destruct Hx' as [->|Hdef]; [reflexivity|].
  pose proof (Hprops properties p x Hk Hp Hx Hdef) as Hv.
  destruct x; try exact Hv. contradiction.
Qed.

Lemma get_object (o : object) (k : string) :
  get (VObj o) k = Ok (match lookup k o with Some x => x | None => VUndefined end).
Proof. simpl. now destruct (lookup k o). Qed.

Lemma required_sequence (P : value -> Prop) (entry : option value) :
  sequenceOf P true entry -> exists records, entry = Some (VArr records).
Proof.
  unfold sequenceOf. destruct entry as [x|]; [|discriminate].
  destruct x; try discriminate; intros (l & E & _); try discriminate E.
  injection E as <-. eauto.
Qed.

Lemma or_else_sequence (entry : option value) (records : list value) :
  or_else (match entry with Some x => x | None => VUndefined end) (VArr [])
  = VArr records ->
  (records = [] \/ (entry = Some (VArr records))).
Proof.
  destruct entry as [x|]; [|intros H; injection H as <-; now left].
  unfold or_else. destruct (truthy x) eqn:Ht.
  - intros ->. now right.
  - intros H; injection H as <-. now left.
Qed.

Lemma nonnegative_count (n : nat) : Qle_bool 0 (inject_Z (Z.of_nat n)) = true.
Proof. apply Qle_bool_iff. unfold Qle. simpl. lia. Qed.

Lemma metadata_valid (ipath spath source now : string) (n : nat) :
  AjvFormats.date_time now = true ->
  valid (Schema
           [KType TObject;
            KProperties
              [("source", Validation.aString);
               ("timestamp", Schema [KType TString; KFormat "date-time"]);
               ("recordCount", Schema [KType TNumber; KMinimum 0%Q])]])
        ipath spath
        (VObj [("source", VStr source); ("timestamp", VStr now);
               ("recordCount", int (Z.of_nat n))]).
Proof.
  intros Hnow. apply validate_object_intro.
  - reflexivity.
  - intros allowed H. simpl in H.
    repeat (destruct H as [H|H]; [discriminate H|]). contradiction.
  - intros names name H. simpl in H.
    repeat (destruct H as [H|H]; [discriminate H|]). contradiction.
  - intros properties p x H. simpl in H.
    repeat (destruct H as [H|H]; [first [discriminate H | injection H as <-]|]);
      [|contradiction].
    intros Hp. simpl in Hp.
    destruct Hp as [<-|[<-|[<-|[]]]]; simpl fst; simpl snd; simpl lookup;
      intros E _; injection E as <-.
    + reflexivity.
    + simpl. unfold AjvFormats.formats. simpl. now rewrite Hnow.
    + unfold int. simpl. now rewrite nonnegative_count.
Qed.

End PipelineFacts.

Module ValidityFacts.
Import Js Ajv Notions Terms PipelineFacts.

Lemma optional_valid (o : object) (name : string) (sub : schema)
      (records : list value) :
  Validation.validateFinancialData (VObj o) = [] ->
  In (name, sub)
     (match Validation.financialDataSchema with
      | Schema (_ :: KProperties properties :: _) => properties
      | _ => []
      end) ->
  or_else (match lookup name o with Some x => x | None => VUndefined end) (VArr [])
  = VArr records ->
  valid sub ("/" ++ name)%string ("#/properties/" ++ name)%string (VArr []) ->
  valid sub ("/" ++ name)%string ("#/properties/" ++ name)%string (VArr records).
Proof.
  intros Hv Hp Hor Hnil.
  destruct (or_else_sequence _ _ Hor) as [->|Hx]; [exact Hnil|].
  apply (ValidFacts.top_property o name sub (VArr records) Hv Hp Hx). discriminate.
Qed.

Lemma count_valid (o : object) (li le lp lb : list value) :
  lookup "invoices" o = Some (VArr li) ->
  lookup "expenses" o = Some (VArr le) ->
  or_else (match lookup "payments" o with Some x => x | None => VUndefined end)
          (VArr []) = VArr lp ->
  or_else (match lookup "balances" o with Some x => x | None => VUndefined end)
          (VArr []) = VArr lb ->
  Parser.getTotalRecordCount (VObj o)
  = Ok (int (Z.of_nat (List.length li + List.length le
                       + List.length lp + List.length lb))).
Proof.
  intros Hli Hle Hlp Hlb.
  unfold Parser.getTotalRecordCount, Parser.lengthOrZero.
  rewrite !get_object. cbv beta iota delta [bind].
  rewrite Hli, Hle.
  rewrite !(NormalizeFacts.length_of_entry (VArr _) _ eq_refl).
  rewrite (NormalizeFacts.length_of_entry _ lp Hlp).
  rewrite (NormalizeFacts.length_of_entry _ lb Hlb).
  rewrite NormalizeFacts.add_int. cbv beta iota delta [bind].
  rewrite NormalizeFacts.add_int. cbv beta iota delta [bind].
  rewrite NormalizeFacts.add_int. do 2 f_equal. lia.
Qed.

Lemma source_text (o : object) :
  sourceIsText o ->
  exists t,
    or_else (match lookup "source" o with Some x => x | None => VUndefined end)
            (VStr "manual_input") = VStr t.
Proof.
  unfold sourceIsText, or_else.
  destruct (lookup "source" o) as [x|]; [|intros _; now exists "manual_input"].
  destruct x as [| |b|n|s|l|e]; intros H; try rewrite H; eauto.
  destruct (truthy (VStr s)); eauto.
Qed.

End ValidityFacts.

(** X18.  Normalising structurally valid data gives structurally valid data,
    provided the top-level [source] is absent, falsy or text and the
    timestamp is a date-time. *)
Theorem normalizing_valid_data_keeps_it_valid :
  forall (JSON_parse : string -> outcome value) (now : string) (o : object),
    Validation.validateFinancialData (VObj o) = [] ->
    Terms.sourceIsText o ->
    AjvFormats.date_time now = true ->
    exists out,
      Parser.normalizeFinancialData JSON_parse now (VObj o) = Ok out
      /\ Validation.validateFinancialData out = [].
Proof.
  intros JSON_parse now o Hv Hsrc Hnow.
  destruct (ValidFacts.valid_data_structure (VObj o) Hv)
    as (o' & E & Hinv & Hexp & Hpay & Hbal).
  injection E as <-.
  destruct (PipelineFacts.required_sequence _ _ Hinv) as (li & Hli).
  destruct (PipelineFacts.required_sequence _ _ Hexp) as (le & Hle).
  destruct (QualityFacts.spread_sequence _ _ _ Hpay) as (lp & Hlp & _).
  destruct (QualityFacts.spread_sequence _ _ _ Hbal) as (lb & Hlb & _).
  destruct (ValidityFacts.source_text o Hsrc) as (t & Ht).
  pose proof (ValidityFacts.count_valid o li le lp lb Hli Hle Hlp Hlb) as Hc.
  exists (Terms.normalized (VArr li) (VArr le) (VArr lp) (VArr lb) (VStr t) now
            (int (Z.of_nat (List.length li + List.length le
                            + List.length lp + List.length lb)))).
  split.
  { unfold Parser.normalizeFinancialData. cbv beta iota delta [bind].
    rewrite Hc. rewrite !PipelineFacts.get_object. cbv beta iota.
    rewrite Hlp, Hlb, Ht, Hli, Hle. reflexivity. }
  unfold Validation.validateFinancialData, Ajv.compile,
    Validation.financialDataSchema, Terms.normalized.
  apply PipelineFacts.validate_object_intro.
  - reflexivity.
  - intros allowed H. simpl in H.
    repeat (destruct H as [H|H]; [discriminate H|]). contradiction.
  - intros names name H. simpl in H.
    repeat (destruct H as [H|H]; [first [discriminate H | injection H as <-]|]);
      [|contradiction].
    intros Hn. simpl in Hn. destruct Hn as [<-|[<-|[]]]; reflexivity.
  - intros properties p x H. simpl in H.
    repeat (destruct H as [H|H]; [first [discriminate H | injection H as <-]|]);
      [|contradiction].
    intros Hp. simpl in Hp.
    destruct Hp as [<-|[<-|[<-|[<-|[<-|[]]]]]]; simpl fst; simpl snd; simpl lookup;
      intros E _; injection E as <-.
    + apply (ValidFacts.top_property o "invoices" _ _ Hv); [solve_In | exact Hli |].
      discriminate.
    + apply (ValidFacts.top_property o "expenses" _ _ Hv); [solve_In | exact Hle |].
      discriminate.
    + apply (ValidityFacts.optional_valid o "payments" _ _ Hv);
        [solve_In | exact Hlp | reflexivity].
    + apply (ValidityFacts.optional_valid o "balances" _ _ Hv);
        [solve_In | exact Hlb | reflexivity].
    + now apply PipelineFacts.metadata_valid.
Qed.

Lemma normalizing_valid_data_keeps_it_valid_witness :
  exists out,
    Parser.normalizeFinancialData Json.parse "2024-03-01T09:30:00.000Z"
      (VObj [("invoices",
              VArr [VObj [("amount", int 500); ("date", VStr "2024-02-29")]]);
             ("expenses", VArr []);
             ("source", VStr "ledger")]) = Ok out
    /\ Validation.validateFinancialData out = [].
Proof.
  apply normalizing_valid_data_keeps_it_valid; reflexivity.
Defined.

(* ================================================================== *)
(** * Requests from end to end                                        *)
(* ================================================================== *)

Module RequestFacts.
Import Js Notions Terms.

Section Handlers.

Variable JSON_parse : string -> outcome value.
Variable csv_parse : value -> outcome (list value).
Variable analyze : value -> outcome value.
Variable now : string.
Variable later : string.

Lemma get_opt_object (o : object) (k : string) :
  get_opt (VObj o) k = match lookup k o with Some x => x | None => VUndefined end.
Proof. simpl. now destruct (lookup k o). Qed.

(** The record count of an object fails in a conversion only. *)
Lemma count_of_object (o : object) (e : js_error) :
  Parser.getTotalRecordCount (VObj o) = Throw e -> e = noPrimitive.
Proof.
  unfold Parser.getTotalRecordCount, Parser.lengthOrZero. intros H.
  rewrite !PipelineFacts.get_object in H. cbv beta iota delta [bind] in H.
  repeat match type of H with
         | match ?m with _ => _ end = _ =>
             let E := fresh in
             destruct m eqn:E;
             [ | injection H as <-; now apply NormalizeFacts.add_throws in E
               | discriminate H ]
         end.
  now apply NormalizeFacts.add_throws in H.
Qed.

Lemma add_unprintable (a b : value) :
  printable a && printable b = false -> add a b = Throw noPrimitive.
Proof. intros H. unfold add. now rewrite H. Qed.

Lemma unprintable_truthy (v : value) : printable v = false -> truthy v = true.
Proof. destruct v; try discriminate; reflexivity. Qed.

(** A length that cannot be converted is an operand of a sum. *)
Lemma count_of_unprintable (o : object) (k : string) (count : value) :
  In k categoryNames ->
  printable (get_opt (get_opt (VObj o) k) "length") = false ->
  Parser.getTotalRecordCount (VObj o) <> Ok count.
Proof.
  intros Hk Hp H.
  assert (Hl : Parser.lengthOrZero (VObj o) k
               = Ok (get_opt (get_opt (VObj o) k) "length")).
  { unfold Parser.lengthOrZero. rewrite PipelineFacts.get_object.
    cbv beta iota delta [bind]. rewrite <- get_opt_object.
    unfold or_else. now rewrite (unprintable_truthy _ Hp). }
  unfold Parser.getTotalRecordCount in H.
  simpl in Hk. destruct Hk as [<-|[<-|[<-|[<-|[]]]]]; rewrite Hl in H;
    cbv beta iota delta [bind] in H;
    repeat match type of H with
           | match Parser.lengthOrZero ?d ?k with _ => _ end = _ =>
               destruct (Parser.lengthOrZero d k); try discriminate H
           | context [add ?a ?b] =>
               first [ rewrite (add_unprintable a b) in H
                         by (rewrite Hp; first [reflexivity | apply andb_false_r]);
                       discriminate H
                     | destruct (add a b); try discriminate H ]
           end.
Qed.


Lemma normalize_object (o : object) :
  Parser.normalizeFinancialData JSON_parse now (VObj o)
  = match Parser.getTotalRecordCount (VObj o) with
    | Ok count =>
        Ok (normalized
              (or_else (get_opt (VObj o) "invoices") (VArr []))
              (or_else (get_opt (VObj o) "expenses") (VArr []))
              (or_else (get_opt (VObj o) "payments") (VArr []))
              (or_else (get_opt (VObj o) "balances") (VArr []))
              (or_else (get_opt (VObj o) "source") (VStr "manual_input"))
              now count)
    | Throw e => Throw (Error ("Data normalization failed: " ++ message e))
    | Unmodelled => Unmodelled
    end.
Proof.
  unfold Parser.normalizeFinancialData. cbv beta iota delta [bind].
  rewrite !PipelineFacts.get_object. cbv beta iota.
  rewrite !get_opt_object.
  destruct (Parser.getTotalRecordCount (VObj o)); reflexivity.
Qed.

End Handlers.

End RequestFacts.

Module CsvFacts.
Import Js Notions Terms.

Lemma flat_classified (JSON_parse : string -> outcome value) (now : string)
      (records : list value) (out : value) :
  Parser.normalizeFinancialData JSON_parse now (VArr records) = Ok out ->
  Forall (fun r => exists k, Parser.detectRecordType r = Ok k) records.
Proof.
  intros Hok. apply NormalizeFacts.normalize_ok in Hok.
  destruct Hok as (data0 & data' & _ & _ & _ & _ & _ & _ & Hreads & Hcat & _).
  simpl in Hreads. subst data0.
  unfold Parser.categorizeFlatData in Hcat.
  apply NormalizeFacts.bind_ok in Hcat. destruct Hcat as (o & Hcat & _).
  exact (FlatFacts.categorized_classified _ _ _ Hcat).
Qed.

End CsvFacts.

(** ** Data that is not cleaned *)

Module RejectFacts.
Import Js Notions Terms.

Lemma entered_sequence (out : value) (k : string) (records : list value) :
  Validation.validateFinancialData out = [] ->
  In k ["invoices"; "expenses"; "payments"] ->
  get out k = Ok (VArr records) ->
  Forall entered records.
Proof.
  intros Hv Hk Hget.
  destruct (ValidFacts.valid_data_structure out Hv)
    as (o & -> & Hinv & Hexp & Hpay & _).
  simpl in Hget.
  assert (Hlookup : lookup k o = Some (VArr records))
    by (destruct (lookup k o); [congruence | discriminate Hget]).
  assert (Hseq : forall (P : value -> Prop) required,
            sequenceOf P required (lookup k o) -> Forall P records).
  { intros P required Hs. unfold sequenceOf in Hs. rewrite Hlookup in Hs.
    destruct Hs as (l & E & Hl). injection E as <-. exact Hl. }
  simpl in Hk. destruct Hk as [<-|[<-|[<-|[]]]].
  - eapply Forall_impl; [|exact (Hseq _ _ Hinv)]. apply QualityFacts.billed_entered.
  - eapply Forall_impl; [|exact (Hseq _ _ Hexp)]. apply QualityFacts.billed_entered.
  - eapply Forall_impl; [|exact (Hseq _ _ Hpay)]. apply QualityFacts.paid_entered.
Qed.

End RejectFacts.

(** X20.  The handler does not clean: when a record of [invoices],
    [expenses] or [payments] in the data of a request carries its amount as
    a string, be it a numeral, the request is answered 400.  Where the
    record count of the data is computed, the error is that of a failed
    validation; where computing it throws, the error is that of a failed
    parsing, with the message of the normaliser. *)
Theorem amounts_given_as_text_are_rejected :
  forall (JSON_parse : string -> outcome value)
         (csv_parse : value -> outcome (list value))
         (analyze : value -> outcome value) (now later : string)
         (reqBody : value) (o record : object) (k s : string)
         (records : list value),
    get_opt reqBody "data" = VObj o ->
    Controller.strictEquals (Terms.formatOf reqBody) "csv" = false ->
    In k ["invoices"; "expenses"; "payments"] ->
    lookup k o = Some (VArr records) ->
    In (VObj record) records ->
    lookup "amount" record = Some (VStr s) ->
    (forall count,
        Parser.getTotalRecordCount (VObj o) = Ok count ->
        exists r,
          Controller.analyzeFinancialData JSON_parse csv_parse analyze now later
            reqBody = Ok r
          /\ Controller.status r = 400
          /\ get (Controller.body r) "error" = Ok (VStr "Data validation failed"))
    /\ (forall e,
           Parser.getTotalRecordCount (VObj o) = Throw e ->
           Controller.analyzeFinancialData JSON_parse csv_parse analyze now later
             reqBody
           = Ok {| Controller.status := 400;
                   Controller.body :=
                     VObj [("error", VStr "Data parsing failed");
                           ("message",
                            VStr ("Data normalization failed: " ++ message e))] |})
    /\ (forall r,
           Controller.analyzeFinancialData JSON_parse csv_parse analyze now later
             reqBody = Ok r ->
           Controller.status r = 400).
Proof.
  intros JSON_parse csv_parse analyze now later reqBody o record k s records
         Hdata Hformat Hk Hrecords Hin Hamount.
  assert (Hn : isNullish reqBody = false)
    by (destruct reqBody; try reflexivity; discriminate Hdata).
  assert (Hinvalid : forall count,
            Validation.validateFinancialData
              (Terms.normalized
                 (or_else (get_opt (VObj o) "invoices") (VArr []))
                 (or_else (get_opt (VObj o) "expenses") (VArr []))
                 (or_else (get_opt (VObj o) "payments") (VArr []))
                 (or_else (get_opt (VObj o) "balances") (VArr []))
                 (or_else (get_opt (VObj o) "source") (VStr "manual_input"))
                 now count) <> []).
  { intros count Hv.
    assert (Hget : get (Terms.normalized
                          (or_else (get_opt (VObj o) "invoices") (VArr []))
                          (or_else (get_opt (VObj o) "expenses") (VArr []))
                          (or_else (get_opt (VObj o) "payments") (VArr []))
                          (or_else (get_opt (VObj o) "balances") (VArr []))
                          (or_else (get_opt (VObj o) "source") (VStr "manual_input"))
                          now count) k = Ok (VArr records)).
    { rewrite !RequestFacts.get_opt_object.
      simpl in Hk. destruct Hk as [<-|[<-|[<-|[]]]];
        rewrite Hrecords; reflexivity. }
    pose proof (RejectFacts.entered_sequence _ k records Hv Hk Hget) as Hall.
    rewrite Forall_forall in Hall.
    destruct (Hall _ Hin) as (e & q & d & E & Ha & _).
    injection E as <-. congruence. }
  assert (Hcases :
            match Parser.getTotalRecordCount (VObj o) with
            | Ok _ =>
                exists r,
                  Controller.analyzeFinancialData JSON_parse csv_parse analyze
                    now later reqBody = Ok r
                  /\ Controller.status r = 400
                  /\ get (Controller.body r) "error"
                     = Ok (VStr "Data validation failed")
            | Throw e =>
                Controller.analyzeFinancialData JSON_parse csv_parse analyze
                  now later reqBody
                = Ok {| Controller.status := 400;
                        Controller.body :=
                          VObj [("error", VStr "Data parsing failed");
                                ("message",
                                 VStr ("Data normalization failed: "
                                       ++ message e))] |}
            | Unmodelled =>
                Controller.analyzeFinancialData JSON_parse csv_parse analyze
                  now later reqBody = Unmodelled
            end).
  { unfold Controller.analyzeFinancialData.
    fold (Terms.formatOf reqBody).
    rewrite Hn, Hdata. simpl truthy. simpl negb. cbv iota zeta.
    unfold Controller.parseRequest. rewrite Hformat.
    unfold Controller.normalize. rewrite RequestFacts.normalize_object.
    destruct (Parser.getTotalRecordCount (VObj o)) as [count|e|] eqn:Hc;
      [|reflexivity|reflexivity].
    rewrite (ResponseFacts.checked_cases analyze).
    specialize (Hinvalid count).
    match goal with
    | |- context [Validation.validateFinancialData ?out] =>
        destruct (Validation.validateFinancialData out) eqn:Hv
    end; [now elim Hinvalid|].
    eexists. split; [reflexivity|]. split; reflexivity. }
  split; [|split].
  - intros count Hc. now rewrite Hc in Hcases.
  - intros e Hc. now rewrite Hc in Hcases.
  - intros r Hr. destruct (Parser.getTotalRecordCount (VObj o)).
    + destruct Hcases as (r' & Hr' & Hs & _). congruence.
    + rewrite Hcases in Hr. now injection Hr as <-.
    + congruence.
Qed.

Lemma amounts_given_as_text_are_rejected_witness :
  let invoices := VArr [VObj [("amount", VStr "500"); ("date", VStr "2024-02-01")]] in
  let o := [("invoices", invoices); ("expenses", VArr [])] in
  let o' := [("invoices", invoices); ("expenses", VArr []);
             ("balances", VObj [("length", VObj [("valueOf", int 1);
                                                 ("toString", int 1)])])] in
  let analyze := fun _ : value => Ok (VObj [("summary", VStr "unused")]) in
  let csv_parse := fun _ : value => Ok (@nil value) in
  (exists r,
     Controller.analyzeFinancialData Json.parse csv_parse analyze
       "2024-03-01T09:30:00.000Z" "2024-03-01T09:30:02.000Z"
       (VObj [("data", VObj o)]) = Ok r
     /\ Controller.status r = 400
     /\ get (Controller.body r) "error" = Ok (VStr "Data validation failed"))
  /\ Controller.analyzeFinancialData Json.parse csv_parse analyze
       "2024-03-01T09:30:00.000Z" "2024-03-01T09:30:02.000Z"
       (VObj [("data", VObj o')])
     = Ok {| Controller.status := 400;
             Controller.body :=
               VObj [("error", VStr "Data parsing failed");
                     ("message",
                      VStr "Data normalization failed: Cannot convert object to primitive value")] |}.
Proof.
  intros invoices o o' analyze csv_parse. split.
  - apply (proj1 (amounts_given_as_text_are_rejected Json.parse csv_parse analyze
             "2024-03-01T09:30:00.000Z" "2024-03-01T09:30:02.000Z"
             (VObj [("data", VObj o)]) o
             [("amount", VStr "500"); ("date", VStr "2024-02-01")] "invoices" "500"
             [VObj [("amount", VStr "500"); ("date", VStr "2024-02-01")]]
             eq_refl eq_refl (or_introl eq_refl) eq_refl (or_introl eq_refl)
             eq_refl) (int 1)).
    reflexivity.
  - apply (proj1 (proj2 (amounts_given_as_text_are_rejected Json.parse csv_parse
             analyze "2024-03-01T09:30:00.000Z" "2024-03-01T09:30:02.000Z"
             (VObj [("data", VObj o')]) o'
             [("amount", VStr "500"); ("date", VStr "2024-02-01")] "invoices" "500"
             [VObj [("amount", VStr "500"); ("date", VStr "2024-02-01")]]
             eq_refl eq_refl (or_introl eq_refl) eq_refl (or_introl eq_refl)
             eq_refl)) noPrimitive).
    reflexivity.
Defined.

(** X21.  [validateData] returns a result for every input and never
    throws, although [checkDataQuality] on its own throws on [null] and
    [undefined]: it is only called on data that is structurally valid. *)
Theorem validateData_never_throws :
  (forall data, exists result, Validation.validateData data = Ok result)
  /\ forall data,
       isNullish data = true ->
       exists e, Validation.checkDataQuality data = Throw e.
Proof.
  split.
  - intros data. destruct (ControllerFacts.validateData_returns data) as (r & Hr & _).
    now exists r.
  - intros data Hn. destruct data; try discriminate Hn; eexists; reflexivity.
Qed.

Lemma validateData_never_throws_witness :
  (exists result, Validation.validateData VNull = Ok result)
  /\ exists e, Validation.checkDataQuality VNull = Throw e.
Proof.
  split.
  - apply (proj1 validateData_never_throws).
  - apply (proj2 validateData_never_throws). reflexivity.
Defined.

(** ** The client of the language model *)

Module LlmFacts.
Import Js.

Section Client.

Variable JSON_parse : string -> outcome value.
Variable complete : value -> outcome value.

(** The client once the reply is there. *)
Lemma analysed (data response content : value) :
  isNullish data = false ->
  complete data = Ok response ->
  Llm.contentOf response = Ok content ->
  Llm.analyzeFinancialData JSON_parse complete data
  = match Llm.parseContent JSON_parse content with
    | Throw _ => Ok (VObj [("error", VStr "Analysis parsing failed");
                           ("rawResponse", content)])
    | other => other
    end.
Proof.
  intros Hn Hc Hcontent. unfold Llm.analyzeFinancialData.
  rewrite Hn, Hc. cbv beta iota delta [bind]. rewrite Hcontent.
  cbv beta iota delta [bind try_catch].
  now destruct (Llm.parseContent JSON_parse content).
Qed.

End Client.

End LlmFacts.

(** X22.  The client of the language model rejects only when the data is
    [null] or [undefined], when the request fails, or when the response has
    no [choices[0].message]; a reply whose content is text resolves to
    what [JSON.parse] makes of it, or, when that fails, to an object with
    the error of a failed parsing and the raw text. *)
Theorem the_client_rejects_only_without_a_reply :
  forall (JSON_parse : string -> outcome value) (complete : value -> outcome value)
         (data : value),
    (forall e,
        Llm.analyzeFinancialData JSON_parse complete data = Throw e ->
        isNullish data = true
        \/ complete data = Throw e
        \/ exists response,
             complete data = Ok response /\ Llm.contentOf response = Throw e)
    /\ forall response text,
         isNullish data = false ->
         complete data = Ok response ->
         Llm.contentOf response = Ok (VStr text) ->
         Llm.analyzeFinancialData JSON_parse complete data
         = match JSON_parse text with
           | Throw _ => Ok (VObj [("error", VStr "Analysis parsing failed");
                                  ("rawResponse", VStr text)])
           | other => other
           end.
Proof.
  intros JSON_parse complete data. split.
  - intros e. unfold Llm.analyzeFinancialData.
    destruct (isNullish data); [now left|].
    destruct (complete data) as [response|e'|]; simpl bind.
    + destruct (Llm.contentOf response) as [content|e'|] eqn:Hc; simpl bind.
      * destruct (Llm.parseContent JSON_parse content); discriminate.
      * intros H; injection H as <-. right. right. now exists response.
      * discriminate.
    + intros H; injection H as <-. right. now left.
    + discriminate.
  - intros response text Hn Hc Hcontent.
    now rewrite (LlmFacts.analysed JSON_parse complete data response _ Hn Hc Hcontent).
Qed.

Lemma the_client_rejects_only_without_a_reply_witness :
  let complete := fun _ : value =>
    Ok (VObj [("choices",
               VArr [VObj [("message", VObj [("content", VStr "I cannot answer")])]])]) in
  Llm.analyzeFinancialData Json.parse complete (VObj [])
  = match Json.parse "I cannot answer" with
    | Throw _ => Ok (VObj [("error", VStr "Analysis parsing failed");
                           ("rawResponse", VStr "I cannot answer")])
    | other => other
    end.
Proof.
  intros complete.
  apply (proj2 (the_client_rejects_only_without_a_reply Json.parse complete (VObj []))
           (VObj [("choices",
                   VArr [VObj [("message",
                                VObj [("content", VStr "I cannot answer")])]])]));
    reflexivity.
Defined.

(** X23.  A reply of the language model that is not JSON does not fail the
    request: for valid data the handler answers 200 with [success: true],
    and the analysis is the object that reports the failed parsing with the
    raw text. *)
Theorem a_reply_that_is_no_JSON_is_answered_200 :
  forall (JSON_parse : string -> outcome value)
         (csv_parse : value -> outcome (list value))
         (complete : value -> outcome value) (now later : string)
         (reqBody parsedData response : value) (text : string) (e : js_error),
    isNullish reqBody = false ->
    truthy (get_opt reqBody "data") = true ->
    Controller.parseRequest JSON_parse csv_parse now
      (get_opt reqBody "data") (Terms.formatOf reqBody) = Ok parsedData ->
    Validation.validateFinancialData parsedData = [] ->
    complete parsedData = Ok response ->
    Llm.contentOf response = Ok (VStr text) ->
    JSON_parse text = Throw e ->
    Controller.analyzeFinancialData JSON_parse csv_parse
      (Llm.analyzeFinancialData JSON_parse complete) now later reqBody
    = Ok {| Controller.status := 200;
            Controller.body :=
              VObj [("success", VBool true);
                    ("data", parsedData);
                    ("analysis",
                     VObj [("error", VStr "Analysis parsing failed");
                           ("rawResponse", VStr text)]);
                    ("timestamp", VStr later)] |}.
Proof.
  intros JSON_parse csv_parse complete now later reqBody parsedData response text e
         Hn Ht Hp Hv Hc Hcontent Hparse.
  assert (Hdata : isNullish parsedData = false).
  { destruct (ValidFacts.valid_data_structure parsedData Hv) as (o & -> & _).
    reflexivity. }
  unfold Controller.analyzeFinancialData. fold (Terms.formatOf reqBody).
  rewrite Hn, Ht. simpl negb. cbv iota zeta. rewrite Hp.
  rewrite (ResponseFacts.checked_cases _), Hv.
  rewrite (LlmFacts.analysed JSON_parse complete parsedData response _
             Hdata Hc Hcontent).
  simpl Llm.parseContent. rewrite Hparse. reflexivity.
Qed.

Lemma a_reply_that_is_no_JSON_is_answered_200_witness :
  let complete := fun _ : value =>
    Ok (VObj [("choices",
               VArr [VObj [("message", VObj [("content", VStr "I cannot answer")])]])]) in
  let csv_parse := fun _ : value => Ok (@nil value) in
  Controller.analyzeFinancialData Json.parse csv_parse
    (Llm.analyzeFinancialData Json.parse complete)
    "2024-03-01T09:30:00.000Z" "2024-03-01T09:30:02.000Z"
    (VObj [("data", VObj [("invoices", VArr []); ("expenses", VArr [])])])
  = Ok {| Controller.status := 200;
          Controller.body :=
            VObj [("success", VBool true);
                  ("data", Notions.emptyStructure "2024-03-01T09:30:00.000Z");
                  ("analysis",
                   VObj [("error", VStr "Analysis parsing failed");
                         ("rawResponse", VStr "I cannot answer")]);
                  ("timestamp", VStr "2024-03-01T09:30:02.000Z")] |}.
Proof.
  intros complete csv_parse.
  apply (a_reply_that_is_no_JSON_is_answered_200 Json.parse csv_parse complete
           "2024-03-01T09:30:00.000Z" "2024-03-01T09:30:02.000Z"
           (VObj [("data", VObj [("invoices", VArr []); ("expenses", VArr [])])])
           (Notions.emptyStructure "2024-03-01T09:30:00.000Z")
           (VObj [("choices",
                   VArr [VObj [("message",
                                VObj [("content", VStr "I cannot answer")])]])])
           "I cannot answer"
           (SyntaxError "Unexpected token or end of JSON input"));
    reflexivity.
Defined.

(* ================================================================== *)
(** * Properties of the data of the charts                            *)
(* ================================================================== *)

Module ChartFacts.
Import Js Regex RegexSpec RegexFacts Terms.

Lemma two_digits (w : string) :
  matches AjvFormats.digits2 w ->
  exists a b, w = String a (String b EmptyString)
              /\ isDigit a = true /\ isDigit b = true.
Proof.
  unfold AjvFormats.digits2, AjvFormats.digit. intros H.
  apply matches_cat_inv in H. destruct H as (s & t & -> & Hs & Ht).
  apply matches_sym_inv in Hs. destruct Hs as (a & -> & Ha).
  apply matches_sym_inv in Ht. destruct Ht as (b & -> & Hb).
  now exists a, b.
Qed.

(** A calendar date starts with four digits and a hyphen. *)
Lemma date_shape (d : string) :
  AjvFormats.date d = true ->
  exists a b c e rest,
    d = String a (String b (String c (String e (String "-" rest))))
    /\ Spec.allDigits [a; b; c; e].
Proof.
  unfold AjvFormats.date. destruct (test AjvFormats.DATE d) eqn:Ht; [|discriminate].
  intros _. apply test_matches in Ht. unfold AjvFormats.DATE in Ht.
  apply matches_cat_inv in Ht. destruct Ht as (s1 & t1 & -> & H1 & Ht).
  apply matches_cat_inv in Ht. destruct Ht as (s2 & t2 & -> & H2 & Ht).
  apply matches_cat_inv in Ht. destruct Ht as (s3 & t3 & -> & H3 & _).
  apply two_digits in H1. destruct H1 as (a & b & -> & Ha & Hb).
  apply two_digits in H2. destruct H2 as (c & e & -> & Hc & He).
  apply matches_sym_inv in H3. destruct H3 as (h & -> & Hh).
  change (Ascii.eqb "-" h = true) in Hh. apply Ascii.eqb_eq in Hh. subst h.
  exists a, b, c, e, t3. split; [reflexivity|].
  repeat constructor; assumption.
Qed.

Lemma digit_is_no_letter (c : ascii) (s : string) :
  isDigit c = true -> startsWith "Infinity" (String c s) = false.
Proof.
  destruct c as [[|] [|] [|] [|] [|] [|] [|] [|]];
    intros H; try discriminate H; reflexivity.
Qed.

(** [parseFloat] reads the year of a calendar date. *)
Lemma parseFloat_date (d : string) :
  AjvFormats.date d = true ->
  Chart.parseFloatOf (VStr d) = Ok (Fin (inject_Z (yearOf d))).
Proof.
  intros Hd. destruct (date_shape d Hd) as (a & b & c & e & rest & -> & Hds).
  pose proof Hds as Hall. inversion Hall as [|? ? Ha _]; subst.
  destruct (NumericFacts.digit_cases a Ha) as (Hws & _).
  unfold Chart.parseFloatOf, Chart.namesInfinity.
  assert (Htrim : trimStart (String a (String b (String c (String e (String "-" rest)))))
                  = String a (String b (String c (String e (String "-" rest)))))
    by (simpl; now rewrite Hws).
  rewrite Htrim, (NumericFacts.takeSign_digit a _ Ha).
  cbn [snd]. rewrite (digit_is_no_letter a _ Ha). cbv iota. f_equal.
  unfold parseFloat. rewrite Htrim, (NumericFacts.takeSign_digit a _ Ha).
  change (String a (String b (String c (String e (String "-" rest)))))
    with (Notions.str [a; b; c; e] ++ String "-" rest)%string.
  rewrite (NumericFacts.takeDigits_until [a; b; c; e] "-" rest Hds eq_refl).
  cbv beta iota. simpl app.
  unfold yearOf. simpl substring. simpl list_ascii_of_string.
  unfold scale10. simpl takeExponent.
  change (0 - Z.of_nat (List.length (@nil ascii)))%Z with 0%Z.
  change (0 <=? 0)%Z with true. cbv iota.
  change (10 ^ 0)%Z with 1%Z.
  rewrite Z.mul_1_r. now rewrite NormalizeFacts.Qred_inject_Z.
Qed.

Lemma lookup_processed (es : object) :
  NoDup (map fst es) ->
  forall acc out k v,
    forEach Chart.processEntry es acc = Ok out ->
    k <> "__proto__" ->
    lookup k es = Some v ->
    exists n, Chart.parseFloatOf v = Ok n
              /\ lookup k out = Some (if Chart.isNaN n then v else VNum n).
Proof.
  induction es as [|[k' v'] es IH]; cbn [forEach lookup map fst];
    intros Hu acc out k v Hrun Hk Hv; [discriminate|].
  inversion Hu as [|? ? Hk' Hrest]; subst.
  apply NormalizeFacts.bind_ok in Hrun. destruct Hrun as (acc' & Hstep & Hrun).
  unfold Chart.processEntry in Hstep.
  apply NormalizeFacts.bind_ok in Hstep. destruct Hstep as (n & Hn & Hstep).
  injection Hstep as <-.
  destruct (String.eqb_spec k k') as [->|Hne].
  - injection Hv as <-. exists n. split; [exact Hn|].
    assert (Hkeep : forall es acc out,
              ~ In k' (map fst es) ->
              forEach Chart.processEntry es acc = Ok out ->
              lookup k' out = lookup k' acc).
    { clear. induction es as [|[a x] es IH]; simpl; intros acc out Hin Hrun.
      - now injection Hrun as <-.
      - apply NormalizeFacts.bind_ok in Hrun. destruct Hrun as (acc' & Hstep & Hrun).
        rewrite (IH _ _ (fun H => Hin (or_intror H)) Hrun).
        apply NormalizeFacts.bind_ok in Hstep. destruct Hstep as (n & _ & Hstep).
        injection Hstep as <-. unfold assign.
        destruct (String.eqb a "__proto__"); [reflexivity|].
        rewrite ObjectFacts.lookup_defineProperty.
        destruct (String.eqb_spec k' a) as [->|_]; [|reflexivity].
        exfalso. apply Hin. now left. }
    rewrite (Hkeep es _ out Hk' Hrun). unfold assign.
    destruct (String.eqb_spec k' "__proto__"); [contradiction|].
    rewrite ObjectFacts.lookup_defineProperty. now rewrite String.eqb_refl.
  - exact (IH Hrest _ out k v Hrun Hk Hv).
Qed.

Lemma lookup_key (k : string) (o : object) (v : value) :
  lookup k o = Some v -> In k (map fst o).
Proof.
  induction o as [|[a x] o IH]; simpl; [discriminate|].
  destruct (String.eqb_spec k a) as [->|_]; [now left|].
  intros H. right. now apply IH.
Qed.

End ChartFacts.

(** X24.  In the data of the charts a column of calendar dates becomes a
    column of numbers, the years: the first row holds the year under
    [date], and [date] is offered among the numeric columns and not among
    the categorical ones. *)
Theorem a_date_column_is_charted_as_its_year :
  forall (row : object) (rest processed : list value) (d : string),
    Terms.uniqueKeys row ->
    lookup "date" row = Some (VStr d) ->
    AjvFormats.date d = true ->
    Chart.processedData (VArr (VObj row :: rest)) = Ok processed ->
    (exists first others,
        processed = first :: others
        /\ get first "date" = Ok (int (Terms.yearOf d)))
    /\ In "date" (Chart.numericColumns processed)
    /\ ~ In "date" (Chart.categoricalColumns processed).
Proof.
  intros row rest processed d Hu Hdate Hd Hrun.
  simpl in Hrun.
  apply NormalizeFacts.bind_ok in Hrun. destruct Hrun as (first & Hrow & Hrun).
  apply NormalizeFacts.bind_ok in Hrun. destruct Hrun as (others & _ & Hrun).
  injection Hrun as <-.
  unfold Chart.processRow in Hrow. simpl isNullish in Hrow. cbv iota in Hrow.
  apply NormalizeFacts.bind_ok in Hrow. destruct Hrow as (o & Hrow & Hfirst).
  injection Hfirst as <-. simpl entries in Hrow.
  destruct (ChartFacts.lookup_processed row Hu _ o "date" (VStr d) Hrow
              ltac:(discriminate) Hdate) as (n & Hn & Hlookup).
  rewrite (ChartFacts.parseFloat_date d Hd) in Hn. injection Hn as <-.
  simpl Chart.isNaN in Hlookup. cbv iota in Hlookup.
  fold (int (Terms.yearOf d)) in Hlookup.
  split; [|split].
  - exists (VObj o), others. split; [reflexivity|]. simpl. now rewrite Hlookup.
  - unfold Chart.numericColumns, Chart.columnsOf. apply filter_In. split.
    + exact (ChartFacts.lookup_key _ _ _ Hlookup).
    + simpl. now rewrite Hlookup.
  - unfold Chart.categoricalColumns, Chart.columnsOf. intros Hin.
    apply filter_In in Hin. destruct Hin as [_ Hin].
    simpl in Hin. rewrite Hlookup in Hin. discriminate Hin.
Qed.

Lemma a_date_column_is_charted_as_its_year_witness :
  let row := [("date", VStr "2024-02-29"); ("vendor", VStr "Acme");
              ("amount", VStr "12.50")] in
  exists processed,
    Chart.processedData (VArr [VObj row]) = Ok processed
    /\ (exists first others,
           processed = first :: others
           /\ get first "date" = Ok (int (Terms.yearOf "2024-02-29")))
    /\ In "date" (Chart.numericColumns processed)
    /\ ~ In "date" (Chart.categoricalColumns processed).
Proof.
  intros row. eexists. split; [reflexivity|].
  apply (a_date_column_is_charted_as_its_year row [] _ "2024-02-29");
    try reflexivity.
  unfold Terms.uniqueKeys. simpl.
  repeat constructor; simpl; intros H;
    repeat (destruct H as [H|H]; [discriminate H|]); contradiction.
Defined.

(** X25.  On an object the normaliser fails for its record count only.
    When the count is computed, the result holds each category as it is
    given, or an empty sequence for a falsy one.  When computing the count
    throws, the normaliser throws an [Error] that wraps the message; this
    is the only failure, its message is that of a value that cannot be
    converted to a primitive, and it excludes a result whenever the length
    of a category is such a value. *)
Theorem normalize_rejects_an_object_for_its_count_only :
  forall (JSON_parse : string -> outcome value) (now : string) (o : object),
    (forall count,
        Parser.getTotalRecordCount (VObj o) = Ok count ->
        Parser.normalizeFinancialData JSON_parse now (VObj o)
        = Ok (Terms.normalized
                (or_else (get_opt (VObj o) "invoices") (VArr []))
                (or_else (get_opt (VObj o) "expenses") (VArr []))
                (or_else (get_opt (VObj o) "payments") (VArr []))
                (or_else (get_opt (VObj o) "balances") (VArr []))
                (or_else (get_opt (VObj o) "source") (VStr "manual_input"))
                now count))
    /\ (forall e,
           Parser.getTotalRecordCount (VObj o) = Throw e ->
           Parser.normalizeFinancialData JSON_parse now (VObj o)
           = Throw (Error ("Data normalization failed: " ++ message e)))
    /\ (forall e,
           Parser.normalizeFinancialData JSON_parse now (VObj o) = Throw e ->
           e = Error "Data normalization failed: Cannot convert object to primitive value")
    /\ (forall k,
           In k Terms.categoryNames ->
           printable (get_opt (get_opt (VObj o) k) "length") = false ->
           forall out,
             Parser.normalizeFinancialData JSON_parse now (VObj o) <> Ok out).
Proof.
  intros JSON_parse now o. rewrite RequestFacts.normalize_object.
  split; [|split; [|split]].
  - intros count Hc. now rewrite Hc.
  - intros e Hc. now rewrite Hc.
  - intros e. destruct (Parser.getTotalRecordCount (VObj o)) as [c|e'|] eqn:Hc;
      try discriminate.
    apply RequestFacts.count_of_object in Hc. subst e'.
    intros H. now injection H as <-.
  - intros k Hk Hp out.
    destruct (Parser.getTotalRecordCount (VObj o)) as [c|e'|] eqn:Hc;
      try discriminate.
    now apply (RequestFacts.count_of_unprintable o k c Hk Hp) in Hc.
Qed.

Lemma normalize_rejects_an_object_for_its_count_only_witness :
  Parser.normalizeFinancialData Json.parse "2024-03-01T09:30:00.000Z"
    (VObj [("invoices", VStr "abc"); ("payments", VBool true)])
  = Ok (Terms.normalized (VStr "abc") (VArr []) (VBool true) (VArr [])
          (VStr "manual_input") "2024-03-01T09:30:00.000Z" (int 3))
  /\ Parser.normalizeFinancialData Json.parse "2024-03-01T09:30:00.000Z"
       (VObj [("invoices", VObj [("length", VObj [("valueOf", int 1);
                                                  ("toString", int 1)])])])
     = Throw (Error "Data normalization failed: Cannot convert object to primitive value")
  /\ forall out,
       Parser.normalizeFinancialData Json.parse "2024-03-01T09:30:00.000Z"
         (VObj [("expenses", VArr []);
                ("payments", VObj [("length", VArr [VObj [("toString", VNull)]])])])
       <> Ok out.
Proof.
  split; [|split].
  - apply (proj1 (normalize_rejects_an_object_for_its_count_only Json.parse
                    "2024-03-01T09:30:00.000Z"
                    [("invoices", VStr "abc"); ("payments", VBool true)])).
    reflexivity.
  - apply (proj1 (proj2 (normalize_rejects_an_object_for_its_count_only Json.parse
                    "2024-03-01T09:30:00.000Z"
                    [("invoices", VObj [("length", VObj [("valueOf", int 1);
                                                         ("toString", int 1)])])]))
             noPrimitive).
    reflexivity.
  - apply (proj2 (proj2 (proj2 (normalize_rejects_an_object_for_its_count_only
                    Json.parse "2024-03-01T09:30:00.000Z"
                    [("expenses", VArr []);
                     ("payments",
                      VObj [("length", VArr [VObj [("toString", VNull)]])])])))
             "payments").
    + simpl. auto.
    + reflexivity.
Defined.

(* ================================================================== *)
(** * Records that cannot be classified                               *)
(* ================================================================== *)

Module TagFacts.
Import Js Notions Terms.

Lemma get_present (v : value) (k : string) :
  isNullish v = false -> get v k = Ok (get_opt v k).
Proof.
  destruct v as [| |b|n|s|l|o]; try discriminate; intros _; simpl.
  - reflexivity.
  - reflexivity.
  - now destruct (String.eqb k "length").
  - now destruct (String.eqb k "length").
  - now destruct (lookup k o).
Qed.

(** Without an explicit category the field names decide. *)
Lemma by_field_names (keys : list string) :
  exists k,
    (if existsb (Parser.mentions ["invoice"; "bill"; "revenue"]) keys
     then Ok "invoices"
     else if existsb (Parser.mentions ["payment"; "transaction"]) keys
     then Ok "payments"
     else if existsb (Parser.mentions ["balance"; "account"]) keys
     then Ok "balances"
     else Ok "expenses") = Ok k.
Proof.
  destruct (existsb _ keys); [eauto|].
  destruct (existsb _ keys); [eauto|].
  destruct (existsb _ keys); eauto.
Qed.

Lemma classifiable_classified (record : value) :
  classifiable record = true -> exists k, Parser.detectRecordType record = Ok k.
Proof.
  unfold classifiable, badTag. intros H. apply andb_true_iff in H.
  destruct H as [Hn Hb]. apply negb_true_iff in Hn, Hb.
  unfold Parser.detectRecordType. rewrite (get_present record "type" Hn).
  cbv beta iota delta [bind].
  destruct (get_opt record "type") as [| |b|n|s|l|o];
    try rewrite Hb; cbv beta iota; try apply by_field_names;
    try discriminate Hb.
  destruct (truthy (VStr s)); cbv iota; [|apply by_field_names].
  destruct (_ || _)%bool; [cbv beta iota; eauto|].
  destruct (_ || _)%bool; [cbv beta iota; eauto|].
  destruct (String.eqb _ _); [cbv beta iota; eauto|].
  destruct (String.eqb _ _); [cbv beta iota; eauto|].
  cbv beta iota. apply by_field_names.
Qed.

Lemma unclassifiable_throws (record : value) :
  classifiable record = false ->
  Parser.detectRecordType record
  = Throw (TypeError
             (if isNullish record
              then "Cannot read properties of " ++ typeName record
                   ++ " (reading 'type')"
              else "record.type.toLowerCase is not a function")).
Proof.
  unfold classifiable, badTag. intros H.
  destruct (isNullish record) eqn:Hn.
  - destruct record; try discriminate Hn; reflexivity.
  - cbn [negb andb] in H. apply negb_false_iff in H.
    unfold Parser.detectRecordType. rewrite (get_present record "type" Hn).
    cbv beta iota delta [bind].
    destruct (get_opt record "type") as [| |b|n|s|l|o]; try discriminate H;
      rewrite H; reflexivity.
Qed.

(** The classification of a flat sequence stops at the first record that
    cannot be classified. *)
Lemma categorize_throws (flatData : list value) :
  forallb classifiable flatData = false ->
  forall acc, exists e, forEach Parser.categorizeStep flatData acc = Throw e.
Proof.
  induction flatData as [|r rest IH]; simpl; [discriminate|]. intros H acc.
  destruct (classifiable r) eqn:Hr.
  - simpl in H. unfold Parser.categorizeStep at 1.
    destruct (classifiable_classified r Hr) as (k & Hk). rewrite Hk.
    cbv beta iota delta [bind].
    destruct (lookup k acc) as [bucket|]; [destruct (truthy bucket)|];
      cbv beta iota; apply (IH H).
  - unfold Parser.categorizeStep at 1. rewrite (unclassifiable_throws r Hr).
    simpl. eauto.
Qed.

End TagFacts.

(** X26.  [detectRecordType] fails on a bad tag only: a record that is not
    [null] or [undefined] and whose explicit tag is absent, falsy or text is
    classified into one of the four sequences; on [null] and [undefined] the
    read of the tag throws; and a truthy tag that is not text makes the call
    of [toLowerCase] throw. *)
Theorem detectRecordType_fails_on_a_bad_tag_only :
  forall record : value,
    (Terms.classifiable record = true ->
     exists k, Parser.detectRecordType record = Ok k /\ In k Terms.categoryNames)
    /\ (isNullish record = true ->
        Parser.detectRecordType record
        = Throw (TypeError ("Cannot read properties of " ++ typeName record
                            ++ " (reading 'type')")))
    /\ (isNullish record = false -> Terms.badTag record = true ->
        Parser.detectRecordType record
        = Throw (TypeError "record.type.toLowerCase is not a function")).
Proof.
  intros record. split; [|split].
  - intros H. destruct (TagFacts.classifiable_classified record H) as (k & Hk).
    exists k. split; [exact Hk|].
    unfold Terms.categoryNames. simpl.
    destruct (NormalizeFacts.detectRecordType_range record k Hk)
      as [-> | [-> | [-> | ->]]]; tauto.
  - intros Hn. rewrite TagFacts.unclassifiable_throws.
    + now rewrite Hn.
    + unfold Terms.classifiable. now rewrite Hn.
  - intros Hn Hb. rewrite TagFacts.unclassifiable_throws.
    + now rewrite Hn.
    + unfold Terms.classifiable. rewrite Hb. apply andb_false_r.
Qed.

Lemma detectRecordType_fails_on_a_bad_tag_only_witness :
  (exists k, Parser.detectRecordType (VObj [("type", VStr "refund"); ("Bill No", int 7)])
             = Ok k /\ In k Terms.categoryNames)
  /\ Parser.detectRecordType VNull
     = Throw (TypeError ("Cannot read properties of " ++ typeName VNull
                         ++ " (reading 'type')"))
  /\ Parser.detectRecordType (VObj [("type", VBool true)])
     = Throw (TypeError "record.type.toLowerCase is not a function").
Proof.
  split; [|split].
  - apply (proj1 (detectRecordType_fails_on_a_bad_tag_only
                    (VObj [("type", VStr "refund"); ("Bill No", int 7)]))).
    reflexivity.
  - apply (proj1 (proj2 (detectRecordType_fails_on_a_bad_tag_only VNull))).
    reflexivity.
  - apply (proj2 (proj2 (detectRecordType_fails_on_a_bad_tag_only
                           (VObj [("type", VBool true)])))); reflexivity.
Defined.

(** X27.  The normaliser succeeds on a flat sequence exactly when each of
    its records is classified, and throws the error of a failed
    normalisation otherwise. *)
Theorem a_flat_sequence_is_normalised_when_its_records_classify :
  forall (JSON_parse : string -> outcome value) (now : string)
         (records : list value),
    ((exists out,
         Parser.normalizeFinancialData JSON_parse now (VArr records) = Ok out)
     <-> forallb Terms.classifiable records = true)
    /\ (forallb Terms.classifiable records = false ->
        exists e,
          Parser.normalizeFinancialData JSON_parse now (VArr records)
          = Throw (Error ("Data normalization failed: " ++ message e))).
Proof.
  intros JSON_parse now records.
  assert (Hfail : forallb Terms.classifiable records = false ->
            exists e,
              Parser.normalizeFinancialData JSON_parse now (VArr records)
              = Throw (Error ("Data normalization failed: " ++ message e))).
  { intros H.
    destruct (TagFacts.categorize_throws records H Parser.emptyCategories) as (e & He).
    exists e. unfold Parser.normalizeFinancialData, Parser.categorizeFlatData.
    cbv beta iota delta [bind]. rewrite He. reflexivity. }
  split; [|exact Hfail]. split.
  - intros (out & Hout).
    destruct (forallb Terms.classifiable records) eqn:H; [reflexivity|].
    destruct (Hfail eq_refl) as (e & He). congruence.
  - intros H. eexists.
    apply (FlatFacts.normalize_flat JSON_parse now (VArr records) records eq_refl).
    rewrite forallb_forall in H. apply Forall_forall. intros r Hr.
    exact (TagFacts.classifiable_classified r (H r Hr)).
Qed.

Lemma a_flat_sequence_is_normalised_when_its_records_classify_witness :
  (exists out,
      Parser.normalizeFinancialData Json.parse "2024-03-01T09:30:00.000Z"
        (VArr [VStr "row"; VObj [("type", VNum (Fin 0%Q))]]) = Ok out)
  /\ exists e,
       Parser.normalizeFinancialData Json.parse "2024-03-01T09:30:00.000Z"
         (VArr [VObj [("amount", int 5)]; VNull])
       = Throw (Error ("Data normalization failed: " ++ message e)).
Proof.
  split.
  - apply (proj1 (a_flat_sequence_is_normalised_when_its_records_classify
                    Json.parse "2024-03-01T09:30:00.000Z"
                    [VStr "row"; VObj [("type", VNum (Fin 0%Q))]])).
    reflexivity.
  - apply (proj2 (a_flat_sequence_is_normalised_when_its_records_classify
                    Json.parse "2024-03-01T09:30:00.000Z"
                    [VObj [("amount", int 5)]; VNull])).
    reflexivity.
Defined.

(** ** Where an error is reported *)

Module LocateFacts.
Import Js Ajv Terms.

Section Validator.

Variable formats : string -> option (string -> bool).
Variable verbose : bool.

Lemma indexed_nth {A : Type} (l : list A) (i : nat) (x : A) :
  nth_error l i = Some x ->
  forall base, In (base + i, x) (combine (seq base (List.length l)) l).
Proof.
  revert i. induction l as [|y l IH]; intros [|i] H base; try discriminate H.
  - injection H as ->. simpl. left. f_equal. lia.
  - simpl. right. replace (base + S i) with (S base + i) by lia. now apply IH.
Qed.

(** The errors of a property are among those of the object. *)
Lemma property_errors (ks : list (keyword schema)) (ipath spath : string)
      (o : object) (properties : list (string * schema))
      (name : string) (sub : schema) (x : value) (e : errorObject) :
  In (KProperties properties) ks -> In (name, sub) properties ->
  lookup name o = Some x -> x <> VUndefined ->
  In e (validate formats verbose sub (ipath ++ "/" ++ name)%string
                 (spath ++ "/properties/" ++ name)%string x) ->
  In e (validate formats verbose (Schema ks) ipath spath (VObj o)).
Proof.
  intros Hk Hp Hx Hdef He. simpl validate.
  repeat (apply in_or_app; right).
  apply in_flat_map. exists (KProperties properties). split; [exact Hk|].
  apply in_flat_map. exists (name, sub). split; [exact Hp|].
  simpl. rewrite Hx. destruct x; try exact He. contradiction.
Qed.

(** The errors of an element are among those of the array. *)
Lemma item_errors (ks : list (keyword schema)) (ipath spath : string)
      (elements : list value) (sub : schema) (i : nat) (x : value)
      (e : errorObject) :
  In (KItems sub) ks -> nth_error elements i = Some x ->
  In e (validate formats verbose sub (ipath ++ "/" ++ natToString i)%string
                 (spath ++ "/items")%string x) ->
  In e (validate formats verbose (Schema ks) ipath spath (VArr elements)).
Proof.
  intros Hk Hx He. simpl validate.
  do 4 (apply in_or_app; right). apply in_or_app; left.
  apply in_flat_map. exists (KItems sub). split; [exact Hk|].
  apply in_flat_map. exists (i, x). split; [|exact He].
  exact (indexed_nth elements i x Hx 0).
Qed.

(** A required property that is missing is reported. *)
Lemma required_error (ks : list (keyword schema)) (ipath spath : string)
      (o : object) (names : list string) (name : string) :
  In (KRequired names) ks -> In name names -> missing o name = true ->
  In {| instancePath := ipath;
        schemaPath := (spath ++ "/required")%string;
        keyword_ := "required";
        params := VObj [("missingProperty", VStr name)];
        message := ("must have required property '" ++ name ++ "'")%string;
        data := attach verbose (VObj o) |}
     (validate formats verbose (Schema ks) ipath spath (VObj o)).
Proof.
  intros Hk Hn Hm. simpl validate.
  do 5 (apply in_or_app; right). apply in_or_app; left.
  apply in_flat_map. exists (KRequired names). split; [exact Hk|].
  simpl. apply in_map_iff. exists name. split; [reflexivity|].
  apply filter_In. now split.
Qed.

End Validator.

End LocateFacts.

(** X28.  A record of [invoices], [expenses] or [payments] that lacks its
    [amount] or its [date] is reported at its own place: the data is not
    valid, and the errors hold one whose field is the path of the sequence
    and the index of the record and whose message names the property. *)
Theorem a_missing_property_is_reported_at_its_record :
  forall (o record : object) (k name : string) (records : list value) (i : nat),
    In k ["invoices"; "expenses"; "payments"] ->
    In name ["amount"; "date"] ->
    lookup k o = Some (VArr records) ->
    nth_error records i = Some (VObj record) ->
    lookup name record = None ->
    exists result,
      Validation.validateData (VObj o) = Ok result
      /\ Validation.isValid result = false
      /\ In (Terms.missingProperty ("/" ++ k ++ "/" ++ natToString i) name)
            (Validation.errors result).
Proof.
  intros o record k name records i Hk Hname Hrecords Hi Hmissing.
  assert (Herr :
    In {| Ajv.instancePath := ("/" ++ k ++ "/" ++ natToString i)%string;
          Ajv.schemaPath := ("#/properties/" ++ k ++ "/items/required")%string;
          Ajv.keyword_ := "required";
          Ajv.params := VObj [("missingProperty", VStr name)];
          Ajv.message := ("must have required property '" ++ name ++ "'")%string;
          Ajv.data := VUndefined |}
       (Validation.validateFinancialData (VObj o))).
  { unfold Validation.validateFinancialData, Ajv.compile,
      Validation.financialDataSchema.
    assert (Hm : Ajv.missing record name = true)
      by (unfold Ajv.missing; now rewrite Hmissing).
    simpl in Hk, Hname.
    destruct Hk as [<-|[<-|[<-|[]]]]; destruct Hname as [<-|[<-|[]]];
      (match type of Hrecords with
       | lookup ?K o = _ =>
           eapply (LocateFacts.property_errors _ _ _ _ _ _ _ K);
           [ solve_In | solve_In | exact Hrecords | discriminate | ]
       end;
       eapply LocateFacts.item_errors; [ solve_In | exact Hi | ];
       refine (LocateFacts.required_error _ false _ _ _ _ _ _ _ _ Hm); solve_In). }
  eexists. split.
  - apply ValidationFacts.validateData_invalid. intros E. rewrite E in Herr.
    contradiction.
  - split.
    + simpl. destruct (Validation.validateFinancialData (VObj o)); [contradiction|].
      reflexivity.
    + simpl.
      apply (in_map Validation.formatValidationError) in Herr.
      unfold Validation.formatValidationError at 1 in Herr. simpl in Herr.
      destruct k; exact Herr.
Qed.

Lemma a_missing_property_is_reported_at_its_record_witness :
  let o := [("invoices",
             VArr [VObj [("amount", int 500); ("date", VStr "2024-02-01")];
                   VObj [("date", VStr "2024-02-02")]]);
            ("expenses", VArr [])] in
  exists result,
    Validation.validateData (VObj o) = Ok result
    /\ Validation.isValid result = false
    /\ In (Terms.missingProperty "/invoices/1" "amount") (Validation.errors result).
Proof.
  intros o.
  apply (a_missing_property_is_reported_at_its_record o
           [("date", VStr "2024-02-02")] "invoices" "amount"
           [VObj [("amount", int 500); ("date", VStr "2024-02-01")];
            VObj [("date", VStr "2024-02-02")]] 1);
    try reflexivity; solve_In.
Defined.

(* ================================================================== *)
(** * Requests in the CSV format                                      *)
(* ================================================================== *)

Module CastFacts.
Import Js Notions Terms.

Lemma billed_dated (r : value) : billed r -> dated r.
Proof. intros (e & q & d & -> & _ & _ & Hd & Hf). now exists e, d. Qed.

Lemma paid_dated (r : value) : paid r -> dated r.
Proof. intros (e & q & d & t & -> & _ & Hd & Hf & _). now exists e, d. Qed.

Lemma balanced_dated (r : value) : balanced r -> dated r.
Proof. intros (e & a & q & d & -> & _ & _ & Hd & Hf). now exists e, d. Qed.

Lemma cast_not_dated (r : value) : castRecord r -> ~ dated r.
Proof.
  intros Hc (e & d & -> & Hd & Hf).
  rewrite (Hc e "date" d eq_refl Hd) in Hf. discriminate Hf.
Qed.

(** Valid data holds dated records only. *)
Lemma valid_dated (i e p b source count : value) (now : string) :
  Validation.validateFinancialData (normalized i e p b source now count) = [] ->
  forall k records,
    In (k, VArr records) [("invoices", i); ("expenses", e); ("payments", p); ("balances", b)] ->
    Forall dated records.
Proof.
  intros Hv k records Hk.
  destruct (ValidFacts.valid_data_structure _ Hv) as (o & E & Hi & He & Hp & Hb).
  unfold normalized in E. injection E as <-.
  simpl in Hi, He, Hp, Hb. simpl in Hk.
  assert (Hseq : forall (P : value -> Prop) required v,
            v = VArr records -> sequenceOf P required (Some v) -> Forall P records).
  { intros P required v -> (l & El & Hl). injection El as <-. exact Hl. }
  destruct Hk as [Hk|[Hk|[Hk|[Hk|[]]]]]; injection Hk as _ Hk.
  - eapply Forall_impl; [|exact (Hseq _ _ _ Hk Hi)]. apply billed_dated.
  - eapply Forall_impl; [|exact (Hseq _ _ _ Hk He)]. apply billed_dated.
  - eapply Forall_impl; [|exact (Hseq _ _ _ Hk Hp)]. apply paid_dated.
  - eapply Forall_impl; [|exact (Hseq _ _ _ Hk Hb)]. apply balanced_dated.
Qed.

Section Flat.
Variable JSON_parse : string -> outcome value.
Variable now : string.

(** A flat sequence with a record that is cast does not validate. *)
Lemma flat_invalid (records : list value) (out : value) :
  records <> [] ->
  Forall castRecord records ->
  Parser.normalizeFinancialData JSON_parse now (VArr records) = Ok out ->
  Validation.validateFinancialData out <> [].
Proof.
  intros Hne Hcast Hn Hv.
  pose proof (CsvFacts.flat_classified _ _ _ _ Hn) as Hall.
  rewrite (FlatFacts.normalize_flat JSON_parse now (VArr records) records eq_refl Hall)
    in Hn.
  injection Hn as <-.
  pose proof (valid_dated _ _ _ _ _ _ _ Hv) as Hd.
  destruct records as [|r rest]; [congruence|].
  assert (Hin : In r (filter (Notions.classifiedAs "invoices") (r :: rest)
                      ++ filter (Notions.classifiedAs "expenses") (r :: rest)
                      ++ filter (Notions.classifiedAs "payments") (r :: rest)
                      ++ filter (Notions.classifiedAs "balances") (r :: rest))).
  { apply (Permutation_in r (Permutation_sym (FlatFacts.classified_share_out _ Hall))).
    now left. }
  inversion Hcast as [|? ? Hr _]; subst.
  apply (cast_not_dated r Hr).
  rewrite !in_app_iff in Hin.
  destruct Hin as [Hin|[Hin|[Hin|Hin]]];
    [ specialize (Hd "invoices" _ (or_introl eq_refl))
    | specialize (Hd "expenses" _ (or_intror (or_introl eq_refl)))
    | specialize (Hd "payments" _ (or_intror (or_intror (or_introl eq_refl))))
    | specialize (Hd "balances" _ (or_intror (or_intror (or_intror (or_introl eq_refl))))) ];
    rewrite Forall_forall in Hd; exact (Hd r Hin).
Qed.

End Flat.

End CastFacts.

(** X19.  A CSV request with a row is answered 400, whatever the analysis
    would give: every sequence of the schema asks each of its records for a
    [date] that is a string of the format [date], and [parseCSV] leaves no
    such string in a record.  The rows either fail to be classified, which
    is a failed parsing, or fail the validation. *)
Theorem a_csv_request_with_rows_is_answered_400 :
  forall (JSON_parse : string -> outcome value)
         (csv_parse : value -> outcome (list value))
         (now later : string) (reqBody : value) (records : list value),
    get_opt reqBody "format" = VStr "csv" ->
    csv_parse (get_opt reqBody "data") = Ok records ->
    records <> [] ->
    Forall Terms.castRecord records ->
    exists r,
      Controller.status r = 400
      /\ forall analyze : value -> outcome value,
           Controller.analyzeFinancialData JSON_parse csv_parse analyze now later
             reqBody = Ok r.
Proof.
  intros JSON_parse csv_parse now later reqBody records Hformat Hcsv Hne Hcast.
  assert (Hn : isNullish reqBody = false)
    by (destruct reqBody; try reflexivity; discriminate Hformat).
  unfold Controller.analyzeFinancialData. rewrite Hn, Hformat.
  destruct (truthy (get_opt reqBody "data")); simpl negb; cbv iota zeta.
  2: { eexists. split; [|intros analyze; reflexivity]. reflexivity. }
  unfold Controller.parseRequest, Csv.parseCSV, Controller.normalize.
  simpl Controller.strictEquals. cbv iota. rewrite Hcsv.
  cbv beta iota delta [bind try_catch].
  destruct (Parser.normalizeFinancialData JSON_parse now (VArr records))
    as [out|e|] eqn:Hout.
  - pose proof (CastFacts.flat_invalid JSON_parse now records out Hne Hcast Hout) as Hv.
    destruct (Validation.validateFinancialData out) as [|found rest] eqn:Hfound;
      [now elim Hv|].
    eexists. split.
    2: { intros analyze.
         pose proof (ResponseFacts.checked_cases analyze out) as Hc.
         unfold try_catch in Hc. rewrite Hfound in Hc.
         cbv beta iota delta [bind] in Hc. apply Hc. }
    reflexivity.
  - eexists. split; [|intros analyze; reflexivity]. reflexivity.
  - exfalso.
    destruct (forallb Terms.classifiable records) eqn:Hall.
    + rewrite forallb_forall in Hall.
      rewrite (FlatFacts.normalize_flat JSON_parse now (VArr records) records eq_refl)
        in Hout; [discriminate Hout|].
      apply Forall_forall. intros r Hr.
      exact (TagFacts.classifiable_classified r (Hall r Hr)).
    + destruct (TagFacts.categorize_throws records Hall Parser.emptyCategories)
        as (e & He).
      unfold Parser.normalizeFinancialData, Parser.categorizeFlatData in Hout.
      cbv beta iota delta [bind] in Hout. rewrite He in Hout. discriminate Hout.
Qed.

Lemma a_csv_request_with_rows_is_answered_400_witness :
  let rows := [VObj [("vendor", VStr "Acme"); ("amount", int 50)]] in
  let csv_parse := fun _ : value => Ok rows in
  let reqBody := VObj [("data", VStr ("vendor,amount" ++ String (ascii_of_nat 10) "Acme,50"));
                       ("format", VStr "csv")] in
  exists r,
    Controller.status r = 400
    /\ forall analyze : value -> outcome value,
         Controller.analyzeFinancialData Json.parse csv_parse analyze
           "2024-03-01T09:30:00.000Z" "2024-03-01T09:30:02.000Z" reqBody = Ok r.
Proof.
  intros rows csv_parse reqBody.
  apply (a_csv_request_with_rows_is_answered_400 Json.parse csv_parse
           "2024-03-01T09:30:00.000Z" "2024-03-01T09:30:02.000Z" reqBody rows).
  - reflexivity.
  - reflexivity.
  - discriminate.
  - repeat constructor. intros e k s E Hl. injection E as <-. simpl in Hl.
    destruct (String.eqb k "vendor"); [now injection Hl as <-|].
    destruct (String.eqb k "amount"); discriminate Hl.
Defined.
